(** * Tri-lobe tentacle generator scripts: a shallow embedding

    Two scripts drive a 3D host application:
    [render_tentacle_cli.py] (module [Cli]) and
    [tri_lobe_tentacle_generator.py] (module [TriLobe]).

    Numbers.  Python floats are idealised as real numbers ([R]); the
    one place where control flow hinges on a comparison that is an
    exact tie in the reals (the [break] test of [create_bladders]) is
    evaluated a second time in IEEE binary64 (module [Binary64]).

    Host.  The host application is not part of the repository.  Its
    scene is modelled as an object table in which every mesh is the
    history of host operations that built it; every operator call and
    every file operation asks a host behaviour whether it raises. *)

From Stdlib Require Import Reals Lra Lia List String DecimalString Bool ZArith.
From Stdlib Require PrimFloat SpecFloat FloatOps.
Import ListNotations.

Set Implicit Arguments.

(* ================================================================== *)
(** * Python values shared by both scripts *)

(** The exception classes the scripts name or can meet.
    [KeyboardInterrupt] stands for the classes that derive from
    [BaseException] only: [except Exception] lets them through, a bare
    [except:] does not. *)
Inductive exn : Set :=
| AttributeError | TypeError | ValueError | RuntimeError | OSError
| ReferenceError | KeyboardInterrupt.

Definition is_Exception (e : exn) : bool :=
  match e with KeyboardInterrupt => false | _ => true end.

Definition is_AttributeError (e : exn) : bool :=
  match e with AttributeError => true | _ => false end.

Definition is_TypeError (e : exn) : bool :=
  match e with TypeError => true | _ => false end.

Inductive result (A : Type) : Type :=
| Ok (a : A)
| Raise (e : exn).
Arguments Ok {A} a.
Arguments Raise {A} e.

Definition returns_normally {A} (r : result A) : Prop :=
  match r with Ok _ => True | Raise _ => False end.

(** [range(n)] *)
Definition range (n : nat) : list nat := seq 0 n.

Module Py.
Open Scope R_scope.

(** [max(a, b)]: the first argument unless the second is greater. *)
Definition max (a b : R) : R := if Rlt_dec a b then b else a.

(** [min(a, b)]: the first argument unless the second is smaller. *)
Definition min (a b : R) : R := if Rlt_dec b a then b else a.

(** [int(x)]: truncation towards zero. *)
Definition int (x : R) : Z :=
  if Rle_dec 0 x then Int_part x else (- Int_part (- x))%Z.

(** [math.atan2(y, x)] *)
Definition atan2 (y x : R) : R :=
  if Rlt_dec 0 x then atan (y / x)
  else if Rlt_dec x 0 then
         if Rle_dec 0 y then atan (y / x) + PI else atan (y / x) - PI
       else if Rlt_dec 0 y then PI / 2
            else if Rlt_dec y 0 then - (PI / 2) else 0.

(** [math.acos(x)] raises [ValueError] (math domain error) outside
    [-1, 1]. *)
Definition acos (x : R) : result R :=
  if Rle_dec (-1) x then
    if Rle_dec x 1 then Ok (Ratan.acos x) else Raise ValueError
  else Raise ValueError.
End Py.

(* ================================================================== *)
(** * mathutils.Vector *)

Record vec : Type := Vec { vx : R; vy : R; vz : R }.

Module Vector.
Open Scope R_scope.

Definition cross (a b : vec) : vec :=
  Vec (vy a * vz b - vz a * vy b)
      (vz a * vx b - vx a * vz b)
      (vx a * vy b - vy a * vx b).

Definition dot (a b : vec) : R := vx a * vx b + vy a * vy b + vz a * vz b.

Definition length (a : vec) : R := sqrt (vx a * vx a + vy a * vy a + vz a * vz a).

Definition scale (k : R) (a : vec) : vec := Vec (k * vx a) (k * vy a) (k * vz a).

(** [normalized()] / [normalize()].  The host library returns the zero
    vector for a zero vector; the model is stricter and counts that
    as a failure, so that a result [Ok] excludes it. *)
Definition normalized (a : vec) : result vec :=
  if Rlt_dec 0 (length a) then Ok (scale (/ length a) a) else Raise ValueError.
End Vector.

(* ================================================================== *)
(** * Python strings and paths *)

Module Str.
Open Scope string_scope.

(** [str(n)] of a non-negative [int]. *)
Definition of_nat (n : nat) : string := NilZero.string_of_uint (Nat.to_uint n).

(** [needle in hay] *)
Fixpoint contains (needle hay : string) : bool :=
  if String.prefix needle hay then true
  else match hay with
       | EmptyString => false
       | String _ rest => contains needle rest
       end.

Fixpoint drop (n : nat) (s : string) : string :=
  match n, s with
  | S k, String _ rest => drop k rest
  | _, _ => s
  end.

Fixpoint replace_fuel (fuel : nat) (old new s : string) : string :=
  match fuel with
  | O => s
  | S fuel' =>
      match s with
      | EmptyString => EmptyString
      | String c rest =>
          if String.prefix old s
          then new ++ replace_fuel fuel' old new (drop (String.length old) s)
          else String c (replace_fuel fuel' old new rest)
      end
  end.

(** [s.replace(old, new)] for a non-empty [old]. *)
Definition replace (old new s : string) : string :=
  replace_fuel (String.length s) old new s.

Definition ends_with_slash (s : string) : bool :=
  match String.length s with
  | O => false
  | S n => String.eqb (substring n 1 s) "/"
  end.

(** [os.path.join(a, b)] on a POSIX host. *)
Definition path_join (a b : string) : string :=
  if String.prefix "/" b then b
  else if String.eqb a "" then b
  else if ends_with_slash a then a ++ b
  else a ++ "/" ++ b.
End Str.

(* ================================================================== *)
(** * The host scene *)

Definition objid : Set := nat.

Inductive boolop : Set := UNION | DIFFERENCE.
Inductive solver : Set := SolverDefault | FAST | EXACT.

Inductive rotation : Type :=
| NoRotation
| AxisAngle (angle : R) (axis : vec)
| Euler (x y z : R).

(** A mesh is the history of the host operations that built it. *)
Inductive mesh : Type :=
| Cone (vertices : nat) (radius1 radius2 depth : R)
| Cylinder (vertices : option nat) (radius depth : R)
| UVSphere (radius : R)
| Cube (size : R)
| MapVerts (f : vec -> vec) (m : mesh)
| Transformed (location : vec) (rot : rotation) (scale : vec) (m : mesh)
| Boolean (op : boolop) (s : solver) (m operand : mesh)
| Edited (operator : string) (m : mesh)
| Joined (m other : mesh).

Inductive object_data : Type :=
| MESH (m : mesh) (materials : list string)
| CAMERA
| LIGHT (kind : string)
| EMPTY.

Record modifier : Set := Modifier {
  mod_name : string;
  mod_operation : boolop;
  mod_object : objid;
  mod_solver : solver }.

Record object : Type := Object {
  obj_name : string;
  obj_data : object_data;
  obj_location : vec;
  obj_rotation : rotation;
  obj_scale : vec;
  obj_modifiers : list modifier;
  obj_selected : bool;
  obj_hidden : bool }.

(** What a file written during the run holds: the render of the scene,
    a scene file with the objects it saves, an STL file written by a
    host exporter with the objects it exports, or text written by the
    script itself. *)
Inductive file_content : Type :=
| Image
| BlendFile (scene : list object)
| HostStl (exported : list object) (global_scale : R)
| Text (s : string).

(** Operator calls, file operations and host attributes that can raise. *)
Inductive hostcall : Type :=
| object_select_all (action : string)
| object_delete
| mesh_primitive_cone_add (vertices : nat) (radius1 radius2 depth : R) (location : vec)
| mesh_primitive_cylinder_add (vertices : option nat) (radius depth : R) (location : vec)
| mesh_primitive_uv_sphere_add (radius : R) (location : vec)
| mesh_primitive_cube_add (size : R) (location : vec)
| object_camera_add (location : vec)
| object_light_add (kind : string) (location : vec)
| object_empty_add (location : vec)
| object_mode_set (mode : string)
| object_shade_smooth
| object_transform_apply
| object_modifier_apply (modifier : string)
| object_join
| mesh_select (operator : string)
| mesh_edit (operator : string)
| outliner_orphans_purge
| render_render
| export_mesh_stl (filepath : string) (global_scale : R)
| wm_stl_export (filepath : string) (global_scale : R)
| wm_save_as_mainfile (filepath : string)
| os_makedirs (path : string)
| file_open (path : string)
| file_write (path : string) (s : string)
| set_render_engine (engine : string)
| scene_eevee
| screen_areas
| bmesh_from_mesh (m : mesh).

(** Outcome reports printed by the scripts. *)
Inductive message : Set :=
| Exported (filename : string)
| Exported_file (valid : bool) (filepath : string)
| Exported_method_2 (filename : string)
| Stl_not_available_saved_as (blend_filepath : string)
| Could_not_export (filename : string)
| Export_failed (filename : string) (e : exn)
| Saved_as_blender_file_instead (blend_path : string)
| All_export_methods_failed (e : exn)
| Rendered (filename : string)
| Rendered_image (output_path : string)
| Render_failed (e : exn)
| Saved_blender_file (filename : string)
| Could_not_save_blender_file (e : exn)
| Non_manifold_warning (count : nat) (name : string)
| Geometry_is_manifold (name : string)
| Boolean_operation_failed (name : string)
| No_channel_found (lobe : nat)
| Output_directory (path : string).

Record world : Type := World {
  objects : list (objid * object);
  next_id : objid;
  active : option objid;
  materials : list string;
  render_filepath : string;
  files : list (string * file_content);
  stdout : list message;
  calls : list hostcall }.

Record face : Type := Face { normal : vec; verts : list vec }.

(** The host and its environment: which calls raise (as a function of
    the call and of the whole state, call history included), the mesh
    kernel's view of a mesh, which paths exist when the script starts,
    where the script lies, and how Python prints a float. *)
Record host : Type := Host {
  raises : hostcall -> world -> option exn;
  faces_of : mesh -> list face;
  non_manifold_vertices : mesh -> nat;
  path_exists : string -> bool;
  script_dir : string;
  float_str : R -> string }.

(* ================================================================== *)
(** * State updates *)

Definition with_objects (objs : list (objid * object)) (w : world) : world :=
  World objs (next_id w) (active w) (materials w) (render_filepath w)
        (files w) (stdout w) (calls w).

Definition with_active (a : option objid) (w : world) : world :=
  World (objects w) (next_id w) a (materials w) (render_filepath w)
        (files w) (stdout w) (calls w).

Definition with_materials (ms : list string) (w : world) : world :=
  World (objects w) (next_id w) (active w) ms (render_filepath w)
        (files w) (stdout w) (calls w).

Definition with_render_filepath (p : string) (w : world) : world :=
  World (objects w) (next_id w) (active w) (materials w) p
        (files w) (stdout w) (calls w).

Definition with_files (fs : list (string * file_content)) (w : world) : world :=
  World (objects w) (next_id w) (active w) (materials w) (render_filepath w)
        fs (stdout w) (calls w).

Definition with_stdout (out : list message) (w : world) : world :=
  World (objects w) (next_id w) (active w) (materials w) (render_filepath w)
        (files w) out (calls w).

Definition log_call (c : hostcall) (w : world) : world :=
  World (objects w) (next_id w) (active w) (materials w) (render_filepath w)
        (files w) (stdout w) (calls w ++ [c]).

Definition with_name (s : string) (o : object) : object :=
  Object s (obj_data o) (obj_location o) (obj_rotation o) (obj_scale o)
         (obj_modifiers o) (obj_selected o) (obj_hidden o).

Definition with_data (d : object_data) (o : object) : object :=
  Object (obj_name o) d (obj_location o) (obj_rotation o) (obj_scale o)
         (obj_modifiers o) (obj_selected o) (obj_hidden o).

Definition with_location (v : vec) (o : object) : object :=
  Object (obj_name o) (obj_data o) v (obj_rotation o) (obj_scale o)
         (obj_modifiers o) (obj_selected o) (obj_hidden o).

Definition with_rotation (r : rotation) (o : object) : object :=
  Object (obj_name o) (obj_data o) (obj_location o) r (obj_scale o)
         (obj_modifiers o) (obj_selected o) (obj_hidden o).

Definition with_scale (v : vec) (o : object) : object :=
  Object (obj_name o) (obj_data o) (obj_location o) (obj_rotation o) v
         (obj_modifiers o) (obj_selected o) (obj_hidden o).

Definition with_modifiers (ms : list modifier) (o : object) : object :=
  Object (obj_name o) (obj_data o) (obj_location o) (obj_rotation o) (obj_scale o)
         ms (obj_selected o) (obj_hidden o).

Definition with_selected (b : bool) (o : object) : object :=
  Object (obj_name o) (obj_data o) (obj_location o) (obj_rotation o) (obj_scale o)
         (obj_modifiers o) b (obj_hidden o).

Definition with_hidden (b : bool) (o : object) : object :=
  Object (obj_name o) (obj_data o) (obj_location o) (obj_rotation o) (obj_scale o)
         (obj_modifiers o) (obj_selected o) b.

Definition with_mesh (f : mesh -> mesh) (o : object) : object :=
  match obj_data o with
  | MESH m mats => with_data (MESH (f m) mats) o
  | _ => o
  end.

Definition mesh_of (o : object) : option mesh :=
  match obj_data o with MESH m _ => Some m | _ => None end.

Fixpoint lookup (id : objid) (objs : list (objid * object)) : option object :=
  match objs with
  | [] => None
  | (k, o) :: rest => if Nat.eqb k id then Some o else lookup id rest
  end.

Fixpoint update (id : objid) (f : object -> object) (objs : list (objid * object))
  : list (objid * object) :=
  match objs with
  | [] => []
  | (k, o) :: rest =>
      if Nat.eqb k id then (k, f o) :: rest else (k, o) :: update id f rest
  end.

Definition remove (id : objid) (objs : list (objid * object)) : list (objid * object) :=
  filter (fun ko => negb (Nat.eqb (fst ko) id)) objs.

Definition map_objects (f : object -> object) (objs : list (objid * object))
  : list (objid * object) :=
  map (fun ko => (fst ko, f (snd ko))) objs.

Definition selected_objects (w : world) : list (objid * object) :=
  filter (fun ko => obj_selected (snd ko)) (objects w).

(** [files] is the log of the files written, oldest first. *)
Definition write_file (path : string) (c : file_content) (fs : list (string * file_content))
  : list (string * file_content) :=
  fs ++ [(path, c)].

(** The most recent entry for [path] in a log read newest first. *)
Fixpoint find_newest (path : string) (newest_first : list (string * file_content))
  : option file_content :=
  match newest_first with
  | [] => None
  | (p, c) :: rest => if String.eqb p path then Some c else find_newest path rest
  end.

Definition read_file (path : string) (fs : list (string * file_content)) : option file_content :=
  find_newest path (rev fs).

Fixpoint append_newest (path : string) (s : string)
         (newest_first : list (string * file_content)) : list (string * file_content) :=
  match newest_first with
  | [] => [(path, Text s)]
  | (p, c) :: rest =>
      if String.eqb p path
      then (p, match c with Text t => Text (t ++ s) | _ => Text s end) :: rest
      else (p, c) :: append_newest path s rest
  end.

(** [f.write(s)] extends the text of the file as last opened. *)
Definition append_text (path : string) (s : string) (fs : list (string * file_content))
  : list (string * file_content) :=
  rev (append_newest path s (rev fs)).

Definition identity_scale : vec := Vec 1 1 1.

Definition new_object (name : string) (d : object_data) (location : vec) : object :=
  Object name d location NoRotation identity_scale [] true false.

(** A newly added object is the only selected one and the active one. *)
Definition add_active (o : object) (w : world) : world :=
  World (map_objects (with_selected false) (objects w) ++ [(next_id w, o)])
        (S (next_id w)) (Some (next_id w)) (materials w) (render_filepath w)
        (files w) (stdout w) (calls w).

(** [transform_apply] on one object: the transform goes into the mesh. *)
Definition apply_transform (o : object) : object :=
  match obj_data o with
  | MESH m mats =>
      Object (obj_name o)
             (MESH (Transformed (obj_location o) (obj_rotation o) (obj_scale o) m) mats)
             (Vec 0 0 0) NoRotation identity_scale
             (obj_modifiers o) (obj_selected o) (obj_hidden o)
  | _ => o
  end.

Fixpoint find_modifier (name : string) (ms : list modifier) : option modifier :=
  match ms with
  | [] => None
  | m :: rest => if String.eqb (mod_name m) name then Some m else find_modifier name rest
  end.

Definition remove_modifier (name : string) (ms : list modifier) : list modifier :=
  filter (fun m => negb (String.eqb (mod_name m) name)) ms.

(* ================================================================== *)
(** * Scripts as state transformers that may raise

    A raised exception keeps the state reached so far. *)

Definition M (A : Type) : Type := world -> result A * world.

Definition ret {A} (a : A) : M A := fun w => (Ok a, w).

Definition bind {A B} (m : M A) (k : A -> M B) : M B :=
  fun w => match m w with
           | (Ok a, w') => k a w'
           | (Raise e, w') => (Raise e, w')
           end.

Definition raise {A} (e : exn) : M A := fun w => (Raise e, w).

Declare Scope script_scope.
Delimit Scope script_scope with script.
Notation "x <- c ;; k" := (bind c (fun x => k))
  (at level 61, c at next level, right associativity) : script_scope.
Notation "c ;; k" := (bind c (fun _ => k))
  (at level 61, right associativity) : script_scope.
Open Scope script_scope.

(** [try: body / except <catches> as e: handler e] *)
Definition try_except {A} (body : M A) (catches : exn -> bool) (handler : exn -> M A) : M A :=
  fun w => match body w with
           | (Raise e, w') => if catches e then handler e w' else (Raise e, w')
           | r => r
           end.

Definition any_exception (_ : exn) : bool := true.

Definition modify (f : world -> world) : M unit := fun w => (Ok tt, f w).

Definition gets {A} (f : world -> A) : M A := fun w => (Ok (f w), w).

(** [for x in xs: body x] *)
Fixpoint for_each {A} (xs : list A) (body : A -> M unit) : M unit :=
  match xs with
  | [] => ret tt
  | x :: rest => body x ;; for_each rest body
  end.

(** A loop whose body appends one value to a list. *)
Fixpoint for_collect {A B} (xs : list A) (body : A -> M B) : M (list B) :=
  match xs with
  | [] => ret []
  | x :: rest => b <- body x ;; bs <- for_collect rest body ;; ret (b :: bs)
  end.

Definition print (m : message) : M unit :=
  modify (fun w => with_stdout (stdout w ++ [m]) w).

(** ** Attribute access on host objects *)

(** Reading through a reference to a removed object raises. *)
Definition get_object (id : objid) : M object :=
  fun w => match lookup id (objects w) with
           | Some o => (Ok o, w)
           | None => (Raise ReferenceError, w)
           end.

Definition set_object (id : objid) (f : object -> object) : M unit :=
  get_object id ;; modify (fun w => with_objects (update id f (objects w)) w).

Definition get_name (id : objid) : M string := o <- get_object id ;; ret (obj_name o).

(** [bpy.context.active_object]; using [None] as an object raises. *)
Definition active_object : M objid :=
  fun w => match active w with
           | Some id => (Ok id, w)
           | None => (Raise AttributeError, w)
           end.

(** [bpy.context.view_layer.objects.active = obj] *)
Definition set_active (id : objid) : M unit := modify (with_active (Some id)).

(** [bpy.data.objects.remove(obj, do_unlink=True)] *)
Definition objects_remove (id : objid) : M unit :=
  get_object id ;;
  modify (fun w => with_objects (remove id (objects w)) w) ;;
  modify (fun w => match active w with
                   | Some a => if Nat.eqb a id then with_active None w else w
                   | None => w
                   end).

(** [material.users]: the objects whose mesh has the material in a
    slot. *)
Definition uses_material (name : string) (o : object) : bool :=
  match obj_data o with
  | MESH _ materials => existsb (String.eqb name) materials
  | _ => false
  end.

Definition material_users (name : string) (w : world) : nat :=
  List.length (filter (fun ko => uses_material name (snd ko)) (objects w)).

(** [bpy.data.materials.remove(material)] *)
Definition materials_remove (name : string) : M unit :=
  modify (fun w => with_materials
            (filter (fun material => negb (String.eqb material name)) (materials w)) w).

(** [obj.data.materials.append(mat)] *)
Definition materials_append (id : objid) (mat : string) : M unit :=
  o <- get_object id ;;
  match obj_data o with
  | MESH m mats => set_object id (with_data (MESH m (mats ++ [mat])))
  | _ => raise AttributeError
  end.

(** [obj.modifiers.new(name, type='BOOLEAN')] with its attributes set. *)
Definition modifiers_new (id : objid) (md : modifier) : M unit :=
  set_object id (fun o => with_modifiers (obj_modifiers o ++ [md]) o).

Definition modifiers_remove (id : objid) (name : string) : M unit :=
  set_object id (fun o => with_modifiers (remove_modifier name (obj_modifiers o)) o).

(** [c = obj.copy(); c.data = obj.data.copy(); c.name = name;
    bpy.context.collection.objects.link(c)]; a linked copy is not
    selected. *)
Definition copy_object (id : objid) (name : string) : M objid :=
  o <- get_object id ;;
  new <- gets next_id ;;
  modify (fun w => World (objects w ++ [(new, with_selected false (with_name name o))])
                         (S new) (active w)
                         (materials w) (render_filepath w) (files w) (stdout w) (calls w)) ;;
  ret new.

(** ** Calls that ask the host *)

Section HostCalls.
Variable h : host.

(** The call is logged; when the host lets it through, [effect] runs. *)
Definition call (c : hostcall) (effect : M unit) : M unit :=
  fun w => match raises h c w with
           | Some e => (Raise e, log_call c w)
           | None => effect (log_call c w)
           end.

Definition no_effect : M unit := ret tt.

(** [bpy.ops.object.select_all(action=...)] works on the visible
    objects: ['SELECT'] marks those, and an object that is hidden is
    left out of the selection. *)
Definition select_all (action : string) : M unit :=
  call (object_select_all action)
    (modify (fun w => with_objects
               (map_objects
                  (fun o => with_selected
                              (String.eqb action "SELECT" && negb (obj_hidden o)) o)
                  (objects w)) w)).

(** [bpy.ops.object.delete]: the selected objects go. *)
Definition delete : M unit :=
  call object_delete
    (modify (fun w => with_active None
               (with_objects
                  (filter (fun ko => negb (obj_selected (snd ko))) (objects w)) w))).

Definition primitive_cone_add (vertices : nat) (radius1 radius2 depth : R) (location : vec)
  : M unit :=
  call (mesh_primitive_cone_add vertices radius1 radius2 depth location)
    (modify (add_active (new_object "Cone" (MESH (Cone vertices radius1 radius2 depth) []) location))).

Definition primitive_cylinder_add (vertices : option nat) (radius depth : R) (location : vec)
  : M unit :=
  call (mesh_primitive_cylinder_add vertices radius depth location)
    (modify (add_active (new_object "Cylinder" (MESH (Cylinder vertices radius depth) []) location))).

Definition primitive_uv_sphere_add (radius : R) (location : vec) : M unit :=
  call (mesh_primitive_uv_sphere_add radius location)
    (modify (add_active (new_object "Sphere" (MESH (UVSphere radius) []) location))).

Definition primitive_cube_add (size : R) (location : vec) : M unit :=
  call (mesh_primitive_cube_add size location)
    (modify (add_active (new_object "Cube" (MESH (Cube size) []) location))).

Definition camera_add (location : vec) : M unit :=
  call (object_camera_add location)
    (modify (add_active (new_object "Camera" CAMERA location))).

Definition light_add (kind : string) (location : vec) : M unit :=
  call (object_light_add kind location)
    (modify (add_active (new_object "Light" (LIGHT kind) location))).

Definition empty_add (location : vec) : M unit :=
  call (object_empty_add location)
    (modify (add_active (new_object "Empty" EMPTY location))).

Definition mode_set (mode : string) : M unit := call (object_mode_set mode) no_effect.

Definition shade_smooth : M unit := call object_shade_smooth no_effect.

(** [bpy.ops.object.transform_apply] acts on the selected objects; the
    keyword arguments the scripts pass leave all three flags on. *)
Definition transform_apply : M unit :=
  call object_transform_apply
    (modify (fun w => with_objects
               (map_objects (fun o => if obj_selected o then apply_transform o else o)
                            (objects w)) w)).

(** [bpy.ops.object.modifier_apply(modifier=name)] on the active object. *)
Definition modifier_apply (name : string) : M unit :=
  call (object_modifier_apply name)
    (a <- active_object ;;
     o <- get_object a ;;
     match find_modifier name (obj_modifiers o) with
     | None => raise RuntimeError
     | Some md =>
         operand <- get_object (mod_object md) ;;
         match mesh_of operand with
         | None => raise RuntimeError
         | Some om =>
             set_object a (fun o =>
               with_modifiers (remove_modifier name (obj_modifiers o))
                 (with_mesh (fun m => Boolean (mod_operation md) (mod_solver md) m om) o))
         end
     end).

(** [bpy.ops.object.join]: the other selected meshes go into the
    active object. *)
Definition join : M unit :=
  call object_join
    (a <- active_object ;;
     get_object a ;;
     modify (fun w =>
       let others := filter (fun ko => negb (Nat.eqb (fst ko) a)) (selected_objects w) in
       let merged o :=
         fold_left (fun o ko => match mesh_of (snd ko) with
                                | Some m' => with_mesh (fun m => Joined m m') o
                                | None => o
                                end) others o in
       with_objects
         (update a merged
            (filter (fun ko => orb (Nat.eqb (fst ko) a) (negb (obj_selected (snd ko))))
                    (objects w))) w)).

Definition mesh_select_op (operator : string) : M unit := call (mesh_select operator) no_effect.

(** An edit-mode mesh operator rewrites the mesh of the active object. *)
Definition mesh_edit_op (operator : string) : M unit :=
  call (mesh_edit operator)
    (a <- active_object ;; set_object a (with_mesh (Edited operator))).

(** [bpy.ops.outliner.orphans_purge]: the data without users goes.
    A mesh is held by its object here, so the materials are the only
    data that can be left without users. *)
Definition orphans_purge : M unit :=
  call outliner_orphans_purge
    (modify (fun w => with_materials
               (filter (fun material => negb (Nat.eqb (material_users material w) 0))
                       (materials w)) w)).

(** [bpy.ops.render.render(write_still=True)] *)
Definition render : M unit :=
  call render_render
    (modify (fun w => with_files (write_file (render_filepath w) Image (files w)) w)).

Definition stl_export_legacy (filepath : string) (global_scale : R) : M unit :=
  call (export_mesh_stl filepath global_scale)
    (modify (fun w => with_files
               (write_file filepath (HostStl (map snd (selected_objects w)) global_scale)
                           (files w)) w)).

Definition stl_export (filepath : string) (global_scale : R) : M unit :=
  call (wm_stl_export filepath global_scale)
    (modify (fun w => with_files
               (write_file filepath (HostStl (map snd (selected_objects w)) global_scale)
                           (files w)) w)).

Definition save_as_mainfile (filepath : string) : M unit :=
  call (wm_save_as_mainfile filepath)
    (modify (fun w => with_files
               (write_file filepath (BlendFile (map snd (objects w))) (files w)) w)).

Definition makedirs (path : string) : M unit := call (os_makedirs path) no_effect.

(** [open(path, 'w')] creates or truncates the file. *)
Definition open_w (path : string) : M unit :=
  call (file_open path)
    (modify (fun w => with_files (write_file path (Text "") (files w)) w)).

Definition write (path : string) (s : string) : M unit :=
  call (file_write path s)
    (modify (fun w => with_files (append_text path s (files w)) w)).

(** [scene.render.engine = name] raises [TypeError] for a name the
    host does not know. *)
Definition set_engine (engine : string) : M unit := call (set_render_engine engine) no_effect.

(** [bpy.context.scene.eevee] and the attributes set on it. *)
Definition eevee_settings : M unit := call scene_eevee no_effect.

(** [bpy.context.screen.areas], [AttributeError] without a screen; the
    viewport settings written in the loop are not represented. *)
Definition viewport_areas : M unit := call screen_areas no_effect.

(** [bm = bmesh.new(); bm.from_mesh(obj.data)]: the mesh read. *)
Definition bm_from_mesh (id : objid) : M mesh :=
  o <- get_object id ;;
  match obj_data o with
  | MESH m _ => call (bmesh_from_mesh m) no_effect ;; ret m
  | _ => raise TypeError
  end.

(** [bm.from_mesh(obj.data)], a loop over [bm.verts] that rewrites
    each vertex by [f], [bm.to_mesh(obj.data)]. *)
Definition bmesh_map_verts (id : objid) (f : vec -> vec) : M unit :=
  bm_from_mesh id ;;
  set_object id (with_mesh (MapVerts f)).

(** [name in bpy.data.materials] / [bpy.data.materials.new(name)]; the
    shader nodes of a material are not represented. *)
Definition ensure_material (name : string) : M string :=
  ms <- gets materials ;;
  (if existsb (String.eqb name) ms then ret tt
   else modify (with_materials (ms ++ [name]))) ;;
  ret name.
End HostCalls.

(* ================================================================== *)
(** * render_tentacle_cli.py: parameters and closed-form geometry *)

Module Cli.
Open Scope R_scope.

Definition tentacle_len_mm : R := 150.0.
Definition base_radius_mm : R := 25.0.
Definition tip_radius_mm : R := 0.0.
Definition bladder_long_mm : R := 10.0.
Definition bladder_short_mm : R := 6.0.
Definition bladder_spacing_mm : R := 15.0.
Definition channel_radius_mm : R := 2.0.
Definition connector_radius_mm : R := 6.35.
Definition connector_length_mm : R := 20.0.
Definition MM : R := 0.001.

(** ** create_simple_tentacle: the body of [for vert in bm.verts] *)
Definition trilobe_vertex (co : vec) : vec :=
  let z_ratio := (vz co + tentacle_len_mm / 2 * MM) / (tentacle_len_mm * MM) in
  let angle := Py.atan2 (vy co) (vx co) in
  let lobe_effect := sin (angle * 3) * 0.35 * (1 - z_ratio ^ 3) in
  let radius := sqrt (vx co ^ 2 + vy co ^ 2) in
  if Rlt_dec 0 radius then
    let scale_factor := 1 + lobe_effect in
    Vec (vx co * scale_factor) (vy co * scale_factor) (vz co)
  else co.

(** ** create_channels: the arithmetic of one lobe *)
Record channel_geometry : Type := ChannelGeometry {
  start_x : R; start_y : R; z_start : R;
  end_x : R; end_y : R; z_end : R;
  channel_length : R;
  center : vec;
  base_channel_radius : R;
  tip_channel_radius : R }.

Definition channel_geometry_of (lobe : nat) : channel_geometry :=
  let angle := INR lobe * 2 * PI / 3 + PI / 6 in
  let z_start := 0 in
  let offset_ratio_start := 0.5 in
  let offset_distance_start := base_radius_mm * offset_ratio_start * MM in
  let lobe_effect_start := sin (angle * 3) * 0.35 in
  let actual_offset_start := offset_distance_start * (1 + lobe_effect_start) in
  let z_end := tentacle_len_mm * MM * 0.85 in
  let z_ratio_end := 0.85 in
  let offset_ratio_end := 0.5 - (0.3 * z_ratio_end) in
  let offset_distance_end := base_radius_mm * offset_ratio_end * MM in
  let lobe_effect_end := sin (angle * 3) * 0.35 * (1 - z_ratio_end ^ 3) in
  let actual_offset_end := offset_distance_end * (1 + lobe_effect_end) in
  let start_x := actual_offset_start * cos angle in
  let start_y := actual_offset_start * sin angle in
  let inward_factor := 0.4 in
  let end_x := actual_offset_end * cos angle * inward_factor in
  let end_y := actual_offset_end * sin angle * inward_factor in
  let channel_length :=
    sqrt ((end_x - start_x) ^ 2 + (end_y - start_y) ^ 2 + (z_end - z_start) ^ 2) in
  let center_x := (start_x + end_x) / 2 in
  let center_y := (start_y + end_y) / 2 in
  let center_z := (z_start + z_end) / 2 in
  let base_tentacle_radius := base_radius_mm * MM in
  let tip_tentacle_radius := base_radius_mm * MM * 0.15 in
  let base_channel_radius := base_tentacle_radius * 0.15 in
  let tip_channel_radius := tip_tentacle_radius * 0.10 in
  let base_channel_radius := Py.min base_channel_radius (channel_radius_mm * MM * 1.5) in
  let tip_channel_radius := Py.max tip_channel_radius (channel_radius_mm * MM * 0.1) in
  ChannelGeometry start_x start_y z_start end_x end_y z_end channel_length
    (Vec center_x center_y center_z) base_channel_radius tip_channel_radius.

(** The rotation step of create_channels from [rotation_axis =
    up_vector.cross(direction_vector)] on: [None] when the step is
    skipped, [Some (angle, axis)] when [rotation_axis_angle] is set.
    The direction vector is whatever the normalisation handed over;
    computed in floating point its length need not be exactly one, so
    the step is defined for every vector. *)
Definition rotation_to (direction_vector : vec) : result (option (R * vec)) :=
  let up_vector := Vec 0 0 1 in
  let rotation_axis := Vector.cross up_vector direction_vector in
  if Rlt_dec 0 (Vector.length rotation_axis) then
    match Vector.normalized rotation_axis with
    | Raise e => Raise e
    | Ok rotation_axis =>
        match Py.acos (Py.min 1.0 (Py.max (-1.0) (Vector.dot up_vector direction_vector))) with
        | Raise e => Raise e
        | Ok rotation_angle => Ok (Some (rotation_angle, rotation_axis))
        end
    end
  else Ok None.

(** The rotation that aligns the cone with the channel, for a start
    point [(start_x, start_y, 0)] and an end point
    [(end_x, end_y, z_end)]. *)
Definition channel_rotation (start_x start_y end_x end_y : R)
  : result (option (R * vec)) :=
  let z_start := 0 in
  let z_end := tentacle_len_mm * MM * 0.85 in
  match Vector.normalized (Vec (end_x - start_x) (end_y - start_y) (z_end - z_start)) with
  | Raise e => Raise e
  | Ok direction_vector => rotation_to direction_vector
  end.

(** ** create_bladders: the arithmetic of one iteration *)
Definition num_bladders : Z := (Py.int (tentacle_len_mm / bladder_spacing_mm) - 1)%Z.

Definition z_pos (i : nat) : R := INR (i + 1) * bladder_spacing_mm * MM.

(** [if z_pos >= tentacle_len_mm * MM - bladder_spacing_mm * MM: break] *)
Definition breaks_at (i : nat) : bool :=
  if Rge_dec (z_pos i) (tentacle_len_mm * MM - bladder_spacing_mm * MM)
  then true else false.

(** The indices of [for i in range(num_bladders)] whose body runs
    past the [break] test. *)
Fixpoint before_break (indices : list nat) : list nat :=
  match indices with
  | [] => []
  | i :: rest => if breaks_at i then [] else i :: before_break rest
  end.

Definition bladder_indices : list nat := before_break (range (Z.to_nat num_bladders)).

Definition bladder_center (lobe i : nat) : vec :=
  let angle := INR lobe * 2 * PI / 3 + PI / 6 in
  let offset_ratio_start := 0.5 in
  let offset_distance_start := base_radius_mm * offset_ratio_start * MM in
  let lobe_effect_start := sin (angle * 3) * 0.35 in
  let actual_offset_start := offset_distance_start * (1 + lobe_effect_start) in
  let start_x := actual_offset_start * cos angle in
  let start_y := actual_offset_start * sin angle in
  let z_end := tentacle_len_mm * MM * 0.85 in
  let z_ratio_end := 0.85 in
  let offset_ratio_end := 0.5 - (0.3 * z_ratio_end) in
  let offset_distance_end := base_radius_mm * offset_ratio_end * MM in
  let lobe_effect_end := sin (angle * 3) * 0.35 * (1 - z_ratio_end ^ 3) in
  let actual_offset_end := offset_distance_end * (1 + lobe_effect_end) in
  let inward_factor := 0.4 in
  let end_x := actual_offset_end * cos angle * inward_factor in
  let end_y := actual_offset_end * sin angle * inward_factor in
  let z_pos := z_pos i in
  let path_ratio := z_pos / z_end in
  let center_x := start_x + (end_x - start_x) * path_ratio in
  let center_y := start_y + (end_y - start_y) * path_ratio in
  Vec center_x center_y z_pos.

(** The radius before the minimum and maximum constraints. *)
Definition bladder_radius_unclamped (i : nat) : R :=
  let z_ratio := z_pos i / (tentacle_len_mm * MM) in
  let tentacle_radius_at_z := base_radius_mm * MM * (1.0 - z_ratio) in
  let size_ratio := 0.35 - (z_ratio * 0.15) in
  tentacle_radius_at_z * size_ratio.

Definition bladder_radius (i : nat) : R :=
  let bladder_radius := bladder_radius_unclamped i in
  let min_bladder_radius := 0.0005 in
  let max_bladder_radius := bladder_short_mm * MM * 1.2 in
  Py.max (Py.min bladder_radius max_bladder_radius) min_bladder_radius.
(** ** The functions of the script

    Calls that only report progress on standard output, and writes
    to attributes of materials, cameras, lights, constraints, the
    world and the render settings, have no bearing on the object
    table or on files and are not represented. *)
Section Script.
Variable h : host.
Open Scope string_scope.

Definition output_dir : string := Str.path_join (script_dir h) "out".

Definition setup_output_dir : M unit :=
  (if negb (path_exists h output_dir) then makedirs h output_dir else ret tt) ;;
  print (Output_directory output_dir).

Definition clear_scene : M unit :=
  select_all h "SELECT" ;;
  delete h.

Definition create_material (name : string) : M string := ensure_material name.

Definition create_simple_tentacle : M objid :=
  primitive_cone_add h 32 (base_radius_mm * MM) (tip_radius_mm * MM)
    (tentacle_len_mm * MM) (Vec 0 0 (tentacle_len_mm / 2 * MM)) ;;
  tentacle <- active_object ;;
  set_object tentacle (with_name "TentacleBody") ;;
  set_active tentacle ;;
  mode_set h "OBJECT" ;;
  bmesh_map_verts h tentacle trilobe_vertex ;;
  set_active tentacle ;;
  shade_smooth h ;;
  mat <- create_material "TentacleBody" ;;
  materials_append tentacle mat ;;
  ret tentacle.

(** The body of the inner loop of create_bladders, after the
    [break] test. *)
Definition create_bladder (lobe i : nat) : M objid :=
  primitive_uv_sphere_add h (bladder_radius i) (bladder_center lobe i) ;;
  bladder <- active_object ;;
  set_object bladder
    (with_name ("Bladder_L" ++ Str.of_nat (lobe + 1) ++ "_" ++ Str.of_nat (i + 1))) ;;
  set_object bladder
    (fun o => with_scale (Vec (vx (obj_scale o)) (vy (obj_scale o))
                              (bladder_long_mm / bladder_short_mm)) o) ;;
  transform_apply h ;;
  mat <- create_material ("BladderMaterial_" ++ Str.of_nat lobe) ;;
  materials_append bladder mat ;;
  ret bladder.

Definition create_bladders : M (list objid) :=
  per_lobe <- for_collect (range 3)
                (fun lobe => for_collect bladder_indices (create_bladder lobe)) ;;
  ret (List.concat per_lobe).

Definition create_channel (lobe : nat) : M objid :=
  let g := channel_geometry_of lobe in
  primitive_cone_add h 32 (base_channel_radius g) (tip_channel_radius g)
    (channel_length g) (center g) ;;
  channel <- active_object ;;
  set_object channel (with_name ("Channel_Lobe_" ++ Str.of_nat (lobe + 1))) ;;
  match channel_rotation (start_x g) (start_y g) (end_x g) (end_y g) with
  | Raise e => raise e
  | Ok None => ret tt
  | Ok (Some (rotation_angle, rotation_axis)) =>
      set_object channel (with_rotation (AxisAngle rotation_angle rotation_axis)) ;;
      transform_apply h
  end ;;
  mat <- create_material ("ChannelMaterial_L" ++ Str.of_nat (lobe + 1)) ;;
  materials_append channel mat ;;
  ret channel.

Definition create_channels : M (list objid) :=
  for_collect (range 3) create_channel.

(** The first lobe whose tag occurs in a bladder name. *)
Definition lobe_of_bladder_name (name : string) : option nat :=
  find (fun lobe => Str.contains ("_L" ++ Str.of_nat (lobe + 1) ++ "_") name) (range 3).

Definition in_lobe (lobe : nat) (tagged : objid * option nat) : bool :=
  match snd tagged with Some l => Nat.eqb l lobe | None => false end.

Definition union_bladder (base_obj bladder : objid) : M unit :=
  bladder_name <- get_name bladder ;;
  modifiers_new base_obj (Modifier ("Union_" ++ bladder_name) UNION bladder SolverDefault) ;;
  set_active base_obj ;;
  modifier_apply h ("Union_" ++ bladder_name) ;;
  objects_remove bladder.

Definition join_lobe (bladders_by_lobe : list (objid * option nat))
           (channels : list objid) (lobe : nat) : M (list objid) :=
  let lobe_bladders := map fst (filter (in_lobe lobe) bladders_by_lobe) in
  named <- for_collect channels (fun c => n <- get_name c ;; ret (c, n)) ;;
  let lobe_channels :=
    map fst (filter (fun cn => Str.contains ("_Lobe_" ++ Str.of_nat (lobe + 1)) (snd cn))
                    named) in
  match lobe_channels with
  | [] => print (No_channel_found (lobe + 1)) ;; ret []
  | lobe_channel :: _ =>
      match lobe_bladders with
      | [] => ret []
      | _ =>
          let base_obj := lobe_channel in
          set_object base_obj
            (with_name ("HydraulicSystem_Lobe_" ++ Str.of_nat (lobe + 1))) ;;
          for_each lobe_bladders (union_bladder base_obj) ;;
          ret [base_obj]
      end
  end.

Definition join_bladders_and_channels (bladders channels : list objid)
  : M (list objid) :=
  bladders_by_lobe <- for_collect bladders
    (fun b => n <- get_name b ;; ret (b, lobe_of_bladder_name n)) ;;
  combined <- for_collect (range 3) (join_lobe bladders_by_lobe channels) ;;
  ret (List.concat combined).

Definition setup_camera : M objid :=
  camera_add h (Vec 0.4 (-0.4) 0.25) ;;
  camera <- active_object ;;
  set_object camera (with_name "RenderCamera") ;;
  empty_add h (Vec 0 0 (tentacle_len_mm * MM * 0.5)) ;;
  target <- active_object ;;
  set_object target (with_name "CameraTarget") ;;
  ret camera.

Definition add_light (name : string) (location : vec) : M objid :=
  light_add h "AREA" location ;;
  light <- active_object ;;
  set_object light (with_name name) ;;
  ret light.

Definition setup_lighting : M (list objid) :=
  main_light <- add_light "MainLight" (Vec 3 (-2) 4) ;;
  fill_light <- add_light "FillLight" (Vec (-3) 2 3) ;;
  top_light <- add_light "TopLight" (Vec 0 0 6) ;;
  back_light <- add_light "BackLight" (Vec 0 4 2) ;;
  ret [main_light; fill_light; top_light; back_light].

Definition setup_world : M unit := ret tt.

Definition setup_render : M unit :=
  set_engine h "BLENDER_EEVEE_NEXT" ;;
  try_except (eevee_settings h) any_exception (fun _ => ret tt).

Definition select_set (obj : objid) (state : bool) : M unit :=
  set_object obj (with_selected state).

(** Method 1: standard STL export. *)
Definition export_method_1 (filename filepath : string) : M unit :=
  stl_export_legacy h filepath 1000.0 ;;
  print (Exported filename).

(** Method 2: newer STL export format. *)
Definition export_method_2 (filename filepath : string) : M unit :=
  stl_export h filepath 1000.0 ;;
  print (Exported_method_2 filename).

(** Method 3: save as blend file if STL is not available. *)
Definition export_method_3 (filepath : string) : M unit :=
  let blend_filepath := Str.replace ".stl" ".blend" filepath in
  save_as_mainfile h blend_filepath ;;
  print (Stl_not_available_saved_as blend_filepath).

Definition export_stl (obj : objid) (filename : string) : M unit :=
  select_all h "DESELECT" ;;
  select_set obj true ;;
  set_active obj ;;
  let filepath := Str.path_join output_dir filename in
  try_except (export_method_1 filename filepath) is_AttributeError
    (fun _ =>
       try_except (export_method_2 filename filepath) is_AttributeError
         (fun _ =>
            try_except (export_method_3 filepath) any_exception
              (fun _ => print (Could_not_export filename)))).

Definition render_image (filename view_type : string) : M unit :=
  let filepath := Str.path_join output_dir filename in
  (if String.eqb view_type "camera" then
     modify (with_render_filepath filepath) ;;
     render h
   else ret tt) ;;
  print (Rendered filename).

Definition save_blend_file (filename : string) : M unit :=
  let filepath := Str.path_join output_dir filename in
  try_except
    (save_as_mainfile h filepath ;;
     print (Saved_blender_file filename))
    is_Exception
    (fun e => print (Could_not_save_blender_file e)).

Definition main : M unit :=
  setup_output_dir ;;
  clear_scene ;;
  tentacle <- create_simple_tentacle ;;
  bladders <- create_bladders ;;
  channels <- create_channels ;;
  combined_hydraulics <- join_bladders_and_channels bladders channels ;;
  camera <- setup_camera ;;
  lights <- setup_lighting ;;
  setup_world ;;
  setup_render ;;
  render_image "tentacle_camera_view.png" "camera" ;;
  save_blend_file "tentacle_complete.blend" ;;
  export_stl tentacle "tentacle_body.stl" ;;
  match combined_hydraulics with
  | [] => ret tt
  | first :: _ =>
      select_all h "DESELECT" ;;
      for_each combined_hydraulics (fun hydraulic_system => select_set hydraulic_system true) ;;
      set_active first ;;
      join h ;;
      joined <- active_object ;;
      export_stl joined "tentacle_hydraulic_systems.stl"
  end.
End Script.
End Cli.

(* ================================================================== *)
(** * The [break] test of create_bladders in IEEE binary64

    The same expressions as [Cli.num_bladders], [Cli.z_pos] and
    [Cli.breaks_at], evaluated with the rounding of Python floats. *)

Module Binary64.
Import PrimFloat.
Local Open Scope float_scope.
Local Set Warnings "-inexact-float".

Definition tentacle_len_mm : float := 150.0.
Definition bladder_spacing_mm : float := 15.0.
Definition MM : float := 0.001.

(** Conversion of a Python [int] to a float (exact below 2^53). *)
Fixpoint of_nat (n : nat) : float :=
  match n with O => 0.0 | S k => of_nat k + 1.0 end.

(** [int(x)] on a float: truncation towards zero; [None] where Python
    raises (infinities and NaN). *)
Definition int (x : float) : option Z :=
  match FloatOps.Prim2SF x with
  | SpecFloat.S754_zero _ => Some 0%Z
  | SpecFloat.S754_finite s m e =>
      let v := if (0 <=? e)%Z then Z.shiftl (Zpos m) e
               else Z.shiftr (Zpos m) (- e) in
      Some (if s then (- v)%Z else v)
  | _ => None
  end.

Definition num_bladders : option Z :=
  option_map (fun n => (n - 1)%Z) (int (tentacle_len_mm / bladder_spacing_mm)).

Definition z_pos (i : nat) : float := of_nat (i + 1) * bladder_spacing_mm * MM.

Definition breaks_at (i : nat) : bool :=
  leb (tentacle_len_mm * MM - bladder_spacing_mm * MM) (z_pos i).

Fixpoint before_break (indices : list nat) : list nat :=
  match indices with
  | [] => []
  | i :: rest => if breaks_at i then [] else i :: before_break rest
  end.

Definition bladder_indices : option (list nat) :=
  option_map (fun n => before_break (range (Z.to_nat n))) num_bladders.
End Binary64.

(* ================================================================== *)
(** * tri_lobe_tentacle_generator.py: parameters and closed-form geometry *)

Module TriLobe.
Open Scope R_scope.

Definition tentacle_len_mm : R := 150.0.
Definition base_radius_mm : R := 25.0.
Definition tip_radius_mm : R := 0.0.
Definition bladder_long_mm : R := 12.0.
Definition bladder_short_mm : R := 6.0.
Definition bladder_spacing_mm : R := 18.75.
Definition channel_radius_mm : R := 2.0.
Definition connector_radius_mm : R := 6.35.
Definition connector_length_mm : R := 20.0.
Definition build_volume_mm : R * R * R := (200, 200, 300).
Definition export_main : bool := true.
Definition export_cores : bool := true.
Definition debug_mode : bool := false.
Definition show_wireframes : bool := false.
Definition skip_boolean_ops : bool := true.
Definition MM : R := 0.001.

(** ** create_spaded_lobe_body: the body of [for vert in bm.verts] *)
Definition spaded_lobe_vertex (co : vec) : vec :=
  let z_ratio := vz co / (tentacle_len_mm * MM) in
  if Rlt_dec 0 z_ratio then
    if Rlt_dec z_ratio 1 then
      let radius := sqrt (vx co ^ 2 + vy co ^ 2) in
      let angle := Py.atan2 (vy co) (vx co) in
      let taper_factor := 1.0 - z_ratio in
      let lobe_effect := 1.0 + 0.8 * sin (angle * 3) * taper_factor in
      let new_radius := radius * taper_factor * lobe_effect in
      Vec (new_radius * cos angle) (new_radius * sin angle) (vz co)
    else co
  else co.

(** ** create_enhanced_bladder_stack: the arithmetic of one iteration *)
Definition num_bladders : nat := 8.

Definition bladder_location (lobe_index i : nat) : vec :=
  let angle := INR lobe_index * 2 * PI / 3 in
  let offset_distance := base_radius_mm * 0.6 * MM in
  let center_x := offset_distance * cos angle in
  let center_y := offset_distance * sin angle in
  let z_pos := INR (i + 1) * bladder_spacing_mm * MM in
  Vec center_x center_y z_pos.

Definition bladder_scale (i : nat) : vec :=
  let z_pos := INR (i + 1) * bladder_spacing_mm * MM in
  let z_ratio := z_pos / (tentacle_len_mm * MM) in
  let taper_factor := 1.0 - z_ratio * (1.0 - tip_radius_mm / base_radius_mm) in
  let max_radius := (base_radius_mm * 0.9) * taper_factor in
  let actual_short := Py.min (bladder_short_mm * taper_factor) max_radius in
  let actual_long := Py.min (bladder_long_mm * taper_factor) max_radius in
  Vec actual_short actual_short actual_long.

(** ** create_enhanced_channels: the arithmetic of one iteration *)
Definition channel_location (i : nat) : vec :=
  let angle := INR i * 2 * PI / 3 in
  let offset_distance := base_radius_mm * 0.6 * MM in
  let center_x := offset_distance * cos angle in
  let center_y := offset_distance * sin angle in
  let z_pos := tentacle_len_mm * 0.5 * MM in
  Vec center_x center_y z_pos.

(** ** create_connector_holes: the arithmetic of one iteration *)
Definition connector_location (i : nat) : vec :=
  let angle := INR i * 2 * PI / 3 in
  let offset_distance := base_radius_mm * 0.7 * MM in
  let center_x := offset_distance * cos angle in
  let center_y := offset_distance * sin angle in
  Vec center_x center_y (connector_length_mm / 2 * MM).
(** ** The functions of the script

    As for the other script, progress reports and writes to
    attributes of materials, cameras, lights, the world, the render
    settings and the viewport are not represented.  [main] sets
    [test_mode = 4], so the three test scenes are never entered. *)
Section Script.
Variable h : host.
Open Scope string_scope.

Definition export_path : string := "out/".

Definition newline : string := String (Ascii.ascii_of_nat 10) "".

(** In the fallback the loop over [bpy.data.meshes] has nothing to
    do: a mesh is held by its object here, and goes with it. *)
Definition clear_scene : M unit :=
  objects_to_delete <- gets (fun w => map fst (objects w)) ;;
  for_each objects_to_delete objects_remove ;;
  try_except (orphans_purge h) any_exception
    (fun _ =>
       all_materials <- gets materials ;;
       for_each all_materials
         (fun material =>
            users <- gets (material_users material) ;;
            if Nat.eqb users 0 then materials_remove material else ret tt)).

Definition create_material (name : string) : M string := ensure_material name.

Definition create_enhanced_material (name : string) : M string := ensure_material name.

Definition apply_transforms (obj : objid) : M unit :=
  set_active obj ;;
  transform_apply h.

Definition make_manifold (obj : objid) : M unit :=
  set_active obj ;;
  mode_set h "EDIT" ;;
  mesh_select_op h "select_all SELECT" ;;
  mesh_edit_op h "remove_doubles 0.001" ;;
  mesh_select_op h "select_all DESELECT" ;;
  mesh_select_op h "select_non_manifold" ;;
  mesh_edit_op h "delete VERT" ;;
  mesh_select_op h "select_all SELECT" ;;
  mesh_edit_op h "fill_holes 4" ;;
  mesh_edit_op h "normals_make_consistent" ;;
  mesh_edit_op h "remove_doubles 0.0001" ;;
  mode_set h "OBJECT".

Definition create_camera : M objid :=
  camera_add h (Vec 0.4 (-0.4) 0.2) ;;
  camera <- active_object ;;
  set_object camera (with_name "TentacleCamera") ;;
  set_object camera (with_rotation (Euler 1.1 0 0.785)) ;;
  ret camera.

Definition create_lighting : M objid :=
  light_add h "SUN" (Vec 0 0 1) ;;
  sun <- active_object ;;
  set_object sun (with_name "KeyLight") ;;
  set_object sun (with_rotation (Euler 0.785 0 0.785)) ;;
  ret sun.

Definition setup_world : M unit := ret tt.

Definition create_build_volume_reference : M objid :=
  primitive_cube_add h (1 * MM) (Vec 0 0 0) ;;
  cube <- active_object ;;
  set_object cube (with_name "BuildVolumeReference") ;;
  set_object cube
    (with_scale (let '(x, y, z) := build_volume_mm in Vec (x / 2) (y / 2) (z / 2))) ;;
  set_object cube
    (with_location (let '(_, _, z) := build_volume_mm in Vec 0 0 (z / 2 * MM))) ;;
  apply_transforms cube ;;
  ret cube.

Definition create_spaded_lobe_body : M objid :=
  primitive_cylinder_add h (Some 48%nat) (base_radius_mm * MM) (tentacle_len_mm * MM)
    (Vec 0 0 (tentacle_len_mm / 2 * MM)) ;;
  tentacle <- active_object ;;
  set_object tentacle (with_name "TriLobeTentacleBody") ;;
  set_active tentacle ;;
  bmesh_map_verts h tentacle spaded_lobe_vertex ;;
  apply_transforms tentacle ;;
  make_manifold tentacle ;;
  ret tentacle.

Definition create_enhanced_bladder (lobe_index i : nat) : M objid :=
  primitive_uv_sphere_add h (1 * MM) (bladder_location lobe_index i) ;;
  bladder <- active_object ;;
  set_object bladder
    (with_name ("EnhancedBladder_L" ++ Str.of_nat (lobe_index + 1) ++ "_" ++ Str.of_nat (i + 1))) ;;
  set_object bladder (with_scale (bladder_scale i)) ;;
  apply_transforms bladder ;;
  bladder_mat <- create_material ("BladderMaterial_L" ++ Str.of_nat (lobe_index + 1)) ;;
  materials_append bladder bladder_mat ;;
  ret bladder.

Definition create_enhanced_bladder_stack (lobe_index : nat) : M (list objid) :=
  for_collect (range num_bladders) (create_enhanced_bladder lobe_index).

Definition create_enhanced_channel (i : nat) : M objid :=
  primitive_cylinder_add h (Some 16%nat) (channel_radius_mm * MM)
    (tentacle_len_mm * 0.8 * MM) (channel_location i) ;;
  channel <- active_object ;;
  set_object channel (with_name ("Channel_Lobe_" ++ Str.of_nat (i + 1))) ;;
  apply_transforms channel ;;
  channel_mat <- create_enhanced_material "ChannelMaterial" ;;
  materials_append channel channel_mat ;;
  ret channel.

Definition create_enhanced_channels : M (list objid) :=
  for_collect (range 3) create_enhanced_channel.

Definition create_connector_hole (i : nat) : M objid :=
  primitive_cylinder_add h None (connector_radius_mm * MM) (connector_length_mm * MM)
    (connector_location i) ;;
  connector <- active_object ;;
  set_object connector (with_name ("Connector_" ++ Str.of_nat (i + 1))) ;;
  apply_transforms connector ;;
  ret connector.

Definition create_connector_holes : M (list objid) :=
  for_collect (range 3) create_connector_hole.

(** [voids[i:i+batch_size] for i in range(0, len(voids), batch_size)] *)
Fixpoint batches_fuel {A} (fuel batch_size : nat) (voids : list A) : list (list A) :=
  match fuel, voids with
  | _, [] => []
  | O, _ => []
  | S fuel', _ =>
      firstn batch_size voids :: batches_fuel fuel' batch_size (skipn batch_size voids)
  end.

Definition batches {A} (batch_size : nat) (voids : list A) : list (list A) :=
  batches_fuel (List.length voids) batch_size voids.

Definition subtract_void (main_body void : objid) : M unit :=
  make_manifold void ;;
  void_name <- get_name void ;;
  let bool_mod := Modifier ("Subtract_" ++ void_name) DIFFERENCE void FAST in
  modifiers_new main_body bool_mod ;;
  set_active main_body ;;
  try_except
    (modifier_apply h (mod_name bool_mod))
    any_exception
    (fun _ =>
       print (Boolean_operation_failed void_name) ;;
       modifiers_remove main_body (mod_name bool_mod)).

Definition subtract_voids (main_body : objid) (voids : list objid) : M unit :=
  let batch_size := 5%nat in
  for_each (batches batch_size voids)
    (fun batch =>
       for_each batch (subtract_void main_body) ;;
       make_manifold main_body) ;;
  for_each voids objects_remove.

Definition union_core (main_core : objid) (i_core : nat * objid) : M unit :=
  let name := "Union_Core_" ++ Str.of_nat (fst i_core) in
  modifiers_new main_core (Modifier name UNION (snd i_core) EXACT) ;;
  set_active main_core ;;
  modifier_apply h name.

Definition create_sacrificial_cores (bladders channels connectors : list objid)
  : M (option objid) :=
  let all_cores := (bladders ++ channels ++ connectors)%list in
  match all_cores with
  | [] => ret None
  | main_core :: others =>
      set_object main_core (with_name "SacrificialCores") ;;
      for_each (combine (seq 1 (List.length others)) others) (union_core main_core) ;;
      ret (Some main_core)
  end.

Definition validate_geometry (obj : objid) : M bool :=
  set_active obj ;;
  mode_set h "EDIT" ;;
  mesh_select_op h "select_all DESELECT" ;;
  mesh_select_op h "select_non_manifold" ;;
  o <- get_object obj ;;
  match obj_data o with
  | MESH m _ =>
      let non_manifold_count := non_manifold_vertices h m in
      mode_set h "OBJECT" ;;
      if Nat.ltb 0 non_manifold_count then
        print (Non_manifold_warning non_manifold_count (obj_name o)) ;;
        ret false
      else
        print (Geometry_is_manifold (obj_name o)) ;;
        ret true
  | _ => raise AttributeError
  end.

Definition select_set (obj : objid) (state : bool) : M unit :=
  set_object obj (with_selected state).

Definition vertex_line (co : vec) : string :=
  "      vertex " ++ float_str h (vx co) ++ " " ++ float_str h (vy co) ++ " "
    ++ float_str h (vz co) ++ newline.

Definition normal_line (normal : vec) : string :=
  "  facet normal " ++ float_str h (vx normal) ++ " " ++ float_str h (vy normal) ++ " "
    ++ float_str h (vz normal) ++ newline.

(** [for vert in face.verts] *)
Definition write_verts (filepath : string) (vs : list vec) : M unit :=
  for_each vs (fun co => write h filepath (vertex_line co)).

(** The body of [for face in bm.faces]. *)
Definition write_face (filepath : string) (f : face) : M unit :=
  write h filepath (normal_line (normal f)) ;;
  write h filepath ("    outer loop" ++ newline) ;;
  write_verts filepath (verts f) ;;
  write h filepath ("    endloop" ++ newline) ;;
  write h filepath ("  endfacet" ++ newline).

(** [for face in bm.faces] *)
Definition write_faces (filepath : string) (fs : list face) : M unit :=
  for_each fs (write_face filepath).

(** [for o in bpy.context.scene.objects: o.select_set(False)] *)
Definition deselect_scene_objects : M unit :=
  scene_objects <- gets (fun w => map fst (objects w)) ;;
  for_each scene_objects (fun o => select_set o false).

(** The body of the [try] of export_stl. *)
Definition export_attempt (obj : objid) (filepath : string) (is_valid : bool) : M unit :=
  m <- bm_from_mesh h obj ;;
  open_w h filepath ;;
  write h filepath ("solid tentacle" ++ newline) ;;
  write_faces filepath (faces_of h m) ;;
  write h filepath ("endsolid tentacle" ++ newline) ;;
  print (Exported_file is_valid filepath).

(** The body of its [except Exception as e]. *)
Definition export_fallback (filename filepath : string) (e : exn) : M unit :=
  print (Export_failed filename e) ;;
  try_except
    (let blend_path := Str.replace ".stl" ".blend" filepath in
     save_as_mainfile h blend_path ;;
     print (Saved_as_blender_file_instead blend_path))
    is_Exception
    (fun e2 => print (All_export_methods_failed e2)).

Definition export_stl (obj : objid) (filename : string) : M unit :=
  is_valid <- validate_geometry obj ;;
  deselect_scene_objects ;;
  select_set obj true ;;
  set_active obj ;;
  let filepath := Str.path_join export_path filename in
  try_except (export_attempt obj filepath is_valid) is_Exception
             (export_fallback filename filepath).

Definition render_image (filename : string) : M bool :=
  try_except
    (let output_path := Str.path_join export_path filename in
     modify (with_render_filepath output_path) ;;
     render h ;;
     print (Rendered_image output_path) ;;
     ret true)
    is_Exception
    (fun e => print (Render_failed e) ;; ret false).

Definition set_render_engine_with_fallbacks : M unit :=
  engine_set <- try_except (set_engine h "BLENDER_EEVEE_NEXT" ;; ret true)
                  is_TypeError (fun _ => ret false) ;;
  engine_set <- (if negb engine_set
                 then try_except (set_engine h "BLENDER_EEVEE" ;; ret true)
                        is_TypeError (fun _ => ret false)
                 else ret engine_set) ;;
  if negb engine_set then set_engine h "CYCLES" else ret tt.

Definition name_contains (part : string) (c : objid) : M bool :=
  n <- get_name c ;; ret (Str.contains part n).

Fixpoint filter_by_name (part : string) (cs : list objid) : M (list objid) :=
  match cs with
  | [] => ret []
  | c :: rest =>
      keep <- name_contains part c ;;
      kept <- filter_by_name part rest ;;
      ret (if keep then c :: kept else kept)
  end.

Definition copy_core (void : objid) : M objid :=
  void_name <- get_name void ;;
  copy_object void (void_name ++ "_Core").

Definition hide_set (obj : objid) (state : bool) : M unit :=
  set_object obj (with_hidden state).

(** [main] from "Full tentacle generation starts here", for a given
    value of the parameter [skip_boolean_ops]. *)
Definition main_for (skip_boolean_ops : bool) : M unit :=
  clear_scene ;;
  camera <- create_camera ;;
  sun_light <- create_lighting ;;
  setup_world ;;
  set_render_engine_with_fallbacks ;;
  try_except (eevee_settings h) is_AttributeError (fun _ => ret tt) ;;
  try_except (viewport_areas h) is_AttributeError (fun _ => ret tt) ;;
  build_ref <- create_build_volume_reference ;;
  tentacle_body <- create_spaded_lobe_body ;;
  silicone_mat <- create_material "SiliconeMaterial" ;;
  materials_append tentacle_body silicone_mat ;;
  per_lobe <- for_collect (range 3) create_enhanced_bladder_stack ;;
  let all_bladders := List.concat per_lobe in
  channels <- create_enhanced_channels ;;
  connectors <- create_connector_holes ;;
  let void_objects := (all_bladders ++ channels ++ connectors)%list in
  sacrificial_cores <-
    (if export_cores && negb (Nat.eqb (List.length void_objects) 0) then
       cores_for_export <- for_collect void_objects copy_core ;;
       core_bladders <- filter_by_name "Bladder" cores_for_export ;;
       core_channels <- filter_by_name "Channel" cores_for_export ;;
       core_connectors <- filter_by_name "Connector" cores_for_export ;;
       create_sacrificial_cores core_bladders core_channels core_connectors
     else ret None) ;;
  (if skip_boolean_ops then
     for_each void_objects (fun void => hide_set void true)
   else
     subtract_voids tentacle_body void_objects) ;;
  make_manifold tentacle_body ;;
  apply_transforms tentacle_body ;;
  render_success <- render_image "enhanced_tentacle_render.png" ;;
  (if export_main then export_stl tentacle_body "tri_lobe_tentacle.stl" else ret tt) ;;
  match sacrificial_cores with
  | Some cores => if export_cores then export_stl cores "sacrificial_cores.stl" else ret tt
  | None => ret tt
  end ;;
  try_except (viewport_areas h) is_AttributeError (fun _ => ret tt).

Definition main : M unit := main_for skip_boolean_ops.
End Script.
End TriLobe.

(* ================================================================== *)
(** * Runs, hosts and observations used in the statements *)

(** The host [h] with every call let through: a successful run. *)
Definition never_raises (h : host) : host :=
  Host (fun _ _ => None) (faces_of h) (non_manifold_vertices h) (path_exists h)
       (script_dir h) (float_str h).

(** The scene of a freshly started host: a cube, a light and a camera. *)
Definition startup_world : world :=
  World [(0%nat, new_object "Cube" (MESH (Cube 2) []) (Vec 0 0 0));
         (1%nat, new_object "Light" (LIGHT "POINT") (Vec 4 1 6));
         (2%nat, new_object "Camera" CAMERA (Vec 7 (-7) 5))]
        3%nat None ["Material"%string] "" [] [] [].

(** A scene with a single triangle. *)
Definition triangle : face :=
  Face (Vec 0 0 1) [Vec 0 0 0; Vec 1 0 0; Vec 0 1 0].

Definition triangle_world : world :=
  World [(0%nat, new_object "Triangle" (MESH (Cube 1) []) (Vec 0 0 0))]
        1%nat None [] "" [] [] [].

(** A host on which every call succeeds. *)
Definition ideal_host : host :=
  Host (fun _ _ => None) (fun _ => [triangle]) (fun _ => 0%nat) (fun _ => true)
       "/repo" (fun _ => "0.0"%string).

(** A host without either STL exporter, on which files cannot be
    written either. *)
Definition host_without_stl_export : host :=
  Host (fun c _ => match c with
                   | export_mesh_stl _ _ => Some AttributeError
                   | wm_stl_export _ _ => Some AttributeError
                   | wm_save_as_mainfile _ => Some OSError
                   | file_open _ => Some OSError
                   | _ => None
                   end)
       (fun _ => [triangle]) (fun _ => 0%nat) (fun _ => true)
       "/repo" (fun _ => "0.0"%string).

(** A host whose first STL exporter exists and fails to write. *)
Definition host_with_failing_write : host :=
  Host (fun c _ => match c with
                   | export_mesh_stl _ _ => Some RuntimeError
                   | _ => None
                   end)
       (fun _ => [triangle]) (fun _ => 0%nat) (fun _ => true)
       "/repo" (fun _ => "0.0"%string).

(** The calls around which [export_stl] places its [try]. *)
Definition is_export_call (c : hostcall) : bool :=
  match c with
  | export_mesh_stl _ _ | wm_stl_export _ _ | wm_save_as_mainfile _
  | file_open _ | file_write _ _ | bmesh_from_mesh _ => true
  | _ => false
  end.

Inductive output_kind : Set := RenderImage | SceneFile | StlMesh.

(** The only text files the scripts write are STL files. *)
Definition kind_of (c : file_content) : output_kind :=
  match c with
  | Image => RenderImage
  | BlendFile _ => SceneFile
  | HostStl _ _ => StlMesh
  | Text _ => StlMesh
  end.

Definition outputs (w : world) : list (string * output_kind) :=
  map (fun f => (fst f, kind_of (snd f))) (files w).

(** The meshes a boolean difference has subtracted, anywhere in the
    history of a mesh. *)
Fixpoint subtracted (m : mesh) : list mesh :=
  match m with
  | Cone _ _ _ _ | Cylinder _ _ _ | UVSphere _ | Cube _ => []
  | MapVerts _ m' => subtracted m'
  | Transformed _ _ _ m' => subtracted m'
  | Boolean DIFFERENCE _ m' operand => subtracted m' ++ operand :: subtracted operand
  | Boolean UNION _ m' operand => subtracted m' ++ subtracted operand
  | Edited _ m' => subtracted m'
  | Joined m' other => subtracted m' ++ subtracted other
  end.

(** The meshes a boolean union has added. *)
Fixpoint united (m : mesh) : list mesh :=
  match m with
  | Cone _ _ _ _ | Cylinder _ _ _ | UVSphere _ | Cube _ => []
  | MapVerts _ m' => united m'
  | Transformed _ _ _ m' => united m'
  | Boolean UNION _ m' operand => united m' ++ operand :: united operand
  | Boolean DIFFERENCE _ m' operand => united m' ++ united operand
  | Edited _ m' => united m'
  | Joined m' other => united m' ++ united other
  end.

Definition is_cylinder_add (c : hostcall) : bool :=
  match c with mesh_primitive_cylinder_add _ _ _ _ => true | _ => false end.

Definition is_sphere_add (c : hostcall) : bool :=
  match c with mesh_primitive_uv_sphere_add _ _ => true | _ => false end.

Definition is_save_as_mainfile (c : hostcall) : bool :=
  match c with wm_save_as_mainfile _ => true | _ => false end.

Definition find_by_name (name : string) (w : world) : option object :=
  option_map snd (find (fun ko => String.eqb (obj_name (snd ko)) name) (objects w)).

(** ** The text of an STL file, as the claim describes it *)

Definition facet_text (h : host) (f : face) : string :=
  (TriLobe.normal_line h (normal f)
   ++ "    outer loop" ++ TriLobe.newline
   ++ String.concat "" (map (TriLobe.vertex_line h) (verts f))
   ++ "    endloop" ++ TriLobe.newline
   ++ "  endfacet" ++ TriLobe.newline)%string.

Definition stl_text (h : host) (fs : list face) : string :=
  ("solid tentacle" ++ TriLobe.newline
   ++ String.concat "" (map (facet_text h) fs)
   ++ "endsolid tentacle" ++ TriLobe.newline)%string.

(** The lines of a facet block and of a file, one per [f.write]. *)
Definition face_lines (h : host) (f : face) : list string :=
  ([TriLobe.normal_line h (normal f); ("    outer loop" ++ TriLobe.newline)%string]
     ++ map (TriLobe.vertex_line h) (verts f)
     ++ [("    endloop" ++ TriLobe.newline)%string; ("  endfacet" ++ TriLobe.newline)%string])%list.

Definition stl_lines (h : host) (fs : list face) : list string :=
  ([("solid tentacle" ++ TriLobe.newline)%string]
     ++ flat_map (face_lines h) fs
     ++ [("endsolid tentacle" ++ TriLobe.newline)%string])%list.

(** ** The effect of the hand-written exporter when no call raises *)

(** The state after the lines [ss] have been written to [path]. *)
Definition written (path : string) (ss : list string) (w : world) : world :=
  fold_left (fun w s => with_files (append_text path s (files w))
                                   (log_call (file_write path s) w))
            ss w.

Definition append_lines (path : string) (ss : list string) (fs : list (string * file_content))
  : list (string * file_content) :=
  fold_left (fun fs s => append_text path s fs) ss fs.

Definition write_calls (path : string) (ss : list string) : list hostcall :=
  map (file_write path) ss.

(** The object table after [for o in scene.objects: o.select_set(False)]. *)
Definition deselected (objs : list (objid * object)) : list (objid * object) :=
  fold_left (fun os id => update id (with_selected false) os) (map fst objs) objs.

Definition validity_report (h : host) (o : object) (m : mesh) : message :=
  if Nat.ltb 0 (non_manifold_vertices h m)
  then Non_manifold_warning (non_manifold_vertices h m) (obj_name o)
  else Geometry_is_manifold (obj_name o).

Definition validation_calls : list hostcall :=
  [object_mode_set "EDIT"; mesh_select "select_all DESELECT";
   mesh_select "select_non_manifold"; object_mode_set "OBJECT"].

(** The state after [TriLobe.export_stl] of the object [o], of mesh
    [m], stored under [obj], when no call raises. *)
Definition exported (h : host) (obj : objid) (filename : string) (o : object) (m : mesh)
           (w : world) : world :=
  let filepath := Str.path_join TriLobe.export_path filename in
  let is_valid := negb (Nat.ltb 0 (non_manifold_vertices h m)) in
  World (update obj (with_selected true) (deselected (objects w)))
        (next_id w) (Some obj) (materials w) (render_filepath w)
        (append_lines filepath (stl_lines h (faces_of h m))
                      (write_file filepath (Text "") (files w)))
        (stdout w ++ [validity_report h o m; Exported_file is_valid filepath])
        (calls w ++ validation_calls ++ [bmesh_from_mesh m; file_open filepath]
                 ++ write_calls filepath (stl_lines h (faces_of h m))).

(** ** Meshes named in the statements *)

Definition manifold_cleanup (m : mesh) : mesh :=
  Edited "remove_doubles 0.0001"
    (Edited "normals_make_consistent"
       (Edited "fill_holes 4"
          (Edited "delete VERT"
             (Edited "remove_doubles 0.001" m)))).

(** The body [Cli.main] exports. *)
Definition cli_body_mesh : mesh :=
  MapVerts Cli.trilobe_vertex
    (Cone 32 (Cli.base_radius_mm * Cli.MM) (Cli.tip_radius_mm * Cli.MM)
          (Cli.tentacle_len_mm * Cli.MM)).

(** The body [TriLobe.main] exports. *)
Definition trilobe_body_mesh : mesh :=
  manifold_cleanup
    (manifold_cleanup
       (Transformed (Vec 0 0 (TriLobe.tentacle_len_mm / 2 * TriLobe.MM)) NoRotation
          identity_scale
          (MapVerts TriLobe.spaded_lobe_vertex
             (Cylinder (Some 48%nat) (TriLobe.base_radius_mm * TriLobe.MM)
                       (TriLobe.tentacle_len_mm * TriLobe.MM))))).

(** The direction of a channel and the axis it is rotated about. *)
Definition channel_direction (sx sy ex ey : R) : vec :=
  let d := Vec (ex - sx) (ey - sy) (Cli.tentacle_len_mm * Cli.MM * 0.85 - 0) in
  Vector.scale (/ Vector.length d) d.

Definition channel_axis (sx sy ex ey : R) : vec :=
  Vector.cross (Vec 0 0 1) (channel_direction sx sy ex ey).

(* ================================================================== *)
(** * Closed-form geometry of render_tentacle_cli.py *)

Unset Implicit Arguments.
Open Scope R_scope.

(** ** Hosts, by what they let through *)

(** No call outside the [try] blocks of [export_stl] raises. *)
Definition quiet (h : host) : Prop :=
  forall c w, is_export_call c = false -> raises h c w = None.

(** No call raises. *)
Definition silent (h : host) : Prop := forall c w, raises h c w = None.

(** An object of data [d] is stored under [id]. *)
Definition holds (id : objid) (d : object_data) (objs : list (objid * object)) : Prop :=
  exists o, lookup id objs = Some o /\ obj_data o = d.

(** A script that raises nothing but subclasses of [Exception]. *)
Definition raises_only_exceptions {A} (m : M A) : Prop :=
  forall w e w', m w = (Raise e, w') -> is_Exception e = true.

(** The state in which [TriLobe.export_stl] enters its [try]. *)
Definition before_try (h : host) (obj : objid) (o : object) (m : mesh) (w : world) : world :=
  World (update obj (with_selected true) (deselected (objects w)))
        (next_id w) (Some obj) (materials w) (render_filepath w) (files w)
        (stdout w ++ [validity_report h o m]) (calls w ++ validation_calls).

(** The named meshes an STL file written by a host exporter holds. *)
Definition exported_meshes (c : file_content) : list (string * mesh) :=
  match c with
  | HostStl objs _ =>
      flat_map (fun o => match mesh_of o with
                         | Some m => [(obj_name o, m)]
                         | None => []
                         end) objs
  | _ => []
  end.

Definition is_scene_file (o : string * output_kind) : bool :=
  match snd o with SceneFile => true | _ => false end.

(** The state in which [Cli.export_stl] enters its [try]. *)
Definition cli_before_try (obj : objid) (w : world) : world :=
  World (update obj (with_selected true) (map_objects (with_selected false) (objects w)))
        (next_id w) (Some obj) (materials w) (render_filepath w) (files w)
        (stdout w) (calls w ++ [object_select_all "DESELECT"]).

(** The state after [Cli.export_stl] when no call raises. *)
Definition cli_exported (h : host) (obj : objid) (filename : string) (w : world) : world :=
  let filepath := Str.path_join (Cli.output_dir h) filename in
  let w1 := cli_before_try obj w in
  World (objects w1) (next_id w1) (active w1) (materials w1) (render_filepath w1)
        (files w ++ [(filepath, HostStl (map snd (selected_objects w1)) 1000.0%R)])
        (stdout w ++ [Exported filename])
        (calls w ++ [object_select_all "DESELECT"; export_mesh_stl filepath 1000.0%R]).

(** What a written file is, for the statements: its path, its kind,
    and for each mesh a host exporter wrote into it the name, the
    meshes subtracted from it and the number of meshes united into
    it. *)
Definition file_summary (f : string * file_content)
  : string * output_kind * list (string * list mesh * nat) :=
  (fst f, kind_of (snd f),
   map (fun nm => (fst nm, subtracted (snd nm), List.length (united (snd nm))))
       (exported_meshes (snd f))).

(** The void meshes of [TriLobe.main], in the order of [void_objects]. *)
Definition trilobe_bladder_mesh (lobe_index i : nat) : mesh :=
  Transformed (TriLobe.bladder_location lobe_index i) NoRotation (TriLobe.bladder_scale i)
              (UVSphere (1 * TriLobe.MM)).

Definition trilobe_channel_mesh (i : nat) : mesh :=
  Transformed (TriLobe.channel_location i) NoRotation identity_scale
              (Cylinder (Some 16%nat) (TriLobe.channel_radius_mm * TriLobe.MM)
                        (TriLobe.tentacle_len_mm * 0.8 * TriLobe.MM)).

Definition trilobe_connector_mesh (i : nat) : mesh :=
  Transformed (TriLobe.connector_location i) NoRotation identity_scale
              (Cylinder None (TriLobe.connector_radius_mm * TriLobe.MM)
                        (TriLobe.connector_length_mm * TriLobe.MM)).

Definition trilobe_void_meshes : list mesh :=
  (flat_map (fun lobe_index => map (trilobe_bladder_mesh lobe_index) (range 8)) (range 3)
   ++ map trilobe_channel_mesh (range 3)
   ++ map trilobe_connector_mesh (range 3))%list.

(** The union [create_sacrificial_cores] builds from copies of them. *)
Definition trilobe_cores_mesh : mesh :=
  match trilobe_void_meshes with
  | [] => Cube 0
  | first :: others => fold_left (fun acc v => Boolean UNION EXACT acc v) others first
  end.

(** The body after [subtract_voids], were [skip_boolean_ops] off:
    every void, cleaned up, is subtracted, in batches of five. *)
Definition trilobe_hollowed_body_mesh : mesh :=
  let body :=
    manifold_cleanup
      (Transformed (Vec 0 0 (TriLobe.tentacle_len_mm / 2 * TriLobe.MM)) NoRotation
         identity_scale
         (MapVerts TriLobe.spaded_lobe_vertex
            (Cylinder (Some 48%nat) (TriLobe.base_radius_mm * TriLobe.MM)
                      (TriLobe.tentacle_len_mm * TriLobe.MM)))) in
  manifold_cleanup
    (fold_left
       (fun body batch =>
          manifold_cleanup
            (fold_left (fun b v => Boolean DIFFERENCE FAST b (manifold_cleanup v)) batch body))
       (TriLobe.batches 5 trilobe_void_meshes) body).

Definition trilobe_void_names : list string :=
  (flat_map (fun lobe_index =>
               map (fun i => ("EnhancedBladder_L" ++ Str.of_nat (lobe_index + 1) ++ "_"
                              ++ Str.of_nat (i + 1))%string) (range 8)) (range 3)
   ++ map (fun i => ("Channel_Lobe_" ++ Str.of_nat (i + 1))%string) (range 3)
   ++ map (fun i => ("Connector_" ++ Str.of_nat (i + 1))%string) (range 3))%list.

Definition hidden_objects (w : world) : list object :=
  filter obj_hidden (map snd (objects w)).

(** Evaluation of a script on a concrete state: by value, leaving real
    arithmetic and the geometry functions alone. *)
Ltac run_script :=
  cbv -[IZR Rmult Rplus Rminus Rdiv Rinv Ropp sqrt sin cos atan PI pow INR
        Rlt_dec Rle_dec Rge_dec
        Cli.trilobe_vertex Cli.bladder_radius Cli.bladder_center Cli.channel_geometry_of
        Cli.channel_rotation Cli.base_radius_mm Cli.tip_radius_mm Cli.tentacle_len_mm Cli.MM
        Cli.bladder_long_mm Cli.bladder_short_mm
        Cli.base_channel_radius Cli.tip_channel_radius Cli.channel_length Cli.center
        Cli.start_x Cli.start_y Cli.end_x Cli.end_y
        TriLobe.spaded_lobe_vertex TriLobe.bladder_location TriLobe.bladder_scale
        TriLobe.channel_location TriLobe.connector_location
        TriLobe.base_radius_mm TriLobe.tentacle_len_mm TriLobe.MM TriLobe.channel_radius_mm
        TriLobe.connector_radius_mm TriLobe.connector_length_mm
        TriLobe.export_stl stl_lines stl_text append_lines write_calls write_file].

Ltac run_script_in H :=
  cbv -[IZR Rmult Rplus Rminus Rdiv Rinv Ropp sqrt sin cos atan PI pow INR
        Rlt_dec Rle_dec Rge_dec
        Cli.trilobe_vertex Cli.bladder_radius Cli.bladder_center Cli.channel_geometry_of
        Cli.channel_rotation Cli.base_radius_mm Cli.tip_radius_mm Cli.tentacle_len_mm Cli.MM
        Cli.bladder_long_mm Cli.bladder_short_mm
        Cli.base_channel_radius Cli.tip_channel_radius Cli.channel_length Cli.center
        Cli.start_x Cli.start_y Cli.end_x Cli.end_y
        TriLobe.spaded_lobe_vertex TriLobe.bladder_location TriLobe.bladder_scale
        TriLobe.channel_location TriLobe.connector_location
        TriLobe.base_radius_mm TriLobe.tentacle_len_mm TriLobe.MM TriLobe.channel_radius_mm
        TriLobe.connector_radius_mm TriLobe.connector_length_mm
        TriLobe.export_stl stl_lines stl_text append_lines write_calls write_file] in H.

(** Worlds are normalised by value, never by unfolding alone: each
    update mentions the state it updates once per field. *)
Ltac world_norm :=
  cbv [ret modify print gets with_objects with_active with_materials with_render_filepath
       with_files with_stdout log_call objects next_id active materials render_filepath
       files stdout calls validation_calls];
  repeat rewrite <- app_assoc; cbn [app].

(** ** Hosts for the error paths *)

(** The host [h] with its calls decided by [fails] alone. *)
Definition failing_on (fails : hostcall -> option exn) (h : host) : host :=
  Host (fun c _ => fails c) (faces_of h) (non_manifold_vertices h) (path_exists h)
       (script_dir h) (float_str h).

(** A host that knows the render engines [accepts] names and no other. *)
Definition engines (accepts : string -> bool) (c : hostcall) : option exn :=
  match c with
  | set_render_engine engine => if accepts engine then None else Some TypeError
  | _ => None
  end.

(** The engine names [main] tries, up to the first the host accepts. *)
Definition engine_attempts (accepts : string -> bool) : list string :=
  if accepts "BLENDER_EEVEE_NEXT"%string then ["BLENDER_EEVEE_NEXT"%string]
  else if accepts "BLENDER_EEVEE"%string then ["BLENDER_EEVEE_NEXT"; "BLENDER_EEVEE"]%string
  else ["BLENDER_EEVEE_NEXT"; "BLENDER_EEVEE"; "CYCLES"]%string.

Definition logged (cs : list hostcall) (w : world) : world :=
  World (objects w) (next_id w) (active w) (materials w) (render_filepath w)
        (files w) (stdout w) (calls w ++ cs).

(** The operator calls of make_manifold, in order. *)
Definition manifold_calls : list hostcall :=
  [object_mode_set "EDIT"; mesh_select "select_all SELECT";
   mesh_edit "remove_doubles 0.001"; mesh_select "select_all DESELECT";
   mesh_select "select_non_manifold"; mesh_edit "delete VERT";
   mesh_select "select_all SELECT"; mesh_edit "fill_holes 4";
   mesh_edit "normals_make_consistent"; mesh_edit "remove_doubles 0.0001";
   object_mode_set "OBJECT"].

Definition is_modifier_apply (c : hostcall) : bool :=
  match c with object_modifier_apply _ => true | _ => false end.

(** A scene with a body and one void. *)
Definition body_and_void : world :=
  World [(0%nat, new_object "Body" (MESH (Cylinder None 1 1) []) (Vec 0 0 0));
         (1%nat, new_object "Void" (MESH (UVSphere 1) []) (Vec 0 0 0))]
        2%nat None [] "" [] [] [].

(** A host that cannot apply boolean modifiers. *)
Definition host_with_failing_boolean : host :=
  failing_on (fun c => match c with
                       | object_modifier_apply _ => Some RuntimeError
                       | _ => None
                       end) ideal_host.

(** A host on which no file can be opened for writing. *)
Definition read_only_host : host :=
  failing_on (fun c => match c with
                       | file_open _ => Some OSError
                       | _ => None
                       end) ideal_host.

(** A host that opens files and fails on the first write. *)
Definition host_with_full_disk : host :=
  failing_on (fun c => match c with
                       | file_write _ _ => Some OSError
                       | _ => None
                       end) ideal_host.

(** A host on which every mesh has three non-manifold vertices. *)
Definition host_with_open_meshes : host :=
  Host (fun _ _ => None) (fun _ => [triangle]) (fun _ => 3%nat) (fun _ => true)
       "/repo" (fun _ => "0.0"%string).

(** ** Names built from numbers *)

Definition is_digit (c : Ascii.ascii) : bool :=
  (48 <=? Ascii.nat_of_ascii c)%nat && (Ascii.nat_of_ascii c <=? 57)%nat.

Fixpoint all_digits (s : string) : bool :=
  match s with
  | EmptyString => true
  | String c rest => is_digit c && all_digits rest
  end.

(** The names create_bladders and create_channels give. *)
Definition cli_bladder_name (lobe i : nat) : string :=
  ("Bladder_L" ++ Str.of_nat (lobe + 1) ++ "_" ++ Str.of_nat (i + 1))%string.

Definition cli_channel_name (lobe : nat) : string :=
  ("Channel_Lobe_" ++ Str.of_nat (lobe + 1))%string.

(** The name [main] of tri_lobe_tentacle_generator.py gives the copy of
    a bladder. *)
Definition trilobe_bladder_core_name (lobe_index i : nat) : string :=
  ("EnhancedBladder_L" ++ Str.of_nat (lobe_index + 1) ++ "_" ++ Str.of_nat (i + 1)
   ++ "_Core")%string.

(** ** The hydraulic systems of render_tentacle_cli.py *)

Definition cli_bladder_mesh (lobe i : nat) : mesh :=
  Transformed (Cli.bladder_center lobe i) NoRotation
              (Vec 1 1 (Cli.bladder_long_mm / Cli.bladder_short_mm))
              (UVSphere (Cli.bladder_radius i)).

(** The cone of a channel, with the rotation create_channels computes
    applied to it. *)
Definition cli_channel_mesh (lobe : nat) : mesh :=
  let g := Cli.channel_geometry_of lobe in
  let cone := Cone 32 (Cli.base_channel_radius g) (Cli.tip_channel_radius g)
                   (Cli.channel_length g) in
  match Cli.channel_rotation (Cli.start_x g) (Cli.start_y g) (Cli.end_x g) (Cli.end_y g) with
  | Ok (Some (rotation_angle, rotation_axis)) =>
      Transformed (Cli.center g) (AxisAngle rotation_angle rotation_axis) identity_scale cone
  | _ => cone
  end.

(** The channel of a lobe with its eight bladders united into it, from
    the base upwards. *)
Definition cli_hydraulic_mesh (lobe : nat) : mesh :=
  fold_left (fun system i => Boolean UNION SolverDefault system (cli_bladder_mesh lobe i))
            (range 8) (cli_channel_mesh lobe).

(** The names of the objects a scene file holds. *)
Definition scene_names (c : file_content) : list string :=
  match c with
  | BlendFile scene => map obj_name scene
  | _ => []
  end.

(** Neither STL operator exists. *)
Definition stl_operators_missing (c : hostcall) : option exn :=
  match c with
  | export_mesh_stl _ _ | wm_stl_export _ _ => Some AttributeError
  | _ => None
  end.

(** The render operator raises [e]. *)
Definition render_failing (e : exn) (c : hostcall) : option exn :=
  match c with
  | render_render => Some e
  | _ => None
  end.

(** A host run without a window, with the render engine of an older
    release, on which purging and rendering fail. *)
Definition background_mode (c : hostcall) : option exn :=
  match c with
  | set_render_engine engine =>
      if String.eqb engine "BLENDER_EEVEE_NEXT" then Some TypeError else None
  | scene_eevee => Some AttributeError
  | screen_areas => Some AttributeError
  | outliner_orphans_purge => Some RuntimeError
  | render_render => Some RuntimeError
  | _ => None
  end.

Definition is_set_engine (c : hostcall) : bool :=
  match c with set_render_engine _ => true | _ => false end.

Definition visible_objects (w : world) : list object :=
  filter (fun o => negb (obj_hidden o)) (map snd (objects w)).

(** The calls export_stl of tri_lobe_tentacle_generator.py makes when
    the STL file gets written. *)
Definition is_stl_writing_call (c : hostcall) : bool :=
  match c with
  | object_mode_set _ | mesh_select _ | bmesh_from_mesh _ | file_open _ | file_write _ _ => true
  | _ => false
  end.

Definition is_makedirs (c : hostcall) : bool :=
  match c with os_makedirs _ => true | _ => false end.

(** The calls the two [export_stl] make before they enter their [try]:
    the deselection of render_tentacle_cli.py, and the calls of
    [validate_geometry] in tri_lobe_tentacle_generator.py. *)
Definition export_preamble_calls : list hostcall :=
  object_select_all "DESELECT" :: validation_calls.

Definition is_cone_add (c : hostcall) : bool :=
  match c with mesh_primitive_cone_add _ _ _ _ _ => true | _ => false end.

Definition is_bmesh_read (c : hostcall) : bool :=
  match c with bmesh_from_mesh _ => true | _ => false end.

(** The mesh and the name of the object stored under [id]. *)
Definition mesh_at (id : objid) (w : world) : option mesh :=
  match lookup id (objects w) with
  | Some o => mesh_of o
  | None => None
  end.

Definition name_at (id : objid) (w : world) : option string :=
  option_map obj_name (lookup id (objects w)).

(** A script that asks the host for nothing but calls in [P], whatever
    the host answers and whatever the scene. *)
Definition only_calls {A} (P : hostcall -> Prop) (m : M A) : Prop :=
  forall w, exists asked, calls (snd (m w)) = calls w ++ asked /\ Forall P asked.


Section CliGeometry.
Import Cli.
Open Scope R_scope.

Lemma clamp_in_range lo hi x : lo <= hi -> lo <= Py.max (Py.min x hi) lo <= hi.
Proof.
  intros Hle. unfold Py.max, Py.min.
  destruct (Rlt_dec hi x); destruct (Rlt_dec _ lo); lra.
Qed.

Lemma acos_clamped d :
  Py.acos (Py.min 1.0 (Py.max (-1.0) d)) = Ok (acos (Py.min 1.0 (Py.max (-1.0) d))).
Proof.
  unfold Py.acos, Py.min, Py.max.
  destruct (Rlt_dec (-1.0) d); destruct (Rlt_dec _ 1.0);
    destruct (Rle_dec (-1) _); try destruct (Rle_dec _ 1);
    try reflexivity; exfalso; lra.
Qed.

Lemma direction_length_positive dx dy :
  0 < Vector.length (Vec dx dy (tentacle_len_mm * MM * 0.85 - 0)).
Proof.
  unfold Vector.length; cbn [vx vy vz]. apply sqrt_lt_R0.
  assert (0 < tentacle_len_mm * MM * 0.85 - 0) by (unfold tentacle_len_mm, MM; lra).
  nra.
Qed.

Lemma length_positive_iff a :
  0 < Vector.length a <-> ~ (vx a = 0 /\ vy a = 0 /\ vz a = 0).
Proof.
  unfold Vector.length. split.
  - intros H [Hx [Hy Hz]]. rewrite Hx, Hy, Hz in H.
    replace (0 * 0 + 0 * 0 + 0 * 0) with 0 in H by ring.
    rewrite sqrt_0 in H. lra.
  - intros H. apply sqrt_lt_R0.
    destruct (Req_dec (vx a) 0) as [Hx|Hx]; [|nra].
    destruct (Req_dec (vy a) 0) as [Hy|Hy]; [|nra].
    destruct (Req_dec (vz a) 0) as [Hz|Hz]; [|nra].
    exfalso. apply H. auto.
Qed.

Lemma normalized_ok a :
  0 < Vector.length a -> Vector.normalized a = Ok (Vector.scale (/ Vector.length a) a).
Proof.
  intros H. unfold Vector.normalized.
  destruct (Rlt_dec 0 (Vector.length a)); [reflexivity|contradiction].
Qed.

(** What [rotation_to] computes for a direction vector of any length,
    with its two fallible steps resolved. *)
Lemma rotation_to_eq d :
  rotation_to d =
    if Rlt_dec 0 (Vector.length (Vector.cross (Vec 0 0 1) d)) then
      Ok (Some (acos (Py.min 1.0 (Py.max (-1.0) (Vector.dot (Vec 0 0 1) d))),
                Vector.scale (/ Vector.length (Vector.cross (Vec 0 0 1) d))
                             (Vector.cross (Vec 0 0 1) d)))
    else Ok None.
Proof.
  unfold rotation_to. cbv beta iota zeta.
  destruct (Rlt_dec 0 _) as [Hpos|Hzero]; [|reflexivity].
  rewrite normalized_ok by exact Hpos.
  rewrite acos_clamped. reflexivity.
Qed.

(** What [channel_rotation] computes, with its three fallible steps
    resolved. *)
Lemma channel_rotation_eq sx sy ex ey :
  channel_rotation sx sy ex ey =
    if Rlt_dec 0 (Vector.length (channel_axis sx sy ex ey)) then
      Ok (Some (acos (Py.min 1.0 (Py.max (-1.0)
                        (Vector.dot (Vec 0 0 1) (channel_direction sx sy ex ey)))),
                Vector.scale (/ Vector.length (channel_axis sx sy ex ey))
                             (channel_axis sx sy ex ey)))
    else Ok None.
Proof.
  unfold channel_rotation, channel_axis, channel_direction.
  rewrite normalized_ok by apply direction_length_positive.
  cbv beta iota zeta.
  apply rotation_to_eq.
Qed.

Lemma channel_axis_zero_iff sx sy ex ey :
  ~ 0 < Vector.length (channel_axis sx sy ex ey) <-> (ex = sx /\ ey = sy).
Proof.
  pose proof (direction_length_positive (ex - sx) (ey - sy)) as Hlen.
  apply Rinv_0_lt_compat in Hlen.
  rewrite length_positive_iff.
  unfold channel_axis, channel_direction, Vector.cross, Vector.scale; cbn [vx vy vz].
  set (k := / Vector.length _) in *.
  split.
  - intros H.
    destruct (Req_dec (ex - sx) 0) as [Hx|Hx]; destruct (Req_dec (ey - sy) 0) as [Hy|Hy];
      try (split; lra); exfalso; apply H; intros [H1 [H2 _]]; nra.
  - intros [Hx Hy] H. apply H. subst ex ey. repeat split; ring.
Qed.

(** The two ends of a channel never lie above one another. *)
Lemma endpoints_differ lobe :
  ~ (end_x (channel_geometry_of lobe) = start_x (channel_geometry_of lobe)
     /\ end_y (channel_geometry_of lobe) = start_y (channel_geometry_of lobe)).
Proof.
  intros [Hx Hy].
  unfold channel_geometry_of in Hx, Hy; cbn [start_x start_y end_x end_y] in Hx, Hy.
  set (angle := INR lobe * 2 * PI / 3 + PI / 6) in *.
  pose proof (SIN_bound (angle * 3)) as [Hlo Hhi].
  pose proof (sin2_cos2 angle) as Hunit. unfold Rsqr in Hunit.
  set (s := sin (angle * 3)) in *.
  set (c := cos angle) in *. set (t := sin angle) in *.
  unfold base_radius_mm, MM in Hx, Hy.
  set (A := 25.0 * 0.5 * 0.001 * (1 + s * 0.35)) in *.
  set (B := 25.0 * (0.5 - 0.3 * 0.85) * 0.001 * (1 + s * 0.35 * (1 - 0.85 ^ 3))) in *.
  assert (HA : 0.008 <= A) by (unfold A; lra).
  assert (HB : B * 0.4 <= 0.003) by (unfold B; simpl pow; lra).
  assert (Hc : c = 0) by nra.
  assert (Ht : t = 0) by nra.
  rewrite Hc, Ht in Hunit. lra.
Qed.

(** So the rotation step runs for each of the three channels. *)
Lemma channel_rotation_applied lobe :
  exists rotation_angle rotation_axis,
    channel_rotation (start_x (channel_geometry_of lobe)) (start_y (channel_geometry_of lobe))
                     (end_x (channel_geometry_of lobe)) (end_y (channel_geometry_of lobe))
    = Ok (Some (rotation_angle, rotation_axis)).
Proof.
  rewrite channel_rotation_eq.
  destruct (Rlt_dec 0 _) as [Hpos|Hzero]; [do 2 eexists; reflexivity|].
  exfalso. apply channel_axis_zero_iff in Hzero. exact (endpoints_differ lobe Hzero).
Qed.

End CliGeometry.

(* ================================================================== *)
(** * Stepping through a script *)

Lemma bind_ok {A B} {m : M A} (k : A -> M B) {w a w'} :
  m w = (Ok a, w') -> bind m k w = k a w'.
Proof. intros H. unfold bind. rewrite H. reflexivity. Qed.

Lemma bind_raise {A B} {m : M A} (k : A -> M B) {w e w'} :
  m w = (Raise e, w') -> bind m k w = (Raise e, w').
Proof. intros H. unfold bind. rewrite H. reflexivity. Qed.

Lemma try_except_ok {A} {body : M A} catches handler {w a w'} :
  body w = (Ok a, w') -> try_except body catches handler w = (Ok a, w').
Proof. intros H. unfold try_except. rewrite H. reflexivity. Qed.

Lemma try_except_caught {A} {body : M A} catches handler {w e w'} :
  body w = (Raise e, w') -> catches e = true ->
  try_except body catches handler w = handler e w'.
Proof. intros H Hc. unfold try_except. rewrite H, Hc. reflexivity. Qed.

Lemma try_except_uncaught {A} {body : M A} catches handler {w e w'} :
  body w = (Raise e, w') -> catches e = false ->
  try_except body catches handler w = (Raise e, w').
Proof. intros H Hc. unfold try_except. rewrite H, Hc. reflexivity. Qed.

Lemma call_ok h c effect w :
  raises h c w = None -> call h c effect w = effect (log_call c w).
Proof. intros H. unfold call. rewrite H. reflexivity. Qed.

Lemma call_no_effect_ok h c w :
  raises h c w = None -> call h c no_effect w = (Ok tt, log_call c w).
Proof. intros H. rewrite call_ok by exact H. reflexivity. Qed.

Lemma call_modify_ok h c f w :
  raises h c w = None -> call h c (modify f) w = (Ok tt, f (log_call c w)).
Proof. intros H. rewrite call_ok by exact H. reflexivity. Qed.

Lemma call_raises h c effect w e :
  raises h c w = Some e -> call h c effect w = (Raise e, log_call c w).
Proof. intros H. unfold call. rewrite H. reflexivity. Qed.

Lemma set_active_ok id w : set_active id w = (Ok tt, with_active (Some id) w).
Proof. reflexivity. Qed.

Lemma gets_ok {A} (f : world -> A) w : gets f w = (Ok (f w), w).
Proof. reflexivity. Qed.

Lemma print_ok msg w : print msg w = (Ok tt, with_stdout (stdout w ++ [msg]) w).
Proof. reflexivity. Qed.

(** ** The object table *)

Lemma lookup_update id k f objs :
  lookup id (update k f objs) =
    if Nat.eqb k id then option_map f (lookup id objs) else lookup id objs.
Proof.
  induction objs as [|[k0 o0] rest IH]; cbn [update lookup].
  - destruct (Nat.eqb k id); reflexivity.
  - destruct (Nat.eqb k0 k) eqn:Ek; cbn [lookup].
    + apply Nat.eqb_eq in Ek. subst k0.
      destruct (Nat.eqb k id); reflexivity.
    + destruct (Nat.eqb k0 id) eqn:Ei.
      * apply Nat.eqb_eq in Ei. subst k0. rewrite Nat.eqb_sym, Ek. reflexivity.
      * exact IH.
Qed.

Lemma lookup_map_objects id f objs :
  lookup id (map_objects f objs) = option_map f (lookup id objs).
Proof.
  induction objs as [|[k o] rest IH]; cbn [map_objects map lookup fst snd]; [reflexivity|].
  destruct (Nat.eqb k id); [reflexivity|exact IH].
Qed.

Lemma get_object_ok {id o w} :
  lookup id (objects w) = Some o -> get_object id w = (Ok o, w).
Proof. intros H. unfold get_object. rewrite H. reflexivity. Qed.

Lemma set_object_ok {id} f {o w} :
  lookup id (objects w) = Some o ->
  set_object id f w = (Ok tt, with_objects (update id f (objects w)) w).
Proof.
  intros H. unfold set_object.
  rewrite (bind_ok _ (get_object_ok H)). reflexivity.
Qed.

Lemma holds_update id d k b objs :
  holds id d objs -> holds id d (update k (with_selected b) objs).
Proof.
  intros [o [Hl Hd]]. unfold holds. rewrite lookup_update, Hl.
  destruct (Nat.eqb k id); eexists; (split; [reflexivity|exact Hd]).
Qed.

Lemma holds_deselected id d objs : holds id d objs -> holds id d (deselected objs).
Proof.
  unfold deselected. generalize (map fst objs) as ids.
  intros ids. revert objs.
  induction ids as [|k rest IH]; intros objs H; cbn [fold_left]; [exact H|].
  apply IH. apply holds_update. exact H.
Qed.

Lemma present_update id k f objs :
  lookup id objs <> None -> lookup id (update k f objs) <> None.
Proof.
  intros H. rewrite lookup_update.
  destruct (Nat.eqb k id); [|exact H].
  destruct (lookup id objs); [discriminate|contradiction].
Qed.

Lemma present_in_keys id objs : In id (map fst objs) -> lookup id objs <> None.
Proof.
  induction objs as [|[k o] rest IH]; cbn [map fst In lookup]; [tauto|].
  intros [Hk|Hin].
  - subst k. rewrite Nat.eqb_refl. discriminate.
  - destruct (Nat.eqb k id); [discriminate|auto].
Qed.

(* ================================================================== *)
(** * The hand-written STL exporter of tri_lobe_tentacle_generator.py *)

Lemma never_raises_silent h : silent (never_raises h).
Proof. intros c w. reflexivity. Qed.

Lemma silent_quiet h : silent h -> quiet h.
Proof. intros Hs c w _. apply Hs. Qed.

Lemma string_append_assoc (a b c : string) : ((a ++ b) ++ c = a ++ (b ++ c))%string.
Proof. induction a as [|x a IH]; cbn; [reflexivity|]. rewrite IH. reflexivity. Qed.

Lemma string_append_empty (a : string) : (a ++ "" = a)%string.
Proof. induction a as [|x a IH]; cbn; [reflexivity|]. rewrite IH. reflexivity. Qed.

Lemma concat_cons (s : string) (ss : list string) :
  String.concat "" (s :: ss) = (s ++ String.concat "" ss)%string.
Proof.
  destruct ss as [|s2 rest]; cbn [String.concat]; [|reflexivity].
  rewrite string_append_empty. reflexivity.
Qed.

Lemma concat_app (a b : list string) :
  String.concat "" (a ++ b) = (String.concat "" a ++ String.concat "" b)%string.
Proof.
  induction a as [|s rest IH]; [reflexivity|].
  cbn [app]. rewrite !concat_cons, IH, string_append_assoc. reflexivity.
Qed.

Lemma concat_flat_map {A} (f : A -> list string) (xs : list A) :
  String.concat "" (flat_map f xs) = String.concat "" (map (fun x => String.concat "" (f x)) xs).
Proof.
  induction xs as [|x rest IH]; [reflexivity|].
  cbn [flat_map map]. rewrite concat_app, concat_cons, IH. reflexivity.
Qed.

(** The lines written add up to the text the claim describes. *)
Lemma stl_lines_text h fs : String.concat "" (stl_lines h fs) = stl_text h fs.
Proof.
  unfold stl_lines, stl_text.
  rewrite concat_app, concat_app, concat_flat_map.
  cbn [String.concat]. rewrite !string_append_assoc.
  do 2 f_equal. f_equal. f_equal.
  apply map_ext. intros f. unfold face_lines, facet_text.
  rewrite concat_app, concat_app. cbn [String.concat].
  rewrite !string_append_assoc. reflexivity.
Qed.

Lemma append_text_last path s t fs :
  append_text path s (fs ++ [(path, Text t)]) = fs ++ [(path, Text (t ++ s))].
Proof.
  unfold append_text. rewrite rev_app_distr. cbn [rev app append_newest].
  rewrite String.eqb_refl. cbn [rev]. rewrite rev_involutive. reflexivity.
Qed.

Lemma append_lines_last path ss : forall t fs,
  append_lines path ss (fs ++ [(path, Text t)]) =
    fs ++ [(path, Text (t ++ String.concat "" ss))].
Proof.
  unfold append_lines.
  induction ss as [|s rest IH]; intros t fs.
  - cbn [fold_left String.concat]. rewrite string_append_empty. reflexivity.
  - cbn [fold_left]. rewrite append_text_last, IH, concat_cons, string_append_assoc.
    reflexivity.
Qed.

(** A file opened and written line by line holds the whole text. *)
Lemma append_lines_opened path ss fs :
  append_lines path ss (write_file path (Text "") fs) =
    fs ++ [(path, Text (String.concat "" ss))].
Proof. unfold write_file. rewrite append_lines_last. reflexivity. Qed.

Lemma written_app path a b w : written path (a ++ b) w = written path b (written path a w).
Proof. unfold written. apply fold_left_app. Qed.

Lemma written_fields path ss : forall w,
  written path ss w =
    World (objects w) (next_id w) (active w) (materials w) (render_filepath w)
          (append_lines path ss (files w)) (stdout w) (calls w ++ write_calls path ss).
Proof.
  unfold append_lines, write_calls.
  induction ss as [|s rest IH]; intros w.
  - cbn [written fold_left map]. rewrite app_nil_r. destruct w; reflexivity.
  - change (written path (s :: rest) w) with (written path rest (written path [s] w)).
    rewrite IH. cbn [written fold_left map objects next_id active materials render_filepath
                     files stdout calls with_files log_call].
    rewrite <- app_assoc. reflexivity.
Qed.

Lemma write_ok h path s w : silent h -> write h path s w = (Ok tt, written path [s] w).
Proof. intros Hs. unfold write. rewrite call_ok by apply Hs. reflexivity. Qed.

Lemma write_verts_ok h path vs : silent h -> forall w,
  TriLobe.write_verts h path vs w = (Ok tt, written path (map (TriLobe.vertex_line h) vs) w).
Proof.
  intros Hs. unfold TriLobe.write_verts.
  induction vs as [|v rest IH]; intros w; [reflexivity|].
  cbn [for_each map]. rewrite (bind_ok _ (write_ok h _ _ _ Hs)), IH.
  reflexivity.
Qed.

Lemma write_face_ok h path f w : silent h ->
  TriLobe.write_face h path f w = (Ok tt, written path (face_lines h f) w).
Proof.
  intros Hs. unfold TriLobe.write_face, face_lines.
  rewrite (bind_ok _ (write_ok h _ _ _ Hs)), (bind_ok _ (write_ok h _ _ _ Hs)),
          (bind_ok _ (write_verts_ok h _ _ Hs _)), (bind_ok _ (write_ok h _ _ _ Hs)),
          (write_ok h _ _ _ Hs).
  rewrite !written_app. reflexivity.
Qed.

Lemma write_faces_ok h path fs : silent h -> forall w,
  TriLobe.write_faces h path fs w = (Ok tt, written path (flat_map (face_lines h) fs) w).
Proof.
  intros Hs. unfold TriLobe.write_faces.
  induction fs as [|f rest IH]; intros w; [reflexivity|].
  cbn [for_each flat_map]. rewrite (bind_ok _ (write_face_ok h _ _ _ Hs)), IH, written_app.
  reflexivity.
Qed.

Lemma validate_geometry_ok h obj o m mats w :
  quiet h -> lookup obj (objects w) = Some o -> obj_data o = MESH m mats ->
  TriLobe.validate_geometry h obj w =
    (Ok (negb (Nat.ltb 0 (non_manifold_vertices h m))),
     World (objects w) (next_id w) (Some obj) (materials w) (render_filepath w) (files w)
           (stdout w ++ [validity_report h o m]) (calls w ++ validation_calls)).
Proof.
  intros Hq Hl Hd. unfold TriLobe.validate_geometry, validity_report.
  unfold mode_set, mesh_select_op.
  rewrite (bind_ok _ (set_active_ok obj w)).
  erewrite bind_ok by (apply call_no_effect_ok; apply Hq; reflexivity).
  erewrite bind_ok by (apply call_no_effect_ok; apply Hq; reflexivity).
  erewrite bind_ok by (apply call_no_effect_ok; apply Hq; reflexivity).
  erewrite bind_ok by (apply get_object_ok; exact Hl).
  rewrite Hd.
  erewrite bind_ok by (apply call_no_effect_ok; apply Hq; reflexivity).
  destruct (Nat.ltb 0 (non_manifold_vertices h m)); world_norm; reflexivity.
Qed.

Lemma deselect_loop ids : forall w,
  (forall id, In id ids -> lookup id (objects w) <> None) ->
  for_each ids (fun o => TriLobe.select_set o false) w =
    (Ok tt, with_objects (fold_left (fun os id => update id (with_selected false) os)
                                    ids (objects w)) w).
Proof.
  induction ids as [|id rest IH]; intros w Hin.
  - destruct w; reflexivity.
  - cbn [for_each fold_left].
    destruct (lookup id (objects w)) as [o|] eqn:Hl;
      [|exfalso; apply (Hin id); [left; reflexivity|exact Hl]].
    unfold TriLobe.select_set at 1.
    rewrite (bind_ok _ (set_object_ok _ Hl)).
    rewrite IH.
    + reflexivity.
    + intros id' Hin'. cbn [objects with_objects]. apply present_update. apply Hin.
      right; exact Hin'.
Qed.

Lemma deselect_scene_objects_ok w :
  TriLobe.deselect_scene_objects w = (Ok tt, with_objects (deselected (objects w)) w).
Proof.
  unfold TriLobe.deselect_scene_objects, deselected.
  rewrite (bind_ok _ (gets_ok _ w)).
  apply deselect_loop. intros id. apply present_in_keys.
Qed.

Lemma bm_from_mesh_ok h {obj o m mats w} :
  raises h (bmesh_from_mesh m) w = None ->
  lookup obj (objects w) = Some o -> obj_data o = MESH m mats ->
  bm_from_mesh h obj w = (Ok m, log_call (bmesh_from_mesh m) w).
Proof.
  intros Hr Hl Hd. unfold bm_from_mesh.
  rewrite (bind_ok _ (get_object_ok Hl)), Hd.
  rewrite (bind_ok _ (call_no_effect_ok h _ _ Hr)). reflexivity.
Qed.

Lemma open_w_ok h path w :
  raises h (file_open path) w = None ->
  open_w h path w =
    (Ok tt, with_files (write_file path (Text "") (files w)) (log_call (file_open path) w)).
Proof. intros Hr. unfold open_w. rewrite call_modify_ok by exact Hr. reflexivity. Qed.

(** Up to its [try], [TriLobe.export_stl] depends on the calls outside
    the [try] only. *)
Lemma export_stl_enters_try h obj filename o m mats w :
  quiet h -> lookup obj (objects w) = Some o -> obj_data o = MESH m mats ->
  TriLobe.export_stl h obj filename w =
    try_except
      (TriLobe.export_attempt h obj (Str.path_join TriLobe.export_path filename)
                              (negb (Nat.ltb 0 (non_manifold_vertices h m))))
      is_Exception
      (TriLobe.export_fallback h filename (Str.path_join TriLobe.export_path filename))
      (before_try h obj o m w)
  /\ holds obj (MESH m mats) (objects (before_try h obj o m w)).
Proof.
  intros Hq Hl Hd.
  assert (Hheld : holds obj (MESH m mats) (deselected (objects w))).
  { apply holds_deselected. exists o. split; assumption. }
  destruct Hheld as [o1 [Hl1 Hd1]].
  split.
  - unfold TriLobe.export_stl.
    rewrite (bind_ok _ (validate_geometry_ok h _ _ _ _ _ Hq Hl Hd)).
    rewrite (bind_ok _ (deselect_scene_objects_ok _)).
    unfold TriLobe.select_set.
    erewrite bind_ok by (apply (set_object_ok _ (o := o1)); exact Hl1).
    rewrite (bind_ok _ (set_active_ok obj _)).
    f_equal; try (unfold before_try; world_norm; reflexivity).
  - exists (with_selected true o1). split; [|exact Hd1].
    unfold before_try; cbn [objects]. rewrite lookup_update, Nat.eqb_refl, Hl1. reflexivity.
Qed.

(** When no call raises, the exporter returns with the file written. *)
Lemma export_stl_ok h obj filename o m mats w :
  silent h -> lookup obj (objects w) = Some o -> obj_data o = MESH m mats ->
  TriLobe.export_stl h obj filename w = (Ok tt, exported h obj filename o m w).
Proof.
  intros Hs Hl Hd.
  destruct (export_stl_enters_try h obj filename o m mats w (silent_quiet h Hs) Hl Hd)
    as (Heq & (o2 & Hl2 & Hd2)).
  rewrite Heq. apply try_except_ok. unfold TriLobe.export_attempt.
  rewrite (bind_ok _ (bm_from_mesh_ok h (Hs _ _) Hl2 Hd2)).
  rewrite (bind_ok _ (open_w_ok h _ _ (Hs _ _))).
  rewrite (bind_ok _ (write_ok h _ _ _ Hs)), (bind_ok _ (write_faces_ok h _ _ Hs _)),
          (bind_ok _ (write_ok h _ _ _ Hs)).
  rewrite <- !written_app, written_fields.
  unfold exported, before_try, stl_lines. world_norm. reflexivity.
Qed.

(** C9.  For a mesh object, when no call raises, the hand-written
    exporter of tri_lobe_tentacle_generator.py returns with a file
    whose text is "solid tentacle", one facet block per face of the
    mesh in order (the face normal, then a single loop with every
    vertex of the face), and "endsolid tentacle"; every coordinate is
    printed as stored, with no scaling, whereas the exporter of
    render_tentacle_cli.py asks the host for a scale of 1000. *)
Theorem hand_written_stl_text h obj filename o m mats w :
  lookup obj (objects w) = Some o -> obj_data o = MESH m mats ->
  TriLobe.export_stl (never_raises h) obj filename w = (Ok tt, exported h obj filename o m w)
  /\ files (exported h obj filename o m w) =
       files w ++ [(Str.path_join TriLobe.export_path filename,
                    Text (stl_text h (faces_of h m)))]
  /\ (forall fs, stl_text h fs =
        ("solid tentacle" ++ TriLobe.newline
         ++ String.concat "" (map (facet_text h) fs)
         ++ "endsolid tentacle" ++ TriLobe.newline)%string)
  /\ (forall f, facet_text h f =
        (("  facet normal " ++ float_str h (vx (normal f)) ++ " "
          ++ float_str h (vy (normal f)) ++ " " ++ float_str h (vz (normal f))
          ++ TriLobe.newline)
         ++ "    outer loop" ++ TriLobe.newline
         ++ String.concat "" (map (TriLobe.vertex_line h) (verts f))
         ++ "    endloop" ++ TriLobe.newline
         ++ "  endfacet" ++ TriLobe.newline)%string)
  /\ (forall co, TriLobe.vertex_line h co =
        ("      vertex " ++ float_str h (vx co) ++ " " ++ float_str h (vy co) ++ " "
         ++ float_str h (vz co) ++ TriLobe.newline)%string)
  /\ Cli.export_stl (never_raises h) obj filename w = (Ok tt, cli_exported h obj filename w).
Proof.
  intros Hl Hd.
  split; [|split; [|split; [|split; [|split]]]]; try reflexivity.
  - exact (export_stl_ok (never_raises h) obj filename o m mats w
             (never_raises_silent h) Hl Hd).
  - unfold exported; cbn [files].
    rewrite append_lines_opened, stl_lines_text. reflexivity.
  - unfold Cli.export_stl, select_all, Cli.select_set.
    rewrite (bind_ok _ (call_modify_ok (never_raises h) _ _ _ eq_refl)).
    erewrite bind_ok.
    2:{ apply (set_object_ok _ (o := with_selected false o)).
        cbv [modify objects with_objects log_call]. rewrite lookup_map_objects.
        destruct w as [objs nid act mts rfp fls out cls]. cbn [objects] in Hl |- *.
        rewrite Hl. reflexivity. }
    rewrite (bind_ok _ (set_active_ok obj _)).
    apply try_except_ok.
    unfold Cli.export_method_1, stl_export_legacy.
    rewrite (bind_ok _ (call_modify_ok (never_raises h) _ _ _ eq_refl)).
    unfold cli_exported, cli_before_try, write_file, selected_objects.
    cbv [String.eqb Ascii.eqb Bool.eqb].
    world_norm. reflexivity.
Qed.

(** The exporter run on a scene with one triangle. *)
Lemma hand_written_stl_text_witness :
  TriLobe.export_stl (never_raises ideal_host) 0%nat "triangle.stl" triangle_world
    = (Ok tt, exported ideal_host 0%nat "triangle.stl"
                       (new_object "Triangle" (MESH (Cube 1) []) (Vec 0 0 0)) (Cube 1)
                       triangle_world)
  /\ files (exported ideal_host 0%nat "triangle.stl"
                     (new_object "Triangle" (MESH (Cube 1) []) (Vec 0 0 0)) (Cube 1)
                     triangle_world)
     = [("out/triangle.stl"%string, Text (stl_text ideal_host [triangle]))].
Proof.
  pose proof (hand_written_stl_text ideal_host 0%nat "triangle.stl"
                (new_object "Triangle" (MESH (Cube 1) []) (Vec 0 0 0)) (Cube 1) []
                triangle_world eq_refl eq_refl) as H.
  split; [exact (proj1 H)|exact (proj1 (proj2 H))].
Defined.

(* ================================================================== *)
(** * What export_stl lets through *)

Lemma roe_ret {A} (a : A) : raises_only_exceptions (ret a).
Proof. intros w e w' H. discriminate H. Qed.

Lemma roe_modify f : raises_only_exceptions (modify f).
Proof. intros w e w' H. discriminate H. Qed.

Lemma roe_print msg : raises_only_exceptions (print msg).
Proof. apply roe_modify. Qed.

Lemma roe_bind {A B} (m : M A) (k : A -> M B) :
  raises_only_exceptions m -> (forall a, raises_only_exceptions (k a)) ->
  raises_only_exceptions (bind m k).
Proof.
  intros Hm Hk w e w' H. unfold bind in H.
  destruct (m w) as [[a|e1] w1] eqn:Em.
  - exact (Hk a w1 e w' H).
  - inversion H; subst. exact (Hm w e w' Em).
Qed.

Lemma roe_for_each {A} (xs : list A) (body : A -> M unit) :
  (forall x, raises_only_exceptions (body x)) -> raises_only_exceptions (for_each xs body).
Proof.
  intros Hb. induction xs as [|x rest IH]; cbn [for_each].
  - apply roe_ret.
  - apply roe_bind; [apply Hb|intros _; exact IH].
Qed.

Lemma roe_get_object id : raises_only_exceptions (get_object id).
Proof.
  intros w e w' H. unfold get_object in H.
  destruct (lookup id (objects w)); inversion H; reflexivity.
Qed.

Section OnlyExceptions.
Variable h : host.
Hypothesis host_raises_exceptions : forall c w e, raises h c w = Some e -> is_Exception e = true.

Lemma roe_call c effect : raises_only_exceptions effect -> raises_only_exceptions (call h c effect).
Proof.
  intros He w e w' H. unfold call in H.
  destruct (raises h c w) as [e1|] eqn:Er.
  - inversion H; subst. exact (host_raises_exceptions c w e Er).
  - exact (He _ e w' H).
Qed.

Lemma roe_write path s : raises_only_exceptions (write h path s).
Proof. apply roe_call, roe_modify. Qed.

Lemma roe_bm_from_mesh obj : raises_only_exceptions (bm_from_mesh h obj).
Proof.
  unfold bm_from_mesh. apply roe_bind; [apply roe_get_object|].
  intros o. destruct (obj_data o).
  - apply roe_bind; [apply roe_call, roe_ret|intros _; apply roe_ret].
  - intros w e w' H. inversion H; reflexivity.
  - intros w e w' H. inversion H; reflexivity.
  - intros w e w' H. inversion H; reflexivity.
Qed.

Lemma roe_export_attempt obj filepath is_valid :
  raises_only_exceptions (TriLobe.export_attempt h obj filepath is_valid).
Proof.
  unfold TriLobe.export_attempt, TriLobe.write_faces, TriLobe.write_face, TriLobe.write_verts.
  apply roe_bind; [apply roe_bm_from_mesh|intros m].
  apply roe_bind; [apply roe_call, roe_modify|intros _].
  apply roe_bind; [apply roe_write|intros _].
  apply roe_bind.
  - apply roe_for_each. intros f.
    repeat (apply roe_bind; [try apply roe_write|intros _]); try apply roe_write.
    apply roe_for_each. intros co. apply roe_write.
  - intros _. apply roe_bind; [apply roe_write|intros _; apply roe_print].
Qed.

Lemma export_fallback_returns filename filepath e w :
  returns_normally (fst (TriLobe.export_fallback h filename filepath e w)).
Proof.
  unfold TriLobe.export_fallback.
  rewrite (bind_ok _ (print_ok _ w)).
  unfold try_except.
  match goal with |- context [bind ?m ?k ?w1] => destruct (bind m k w1) as [[a|e1] w2] eqn:Eb end.
  - exact I.
  - assert (He : is_Exception e1 = true).
    { revert Eb. apply roe_bind; [apply roe_call, roe_modify|intros _; apply roe_print]. }
    rewrite He. exact I.
Qed.

(** Past its [try], the hand-written exporter returns whatever the
    calls inside do. *)
Lemma trilobe_try_returns obj filename filepath is_valid w :
  returns_normally
    (fst (try_except (TriLobe.export_attempt h obj filepath is_valid) is_Exception
                     (TriLobe.export_fallback h filename filepath) w)).
Proof.
  unfold try_except.
  destruct (TriLobe.export_attempt h obj filepath is_valid w) as [[a|e] w1] eqn:Ea.
  - exact I.
  - rewrite (roe_export_attempt obj filepath is_valid w e w1 Ea).
    apply export_fallback_returns.
Qed.
End OnlyExceptions.

(** Up to its [try], [Cli.export_stl] depends on the selection calls
    only. *)
Lemma cli_export_stl_enters_try h obj filename o w :
  quiet h -> lookup obj (objects w) = Some o ->
  Cli.export_stl h obj filename w =
    try_except (Cli.export_method_1 h filename (Str.path_join (Cli.output_dir h) filename))
      is_AttributeError
      (fun _ =>
         try_except (Cli.export_method_2 h filename (Str.path_join (Cli.output_dir h) filename))
           is_AttributeError
           (fun _ =>
              try_except (Cli.export_method_3 h (Str.path_join (Cli.output_dir h) filename))
                any_exception
                (fun _ => print (Could_not_export filename))))
      (cli_before_try obj w).
Proof.
  intros Hq Hl.
  unfold Cli.export_stl, select_all, Cli.select_set.
  erewrite bind_ok by (apply call_modify_ok; apply Hq; reflexivity).
  erewrite bind_ok.
  2:{ apply (set_object_ok _ (o := with_selected false o)).
      cbv [modify objects with_objects log_call]. rewrite lookup_map_objects.
      destruct w as [objs nid act mts rfp fls out cls]. cbn [objects] in Hl |- *.
      rewrite Hl. reflexivity. }
  rewrite (bind_ok _ (set_active_ok obj _)).
  f_equal; try (unfold cli_before_try; cbv [String.eqb Ascii.eqb Bool.eqb]; world_norm;
                reflexivity).
Qed.

(** An exception of the first or second method comes from the host's
    exporter. *)
Lemma export_method_1_raises h filename filepath w e w' :
  Cli.export_method_1 h filename filepath w = (Raise e, w') ->
  raises h (export_mesh_stl filepath 1000.0%R) w = Some e.
Proof.
  unfold Cli.export_method_1, stl_export_legacy, bind, call.
  destruct (raises h _ w); intros H; inversion H; reflexivity.
Qed.

Lemma export_method_2_raises h filename filepath w e w' :
  Cli.export_method_2 h filename filepath w = (Raise e, w') ->
  raises h (wm_stl_export filepath 1000.0%R) w = Some e.
Proof.
  unfold Cli.export_method_2, stl_export, bind, call.
  destruct (raises h _ w); intros H; inversion H; reflexivity.
Qed.

(** The third method is under a bare [except]. *)
Lemma export_method_3_guarded h filename filepath w :
  returns_normally
    (fst (try_except (Cli.export_method_3 h filepath) any_exception
                     (fun _ => print (Could_not_export filename)) w)).
Proof.
  unfold try_except.
  destruct (Cli.export_method_3 h filepath w) as [[a|e] w1]; exact I.
Qed.

Lemma only_selected obj o objs :
  lookup obj objs = Some o ->
  filter (fun ko : objid * object => obj_selected (snd ko))
         (update obj (with_selected true) (map_objects (with_selected false) objs))
  = [(obj, with_selected true (with_selected false o))].
Proof.
  induction objs as [|[k o0] rest IH]; cbn [lookup]; [discriminate|].
  cbn [map_objects map fst snd update].
  destruct (Nat.eqb k obj) eqn:E.
  - intros H. inversion H; subst. apply Nat.eqb_eq in E. subst k.
    cbn [filter snd obj_selected with_selected].
    f_equal. clear. induction rest as [|[k o0] rest IH]; [reflexivity|exact IH].
  - intros H. cbn [filter snd obj_selected with_selected]. apply IH. exact H.
Qed.

Lemma bind_ok_inv {A B} (m : M A) (k : A -> M B) w b w' :
  bind m k w = (Ok b, w') -> exists a w1, m w = (Ok a, w1) /\ k a w1 = (Ok b, w').
Proof.
  unfold bind. destruct (m w) as [[a|e] w1]; intros H; [|discriminate H].
  exists a, w1. split; [reflexivity|exact H].
Qed.

(** An attempt that succeeds ends with its report. *)
Lemma export_attempt_reports h obj filepath is_valid w u w' :
  TriLobe.export_attempt h obj filepath is_valid w = (Ok u, w') ->
  exists out, stdout w' = out ++ [Exported_file is_valid filepath].
Proof.
  unfold TriLobe.export_attempt. intros H.
  repeat (apply bind_ok_inv in H; destruct H as (? & ? & _ & H)).
  rewrite print_ok in H. inversion H; subst.
  eexists. reflexivity.
Qed.

(** ** Up to the [try], with the calls made there let through *)
Section ExportPreamble.
Variable h : host.
Hypothesis preamble_passes :
  forall c w, In c export_preamble_calls -> raises h c w = None.

Ltac preamble_call :=
  apply preamble_passes; unfold export_preamble_calls, validation_calls; cbn [In];
  repeat (first [left; reflexivity | right]).

Lemma validate_geometry_runs obj o m mats w :
  lookup obj (objects w) = Some o -> obj_data o = MESH m mats ->
  TriLobe.validate_geometry h obj w =
    (Ok (negb (Nat.ltb 0 (non_manifold_vertices h m))),
     World (objects w) (next_id w) (Some obj) (materials w) (render_filepath w) (files w)
           (stdout w ++ [validity_report h o m]) (calls w ++ validation_calls)).
Proof.
  intros Hl Hd. unfold TriLobe.validate_geometry, validity_report.
  unfold mode_set, mesh_select_op.
  rewrite (bind_ok _ (set_active_ok obj w)).
  erewrite bind_ok by (apply call_no_effect_ok; preamble_call).
  erewrite bind_ok by (apply call_no_effect_ok; preamble_call).
  erewrite bind_ok by (apply call_no_effect_ok; preamble_call).
  erewrite bind_ok by (apply get_object_ok; exact Hl).
  rewrite Hd.
  erewrite bind_ok by (apply call_no_effect_ok; preamble_call).
  destruct (Nat.ltb 0 (non_manifold_vertices h m)); world_norm; reflexivity.
Qed.

Lemma export_stl_reaches_try obj filename o m mats w :
  lookup obj (objects w) = Some o -> obj_data o = MESH m mats ->
  TriLobe.export_stl h obj filename w =
    try_except
      (TriLobe.export_attempt h obj (Str.path_join TriLobe.export_path filename)
                              (negb (Nat.ltb 0 (non_manifold_vertices h m))))
      is_Exception
      (TriLobe.export_fallback h filename (Str.path_join TriLobe.export_path filename))
      (before_try h obj o m w).
Proof.
  intros Hl Hd.
  assert (Hheld : holds obj (MESH m mats) (deselected (objects w))).
  { apply holds_deselected. exists o. split; assumption. }
  destruct Hheld as [o1 [Hl1 Hd1]].
  unfold TriLobe.export_stl.
  rewrite (bind_ok _ (validate_geometry_runs _ _ _ _ _ Hl Hd)).
  rewrite (bind_ok _ (deselect_scene_objects_ok _)).
  unfold TriLobe.select_set.
  erewrite bind_ok by (apply (set_object_ok _ (o := o1)); exact Hl1).
  rewrite (bind_ok _ (set_active_ok obj _)).
  f_equal; try (unfold before_try; world_norm; reflexivity).
Qed.

Lemma cli_export_stl_reaches_try obj filename o w :
  lookup obj (objects w) = Some o ->
  Cli.export_stl h obj filename w =
    try_except (Cli.export_method_1 h filename (Str.path_join (Cli.output_dir h) filename))
      is_AttributeError
      (fun _ =>
         try_except (Cli.export_method_2 h filename (Str.path_join (Cli.output_dir h) filename))
           is_AttributeError
           (fun _ =>
              try_except (Cli.export_method_3 h (Str.path_join (Cli.output_dir h) filename))
                any_exception
                (fun _ => print (Could_not_export filename))))
      (cli_before_try obj w).
Proof.
  intros Hl.
  unfold Cli.export_stl, select_all, Cli.select_set.
  erewrite bind_ok by (apply call_modify_ok; preamble_call).
  erewrite bind_ok.
  2:{ apply (set_object_ok _ (o := with_selected false o)).
      cbv [modify objects with_objects log_call]. rewrite lookup_map_objects.
      destruct w as [objs nid act mts rfp fls out cls]. cbn [objects] in Hl |- *.
      rewrite Hl. reflexivity. }
  rewrite (bind_ok _ (set_active_ok obj _)).
  f_equal; try (unfold cli_before_try; cbv [String.eqb Ascii.eqb Bool.eqb]; world_norm;
                reflexivity).
Qed.
End ExportPreamble.

(** C4, as the code has it.  [export_stl] returns normally in both
    scripts for a mesh object of the scene, provided that the calls
    made before the [try] do not raise, that the two STL operators of
    the host raise nothing but [AttributeError] (they are absent, not
    failing), and that what the host raises derives from [Exception].
    Each method then falls through to the next.  In
    render_tentacle_cli.py the first operator that goes through writes
    the STL file with the one object; when both are absent the scene
    is saved as a .blend file, and when that fails the failure message
    is printed and nothing is written.  In
    tri_lobe_tentacle_generator.py an attempt that goes through ends
    with its report; one that fails is reported, and the scene is
    saved as a .blend file, or, when that fails too, the second
    failure is reported. *)
Theorem export_stl_returns_normally h obj filename o m mats w :
  lookup obj (objects w) = Some o -> obj_data o = MESH m mats ->
  (forall c w', In c export_preamble_calls -> raises h c w' = None) ->
  (forall p s w' e, raises h (export_mesh_stl p s) w' = Some e -> e = AttributeError) ->
  (forall p s w' e, raises h (wm_stl_export p s) w' = Some e -> e = AttributeError) ->
  (forall c w' e, raises h c w' = Some e -> is_Exception e = true) ->
  (let filepath := Str.path_join (Cli.output_dir h) filename in
   let blend_filepath := Str.replace ".stl" ".blend" filepath in
   let only := [with_selected true (with_selected false o)] in
   let first := export_mesh_stl filepath 1000.0 in
   let second := wm_stl_export filepath 1000.0 in
   let third := wm_save_as_mainfile blend_filepath in
   let w0 := cli_before_try obj w in
   exists w',
     Cli.export_stl h obj filename w = (Ok tt, w')
     /\ match raises h first w0 with
        | None =>
            files w' = files w ++ [(filepath, HostStl only 1000.0)]
            /\ stdout w' = stdout w ++ [Exported filename]
        | Some _ =>
            match raises h second (log_call first w0) with
            | None =>
                files w' = files w ++ [(filepath, HostStl only 1000.0)]
                /\ stdout w' = stdout w ++ [Exported_method_2 filename]
            | Some _ =>
                match raises h third (log_call second (log_call first w0)) with
                | None =>
                    files w' = files w ++ [(blend_filepath, BlendFile (map snd (objects w0)))]
                    /\ stdout w' = stdout w ++ [Stl_not_available_saved_as blend_filepath]
                | Some _ =>
                    files w' = files w
                    /\ stdout w' = stdout w ++ [Could_not_export filename]
                end
            end
        end)
  /\ (let filepath := Str.path_join TriLobe.export_path filename in
      let blend_path := Str.replace ".stl" ".blend" filepath in
      let is_valid := negb (Nat.ltb 0 (non_manifold_vertices h m)) in
      exists w',
        TriLobe.export_stl h obj filename w = (Ok tt, w')
        /\ match TriLobe.export_attempt h obj filepath is_valid (before_try h obj o m w) with
           | (Ok _, w1) =>
               w' = w1 /\ exists out, stdout w' = out ++ [Exported_file is_valid filepath]
           | (Raise e, w1) =>
               match raises h (wm_save_as_mainfile blend_path)
                            (with_stdout (stdout w1 ++ [Export_failed filename e]) w1) with
               | None =>
                   files w' = files w1 ++ [(blend_path, BlendFile (map snd (objects w1)))]
                   /\ stdout w' = stdout w1 ++ [Export_failed filename e;
                                                Saved_as_blender_file_instead blend_path]
               | Some e2 =>
                   files w' = files w1
                   /\ stdout w' = stdout w1 ++ [Export_failed filename e;
                                                All_export_methods_failed e2]
               end
           end).
Proof.
  intros Hl Hd Hpre H1 H2 He. split.
  - intros filepath blend_filepath only first second third w0.
    assert (Hsel : forall w1, objects w1 = objects w0 ->
                     map snd (selected_objects w1) = only).
    { intros w1 Hw1. unfold selected_objects. rewrite Hw1. unfold w0, cli_before_try.
      cbn [objects]. rewrite (only_selected obj o (objects w) Hl). reflexivity. }
    rewrite (cli_export_stl_reaches_try h Hpre obj filename o w Hl).
    fold filepath w0.
    unfold Cli.export_method_1, Cli.export_method_2, Cli.export_method_3,
      stl_export_legacy, stl_export, save_as_mainfile.
    fold blend_filepath. fold first second third.
    destruct (raises h first w0) as [e1|] eqn:E1.
    + rewrite (H1 _ _ _ _ E1) in E1.
      rewrite (try_except_caught is_AttributeError _
                 (bind_raise _ (call_raises h _ _ _ _ E1)) eq_refl).
      destruct (raises h second (log_call first w0)) as [e2|] eqn:E2.
      * rewrite (H2 _ _ _ _ E2) in E2.
        rewrite (try_except_caught is_AttributeError _
                   (bind_raise _ (call_raises h _ _ _ _ E2)) eq_refl).
        destruct (raises h third (log_call second (log_call first w0))) as [e3|] eqn:E3.
        -- rewrite (try_except_caught any_exception _
                      (bind_raise _ (call_raises h _ _ _ _ E3)) eq_refl).
           eexists. split; [apply print_ok|]. split; reflexivity.
        -- eexists. split.
           ++ apply try_except_ok.
              rewrite (bind_ok _ (call_modify_ok h _ _ _ E3)). apply print_ok.
           ++ split; reflexivity.
      * eexists. split.
        -- apply try_except_ok.
           rewrite (bind_ok _ (call_modify_ok h _ _ _ E2)). apply print_ok.
        -- cbn [files stdout with_stdout with_files]. unfold write_file.
           rewrite (Hsel (log_call second (log_call first w0)) eq_refl).
           split; reflexivity.
    + eexists. split.
      * apply try_except_ok.
        rewrite (bind_ok _ (call_modify_ok h _ _ _ E1)). apply print_ok.
      * cbn [files stdout with_stdout with_files]. unfold write_file.
        rewrite (Hsel (log_call first w0) eq_refl). split; reflexivity.
  - intros filepath blend_path is_valid.
    rewrite (export_stl_reaches_try h Hpre obj filename o m mats w Hl Hd).
    fold filepath is_valid.
    destruct (TriLobe.export_attempt h obj filepath is_valid (before_try h obj o m w))
      as [[[]|e] w1] eqn:Ea.
    + exists w1. split; [apply (try_except_ok _ _ Ea)|]. split; [reflexivity|].
      exact (export_attempt_reports _ _ _ _ _ _ _ Ea).
    + rewrite (try_except_caught is_Exception _ Ea
                 (roe_export_attempt h He obj filepath is_valid _ _ _ Ea)).
      unfold TriLobe.export_fallback, save_as_mainfile. fold blend_path.
      rewrite (bind_ok _ (print_ok _ _)).
      destruct (raises h (wm_save_as_mainfile blend_path)
                         (with_stdout (stdout w1 ++ [Export_failed filename e]) w1))
        as [e2|] eqn:E2.
      * rewrite (try_except_caught is_Exception _
                   (bind_raise _ (call_raises h _ _ _ _ E2)) (He _ _ _ E2)).
        eexists. split; [apply print_ok|].
        cbn [files stdout with_stdout log_call]. rewrite <- app_assoc. split; reflexivity.
      * eexists. split.
        -- apply try_except_ok.
           rewrite (bind_ok _ (call_modify_ok h _ _ _ E2)). apply print_ok.
        -- cbn [files stdout objects with_stdout with_files log_call]. unfold write_file.
           rewrite <- app_assoc. split; reflexivity.
Qed.

Lemma host_without_stl_export_quiet : quiet host_without_stl_export.
Proof. intros c w H. destruct c; try reflexivity; discriminate H. Qed.

(** Both exporters on a host without STL export and without write
    access: every fallback is taken, and both return. *)
Lemma export_stl_returns_normally_witness :
  returns_normally (fst (Cli.export_stl host_without_stl_export 0%nat "triangle.stl"
                                        triangle_world))
  /\ returns_normally (fst (TriLobe.export_stl host_without_stl_export 0%nat "triangle.stl"
                                               triangle_world)).
Proof.
  destruct (export_stl_returns_normally host_without_stl_export 0%nat "triangle.stl"
              (new_object "Triangle" (MESH (Cube 1) []) (Vec 0 0 0)) (Cube 1) [] triangle_world)
    as [(w1 & E1 & _) (w2 & E2 & _)].
  - reflexivity.
  - reflexivity.
  - intros c w' Hin. cbn in Hin.
    repeat (destruct Hin as [<-|Hin]; [reflexivity|]). destruct Hin.
  - intros p s w' e H. cbn in H. congruence.
  - intros p s w' e H. cbn in H. congruence.
  - intros c w' e H. destruct c; cbn in H; inversion H; reflexivity.
  - rewrite E1, E2. split; exact I.
Defined.

(** What these two runs print. *)
Lemma fallbacks_taken :
  stdout (snd (Cli.export_stl host_without_stl_export 0%nat "triangle.stl" triangle_world))
    = [Could_not_export "triangle.stl"]
  /\ stdout (snd (TriLobe.export_stl host_without_stl_export 0%nat "triangle.stl"
                                     triangle_world))
    = [Geometry_is_manifold "Triangle"; Export_failed "triangle.stl" OSError;
       All_export_methods_failed OSError].
Proof. split; cbv; reflexivity. Qed.

(** C4, as stated, fails: when the first STL operator exists and its
    write fails, [Cli.export_stl] lets the exception out. *)
Lemma cli_export_stl_propagates_write_failure :
  fst (Cli.export_stl host_with_failing_write 0%nat "tentacle_body.stl" triangle_world)
    = Raise RuntimeError.
Proof. cbv. reflexivity. Qed.

(* ================================================================== *)
(** * The bladders of render_tentacle_cli.py *)

Lemma num_bladders_eq : Cli.num_bladders = 9%Z.
Proof.
  unfold Cli.num_bladders, Py.int, Cli.tentacle_len_mm, Cli.bladder_spacing_mm.
  replace (150.0 / 15.0)%R with (INR 10) by (simpl; lra).
  destruct (Rle_dec 0 (INR 10)) as [_|n].
  - rewrite Int_part_INR. reflexivity.
  - exfalso. apply n. apply pos_INR.
Qed.

Lemma z_pos_eq i : Cli.z_pos i = (INR (i + 1) * 15 * 0.001)%R.
Proof. unfold Cli.z_pos, Cli.bladder_spacing_mm, Cli.MM. lra. Qed.

Lemma breaks_at_false i : (i < 8)%nat -> Cli.breaks_at i = false.
Proof.
  intros Hi. unfold Cli.breaks_at.
  destruct (Rge_dec _ _) as [H|H]; [|reflexivity].
  exfalso. rewrite z_pos_eq in H. unfold Cli.tentacle_len_mm, Cli.bladder_spacing_mm, Cli.MM in H.
  assert (INR (i + 1) <= 8)%R.
  { replace 8%R with (INR 8) by (simpl; lra). apply le_INR. lia. }
  lra.
Qed.

Lemma breaks_at_8 : Cli.breaks_at 8 = true.
Proof.
  unfold Cli.breaks_at.
  destruct (Rge_dec _ _) as [H|H]; [reflexivity|].
  exfalso. apply H. rewrite z_pos_eq. unfold Cli.tentacle_len_mm, Cli.bladder_spacing_mm, Cli.MM.
  simpl. lra.
Qed.

Lemma bladder_indices_eq : Cli.bladder_indices = [0; 1; 2; 3; 4; 5; 6; 7]%nat.
Proof.
  unfold Cli.bladder_indices. rewrite num_bladders_eq.
  change (range (Z.to_nat 9)) with [0; 1; 2; 3; 4; 5; 6; 7; 8]%nat.
  cbn [Cli.before_break].
  rewrite !breaks_at_false by lia. rewrite breaks_at_8. reflexivity.
Qed.

(* ================================================================== *)
(** * A successful run of render_tentacle_cli.py *)

Lemma cli_main_observed h :
  exists w,
    Cli.main (never_raises h) startup_world = (Ok tt, w)
    /\ map file_summary (files w) =
         [(Str.path_join (Cli.output_dir h) "tentacle_camera_view.png", RenderImage, []);
          (Str.path_join (Cli.output_dir h) "tentacle_complete.blend", SceneFile, []);
          (Str.path_join (Cli.output_dir h) "tentacle_body.stl", StlMesh,
           [("TentacleBody"%string, [], 0%nat)]);
          (Str.path_join (Cli.output_dir h) "tentacle_hydraulic_systems.stl", StlMesh,
           [("HydraulicSystem_Lobe_1"%string, [], 24%nat)])]
    /\ map (fun f => exported_meshes (snd f)) (firstn 3 (files w)) =
         [[]; []; [("TentacleBody"%string, cli_body_mesh)]]
    /\ filter is_cylinder_add (calls w) = []
    /\ filter is_sphere_add (calls w) =
         flat_map (fun lobe => map (fun i => mesh_primitive_uv_sphere_add
                                               (Cli.bladder_radius i)
                                               (Cli.bladder_center lobe i))
                                   (range 8)) (range 3)
    /\ map (fun ko => obj_name (snd ko)) (objects w) =
         ["TentacleBody"; "HydraulicSystem_Lobe_1"; "RenderCamera"; "CameraTarget";
          "MainLight"; "FillLight"; "TopLight"; "BackLight"]%string.
Proof.
  destruct h as [r f nm pe dir fs].
  remember (Cli.main (never_raises (Host r f nm pe dir fs)) startup_world) as run eqn:Hrun.
  unfold Cli.main, Cli.create_bladders, Cli.create_channels, Cli.setup_output_dir in Hrun.
  rewrite bladder_indices_eq in Hrun.
  cbn [for_collect range seq] in Hrun.
  unfold Cli.create_channel in Hrun.
  destruct (channel_rotation_applied 0) as (a0 & x0 & E0).
  destruct (channel_rotation_applied 1) as (a1 & x1 & E1).
  destruct (channel_rotation_applied 2) as (a2 & x2 & E2).
  rewrite E0, E1, E2 in Hrun.
  run_script_in Hrun.
  destruct (pe _); subst run; (eexists; split; [reflexivity|]);
    run_script; repeat split; reflexivity.
Qed.

(* ================================================================== *)
(** * What a script asks of the host *)

Section OnlyCalls.
Variable P : hostcall -> Prop.

Lemma oc_ret {A} (a : A) : only_calls P (ret a).
Proof. intros w. exists []. rewrite app_nil_r. split; [reflexivity|constructor]. Qed.

Lemma oc_raise {A} e : only_calls P (raise (A := A) e).
Proof. intros w. exists []. rewrite app_nil_r. split; [reflexivity|constructor]. Qed.

Lemma oc_gets {A} (f : world -> A) : only_calls P (gets f).
Proof. intros w. exists []. rewrite app_nil_r. split; [reflexivity|constructor]. Qed.

Lemma oc_modify f : (forall w, calls (f w) = calls w) -> only_calls P (modify f).
Proof.
  intros Hf w. exists []. rewrite app_nil_r. split; [apply Hf|constructor].
Qed.

Lemma oc_bind {A B} (m : M A) (k : A -> M B) :
  only_calls P m -> (forall a, only_calls P (k a)) -> only_calls P (bind m k).
Proof.
  intros Hm Hk w. unfold bind.
  destruct (Hm w) as (asked1 & E1 & H1).
  destruct (m w) as [[a|e] w1]; cbn [snd] in E1.
  - destruct (Hk a w1) as (asked2 & E2 & H2).
    exists (asked1 ++ asked2). rewrite E2, E1, app_assoc.
    split; [reflexivity|apply Forall_app; split; assumption].
  - exists asked1. split; assumption.
Qed.

Lemma oc_call h c effect : P c -> only_calls P effect -> only_calls P (call h c effect).
Proof.
  intros Hc He w. unfold call.
  destruct (raises h c w).
  - exists [c]. split; [reflexivity|repeat constructor; exact Hc].
  - destruct (He (log_call c w)) as (asked & E & H).
    exists (c :: asked). rewrite E. cbn [calls log_call]. rewrite <- app_assoc.
    split; [reflexivity|constructor; assumption].
Qed.

Lemma oc_for_collect {A B} (xs : list A) (body : A -> M B) :
  (forall x, In x xs -> only_calls P (body x)) -> only_calls P (for_collect xs body).
Proof.
  induction xs as [|x rest IH]; intros H; cbn [for_collect]; [apply oc_ret|].
  apply oc_bind; [apply H; left; reflexivity|intros b].
  apply oc_bind; [|intros bs; apply oc_ret].
  apply IH. intros y Hy. apply H. right. exact Hy.
Qed.

Lemma oc_get_object id : only_calls P (get_object id).
Proof.
  intros w. unfold get_object. exists []. rewrite app_nil_r.
  destruct (lookup id (objects w)); split; try reflexivity; constructor.
Qed.

Lemma oc_set_object id f : only_calls P (set_object id f).
Proof.
  unfold set_object. apply oc_bind; [apply oc_get_object|intros _].
  apply oc_modify. reflexivity.
Qed.

Lemma oc_active_object : only_calls P active_object.
Proof.
  intros w. unfold active_object. exists []. rewrite app_nil_r.
  destruct (active w); split; try reflexivity; constructor.
Qed.

Lemma oc_ensure_material name : only_calls P (ensure_material name).
Proof.
  unfold ensure_material. apply oc_bind; [apply oc_gets|intros ms].
  apply oc_bind; [|intros _; apply oc_ret].
  destruct (existsb _ ms); [apply oc_ret|apply oc_modify; reflexivity].
Qed.

Lemma oc_materials_append id mat : only_calls P (materials_append id mat).
Proof.
  unfold materials_append. apply oc_bind; [apply oc_get_object|intros o].
  destruct (obj_data o); try apply oc_raise. apply oc_set_object.
Qed.
End OnlyCalls.

(* ================================================================== *)
(** * The body, the bladders and the channels of render_tentacle_cli.py *)

(** create_simple_tentacle on the start-up scene. *)
Lemma cli_tentacle_created h :
  exists tentacle w,
    Cli.create_simple_tentacle (never_raises h) startup_world = (Ok tentacle, w)
    /\ filter is_cone_add (calls w) =
         [mesh_primitive_cone_add 32 (Cli.base_radius_mm * Cli.MM) (Cli.tip_radius_mm * Cli.MM)
            (Cli.tentacle_len_mm * Cli.MM) (Vec 0 0 (Cli.tentacle_len_mm / 2 * Cli.MM))]
    /\ filter is_bmesh_read (calls w) =
         [bmesh_from_mesh (Cone 32 (Cli.base_radius_mm * Cli.MM) (Cli.tip_radius_mm * Cli.MM)
                                (Cli.tentacle_len_mm * Cli.MM))]
    /\ name_at tentacle w = Some "TentacleBody"%string
    /\ mesh_at tentacle w =
         Some (MapVerts Cli.trilobe_vertex
                 (Cone 32 (Cli.base_radius_mm * Cli.MM) (Cli.tip_radius_mm * Cli.MM)
                       (Cli.tentacle_len_mm * Cli.MM)))
    /\ option_map obj_location (lookup tentacle (objects w))
       = Some (Vec 0 0 (Cli.tentacle_len_mm / 2 * Cli.MM)).
Proof.
  destruct h as [r f nm pe dir fs].
  do 2 eexists. split; [run_script; reflexivity|].
  run_script. repeat split; reflexivity.
Qed.

(** create_bladders on the start-up scene. *)
Lemma cli_bladders_created h :
  exists bladders w,
    Cli.create_bladders (never_raises h) startup_world = (Ok bladders, w)
    /\ filter is_sphere_add (calls w) =
         flat_map (fun lobe => map (fun i => mesh_primitive_uv_sphere_add
                                               (Cli.bladder_radius i)
                                               (Cli.bladder_center lobe i))
                                   (range 8)) (range 3)
    /\ map (fun bladder => name_at bladder w) bladders =
         flat_map (fun lobe => map (fun i => Some (cli_bladder_name lobe i)) (range 8))
                  (range 3)
    /\ map (fun bladder => mesh_at bladder w) bladders =
         flat_map (fun lobe => map (fun i => Some (cli_bladder_mesh lobe i)) (range 8))
                  (range 3).
Proof.
  destruct h as [r f nm pe dir fs].
  remember (Cli.create_bladders (never_raises (Host r f nm pe dir fs)) startup_world)
    as run eqn:Hrun.
  unfold Cli.create_bladders in Hrun.
  rewrite bladder_indices_eq in Hrun.
  run_script_in Hrun.
  subst run. do 2 eexists. split; [reflexivity|].
  run_script. repeat split; reflexivity.
Qed.

(** create_channels on the start-up scene. *)
Lemma cli_channels_created h :
  exists channels w,
    Cli.create_channels (never_raises h) startup_world = (Ok channels, w)
    /\ filter is_cone_add (calls w) =
         map (fun lobe =>
                let g := Cli.channel_geometry_of lobe in
                mesh_primitive_cone_add 32 (Cli.base_channel_radius g)
                  (Cli.tip_channel_radius g) (Cli.channel_length g) (Cli.center g))
             (range 3)
    /\ map (fun channel => name_at channel w) channels =
         map (fun lobe => Some (cli_channel_name lobe)) (range 3)
    /\ map (fun channel => mesh_at channel w) channels =
         map (fun lobe => Some (cli_channel_mesh lobe)) (range 3).
Proof.
  destruct h as [r f nm pe dir fs].
  remember (Cli.create_channels (never_raises (Host r f nm pe dir fs)) startup_world)
    as run eqn:Hrun.
  unfold Cli.create_channels in Hrun.
  cbn [for_collect range seq] in Hrun.
  unfold Cli.create_channel in Hrun.
  cbn [map range seq]. unfold cli_channel_mesh.
  destruct (channel_rotation_applied 0) as (a0 & x0 & E0).
  destruct (channel_rotation_applied 1) as (a1 & x1 & E1).
  destruct (channel_rotation_applied 2) as (a2 & x2 & E2).
  rewrite E0, E1, E2 in Hrun |- *.
  run_script_in Hrun.
  subst run. do 2 eexists. split; [reflexivity|].
  run_script. repeat split; reflexivity.
Qed.

(** C10.  The rotation that aligns a channel cone is computed without
    failure for every start and end point.  The step from the
    direction vector on never fails, whatever that vector is, unit
    length or not: the argument of [math.acos] is clamped into
    [-1, 1], where the call never raises, while outside of [-1, 1]
    [math.acos] does raise; and the step is skipped exactly when the
    direction is parallel to the z axis (the cross product with
    (0,0,1) has length zero), so that no zero vector is normalised.
    For a channel that is when the end point lies straight above the
    start point.  create_channels sets the rotation so computed on
    each of its three channels. *)
Theorem channel_rotation_total h sx sy ex ey :
  (exists r, Cli.channel_rotation sx sy ex ey = Ok r)
  /\ Cli.channel_rotation sx sy ex ey =
       match Vector.normalized
               (Vec (ex - sx) (ey - sy) (Cli.tentacle_len_mm * Cli.MM * 0.85 - 0)) with
       | Raise e => Raise e
       | Ok direction_vector => Cli.rotation_to direction_vector
       end
  /\ (forall direction_vector, exists r, Cli.rotation_to direction_vector = Ok r)
  /\ (forall direction_vector,
        Cli.rotation_to direction_vector = Ok None
        <-> (vx direction_vector = 0 /\ vy direction_vector = 0))
  /\ (forall d, Py.acos (Py.min 1.0 (Py.max (-1.0) d))
                = Ok (acos (Py.min 1.0 (Py.max (-1.0) d))))
  /\ (forall d, -1 <= Py.min 1.0 (Py.max (-1.0) d) <= 1)
  /\ (forall d, d < -1 \/ 1 < d -> Py.acos d = Raise ValueError)
  /\ (Cli.channel_rotation sx sy ex ey = Ok None <-> (ex = sx /\ ey = sy))
  /\ Cli.channel_rotation sx sy sx sy = Ok None
  /\ (exists channels w,
        Cli.create_channels (never_raises h) startup_world = (Ok channels, w)
        /\ map (fun channel => mesh_at channel w) channels =
             map (fun lobe => Some (cli_channel_mesh lobe)) (range 3))
  /\ (forall lobe,
        let g := Cli.channel_geometry_of lobe in
        exists rotation_angle rotation_axis,
          Cli.channel_rotation (Cli.start_x g) (Cli.start_y g) (Cli.end_x g) (Cli.end_y g)
          = Ok (Some (rotation_angle, rotation_axis))
          /\ cli_channel_mesh lobe =
               Transformed (Cli.center g) (AxisAngle rotation_angle rotation_axis)
                 identity_scale
                 (Cone 32 (Cli.base_channel_radius g) (Cli.tip_channel_radius g)
                       (Cli.channel_length g))).
Proof.
  assert (Hiff : Cli.channel_rotation sx sy ex ey = Ok None <-> (ex = sx /\ ey = sy)).
  { rewrite <- channel_axis_zero_iff, channel_rotation_eq.
    destruct (Rlt_dec 0 _) as [Hpos|Hzero]; split; intros H;
      try reflexivity; try discriminate H; try contradiction. exact Hzero. }
  split; [|split; [reflexivity|split; [|split; [|split; [exact acos_clamped|
    split; [|split; [|split; [exact Hiff|split; [|split]]]]]]]]].
  - rewrite channel_rotation_eq. destruct (Rlt_dec 0 _); eexists; reflexivity.
  - intros d. rewrite rotation_to_eq. destruct (Rlt_dec 0 _); eexists; reflexivity.
  - intros d. rewrite rotation_to_eq.
    assert (Hlen : 0 < Vector.length (Vector.cross (Vec 0 0 1) d)
                   <-> ~ (vx d = 0 /\ vy d = 0)).
    { rewrite length_positive_iff. unfold Vector.cross; cbn [vx vy vz].
      split; intros H; intros Hxy; apply H.
      - destruct Hxy as [Hx Hy]. rewrite Hx, Hy. repeat split; ring.
      - destruct Hxy as (H1 & H2 & _). split; lra. }
    destruct (Rlt_dec 0 _) as [Hpos|Hzero].
    + split; [discriminate|]. intros Hxy. exfalso. apply Hlen in Hpos. exact (Hpos Hxy).
    + split; [intros _|reflexivity].
      destruct (Req_dec (vx d) 0) as [Hx|Hx]; destruct (Req_dec (vy d) 0) as [Hy|Hy];
        try (split; assumption); exfalso; apply Hzero, Hlen; intros [H1 H2]; contradiction.
  - intros d. unfold Py.min, Py.max.
    destruct (Rlt_dec (-1.0) d); destruct (Rlt_dec _ 1.0); lra.
  - intros d Hd. unfold Py.acos.
    destruct (Rle_dec (-1) d); [destruct (Rle_dec d 1)|]; try reflexivity. exfalso. lra.
  - rewrite channel_rotation_eq.
    destruct (Rlt_dec 0 _) as [Hpos|]; [|reflexivity].
    exfalso. revert Hpos. apply channel_axis_zero_iff. split; reflexivity.
  - destruct (cli_channels_created h) as (channels & w & Hrun & _ & _ & Hmesh).
    exists channels, w. split; assumption.
  - intros lobe g.
    destruct (channel_rotation_applied lobe) as (a & x & E).
    exists a, x. split; [exact E|].
    unfold cli_channel_mesh. fold g. unfold g at 1 2 3 4. rewrite E. reflexivity.
Qed.

(** C7.  create_simple_tentacle reads the vertices of its cone and
    puts each of them through the tri-lobe deformation: the mesh of
    the body it returns is the cone with every vertex so mapped.  The
    deformation multiplies the x and y coordinates of a vertex by
    1 + 0.35 * sin(3 * atan2(y, x)) * (1 - z_ratio^3), with
    z_ratio = (z + L/2) / L and L the tentacle length in metres; a
    vertex at radius 0 is left as it is, and z is never changed. *)
Theorem trilobe_vertex_deformation h :
  let L := Cli.tentacle_len_mm * Cli.MM in
  let cone := Cone 32 (Cli.base_radius_mm * Cli.MM) (Cli.tip_radius_mm * Cli.MM) L in
  let z_ratio co := (vz co + L / 2) / L in
  let factor co := 1 + 0.35 * sin (3 * Py.atan2 (vy co) (vx co)) * (1 - z_ratio co ^ 3) in
  (exists tentacle w,
     Cli.create_simple_tentacle (never_raises h) startup_world = (Ok tentacle, w)
     /\ filter is_bmesh_read (calls w) = [bmesh_from_mesh cone]
     /\ name_at tentacle w = Some "TentacleBody"%string
     /\ mesh_at tentacle w = Some (MapVerts Cli.trilobe_vertex cone))
  /\ (exists w,
        Cli.main (never_raises h) startup_world = (Ok tt, w)
        /\ map (fun f => exported_meshes (snd f)) (firstn 3 (files w)) =
             [[]; []; [("TentacleBody"%string, MapVerts Cli.trilobe_vertex cone)]])
  /\ (forall co,
        Cli.trilobe_vertex co =
          (if Rlt_dec 0 (sqrt (vx co ^ 2 + vy co ^ 2))
           then Vec (vx co * factor co) (vy co * factor co) (vz co) else co))
  /\ (forall co, vz (Cli.trilobe_vertex co) = vz co)
  /\ (forall z, Cli.trilobe_vertex (Vec 0 0 z) = Vec 0 0 z)
  /\ L = 0.15.
Proof.
  intros L cone z_ratio factor.
  split; [|split; [|split; [|split; [|split]]]].
  - destruct (cli_tentacle_created h) as (tentacle & w & Hrun & _ & Hread & Hname & Hmesh & _).
    exists tentacle, w. repeat split; assumption.
  - destruct (cli_main_observed h) as (w & Hrun & _ & Hbody & _).
    exists w. split; [exact Hrun|exact Hbody].
  - intros co.
    assert (Hz : (vz co + Cli.tentacle_len_mm / 2 * Cli.MM) / (Cli.tentacle_len_mm * Cli.MM)
                 = z_ratio co).
    { unfold z_ratio, L. f_equal. lra. }
    unfold Cli.trilobe_vertex. rewrite Hz.
    destruct (Rlt_dec 0 _); [|reflexivity].
    replace (Py.atan2 (vy co) (vx co) * 3) with (3 * Py.atan2 (vy co) (vx co)) by ring.
    unfold factor. f_equal; ring.
  - intros co. unfold Cli.trilobe_vertex. destruct (Rlt_dec 0 _); reflexivity.
  - intros z. unfold Cli.trilobe_vertex. cbn [vx vy vz].
    replace (0 ^ 2 + 0 ^ 2) with 0 by ring. rewrite sqrt_0.
    destruct (Rlt_dec 0 0); [lra|reflexivity].
  - unfold L, Cli.tentacle_len_mm, Cli.MM. lra.
Qed.

(** Whatever the host and the scene, a sphere create_bladders asks for
    is the sphere of one of the eight bladders of one of the three
    lobes. *)
Lemma cli_bladders_asked h :
  only_calls
    (fun c => forall radius location,
       c = mesh_primitive_uv_sphere_add radius location ->
       exists lobe i, (lobe < 3)%nat /\ (i < 8)%nat
                      /\ radius = Cli.bladder_radius i
                      /\ location = Cli.bladder_center lobe i)
    (Cli.create_bladders h).
Proof.
  unfold Cli.create_bladders. rewrite bladder_indices_eq.
  apply oc_bind; [|intros; apply oc_ret].
  apply oc_for_collect. intros lobe Hlobe. unfold range in Hlobe. apply in_seq in Hlobe.
  apply oc_for_collect. intros i Hi.
  assert (Hi8 : (i < 8)%nat) by (cbn [In] in Hi; intuition lia).
  unfold Cli.create_bladder, primitive_uv_sphere_add, transform_apply, Cli.create_material.
  apply oc_bind.
  { apply oc_call; [|apply oc_modify; reflexivity].
    intros radius location H. inversion H; subst.
    exists lobe, i. repeat split; lia. }
  intros _. apply oc_bind; [apply oc_active_object|intros bladder].
  apply oc_bind; [apply oc_set_object|intros _].
  apply oc_bind; [apply oc_set_object|intros _].
  apply oc_bind.
  { apply oc_call; [discriminate|apply oc_modify; reflexivity]. }
  intros _. apply oc_bind; [apply oc_ensure_material|intros mat].
  apply oc_bind; [apply oc_materials_append|intros _; apply oc_ret].
Qed.

(** Whatever the host and the scene, a cone create_channels asks for is
    the cone of one of the three channels. *)
Lemma cli_channels_asked h :
  only_calls
    (fun c => forall vertices radius1 radius2 depth location,
       c = mesh_primitive_cone_add vertices radius1 radius2 depth location ->
       exists lobe, (lobe < 3)%nat
                    /\ radius1 = Cli.base_channel_radius (Cli.channel_geometry_of lobe)
                    /\ radius2 = Cli.tip_channel_radius (Cli.channel_geometry_of lobe)
                    /\ depth = Cli.channel_length (Cli.channel_geometry_of lobe)
                    /\ location = Cli.center (Cli.channel_geometry_of lobe))
    (Cli.create_channels h).
Proof.
  unfold Cli.create_channels.
  apply oc_for_collect. intros lobe Hlobe. unfold range in Hlobe. apply in_seq in Hlobe.
  unfold Cli.create_channel, primitive_cone_add, Cli.create_material. cbv zeta.
  apply oc_bind.
  { apply oc_call; [|apply oc_modify; reflexivity].
    intros vertices radius1 radius2 depth location H. inversion H; subst.
    exists lobe. repeat split; lia. }
  intros _. apply oc_bind; [apply oc_active_object|intros channel].
  apply oc_bind; [apply oc_set_object|intros _].
  apply oc_bind.
  { destruct (Cli.channel_rotation _ _ _ _) as [[[rotation_angle rotation_axis]|]|e];
      [|apply oc_ret|apply oc_raise].
    apply oc_bind; [apply oc_set_object|intros _].
    unfold transform_apply. apply oc_call; [discriminate|apply oc_modify; reflexivity]. }
  intros _. apply oc_bind; [apply oc_ensure_material|intros mat].
  apply oc_bind; [apply oc_materials_append|intros _; apply oc_ret].
Qed.

(** C5.  create_bladders asks for each of its spheres at the point of
    the channel path at the height of the bladder: for the bladder of
    index [i] on lobe [lobe] that is the linear interpolation
    start + (end - start) * (z_pos / z_end) between the start and end
    points create_channels computes for that lobe, the start at z = 0
    and the end at 0.85 of the tentacle length.  It asks for a sphere
    nowhere else, whatever the host and the scene, and when the host
    lets every call through the twenty-four bladders are there.
    create_channels builds its cones from the same two points: each
    cone is as long as they are apart and centred half-way between
    them.  Both points carry the 30 degree offset (pi/6), the lobe
    term sin(3 * angle) * 0.35 and, at the end, the inward factor
    0.4. *)
Theorem bladder_center_on_channel_path h :
  let path_point lobe i :=
    let g := Cli.channel_geometry_of lobe in
    Vec (Cli.start_x g + (Cli.end_x g - Cli.start_x g) * (Cli.z_pos i / Cli.z_end g))
        (Cli.start_y g + (Cli.end_y g - Cli.start_y g) * (Cli.z_pos i / Cli.z_end g))
        (Cli.z_pos i) in
  (forall w, exists asked,
     calls (snd (Cli.create_bladders h w)) = calls w ++ asked
     /\ forall radius location,
          In (mesh_primitive_uv_sphere_add radius location) asked ->
          exists lobe i, (lobe < 3)%nat /\ (i < 8)%nat /\ location = path_point lobe i)
  /\ (exists bladders w,
        Cli.create_bladders (never_raises h) startup_world = (Ok bladders, w)
        /\ filter is_sphere_add (calls w) =
             flat_map (fun lobe => map (fun i => mesh_primitive_uv_sphere_add
                                                   (Cli.bladder_radius i) (path_point lobe i))
                                       (range 8)) (range 3)
        /\ map (fun bladder => mesh_at bladder w) bladders =
             flat_map (fun lobe =>
                         map (fun i => Some (Transformed (path_point lobe i) NoRotation
                                               (Vec 1 1 (Cli.bladder_long_mm
                                                         / Cli.bladder_short_mm))
                                               (UVSphere (Cli.bladder_radius i))))
                             (range 8)) (range 3))
  /\ (forall w, exists asked,
        calls (snd (Cli.create_channels h w)) = calls w ++ asked
        /\ forall vertices radius1 radius2 depth location,
             In (mesh_primitive_cone_add vertices radius1 radius2 depth location) asked ->
             exists lobe, (lobe < 3)%nat
                          /\ depth = Cli.channel_length (Cli.channel_geometry_of lobe)
                          /\ location = Cli.center (Cli.channel_geometry_of lobe))
  /\ (exists channels w,
        Cli.create_channels (never_raises h) startup_world = (Ok channels, w)
        /\ filter is_cone_add (calls w) =
             map (fun lobe =>
                    let g := Cli.channel_geometry_of lobe in
                    mesh_primitive_cone_add 32 (Cli.base_channel_radius g)
                      (Cli.tip_channel_radius g) (Cli.channel_length g) (Cli.center g))
                 (range 3))
  /\ (forall lobe,
        let g := Cli.channel_geometry_of lobe in
        let angle := INR lobe * 2 * PI / 3 + PI / 6 in
        Cli.z_start g = 0
        /\ Cli.z_end g = 0.85 * (Cli.tentacle_len_mm * Cli.MM)
        /\ Cli.start_x g = Cli.base_radius_mm * 0.5 * Cli.MM * (1 + sin (3 * angle) * 0.35)
                           * cos angle
        /\ Cli.start_y g = Cli.base_radius_mm * 0.5 * Cli.MM * (1 + sin (3 * angle) * 0.35)
                           * sin angle
        /\ Cli.end_x g = 0.4 * (Cli.base_radius_mm * (0.5 - 0.3 * 0.85) * Cli.MM
                                * (1 + sin (3 * angle) * 0.35 * (1 - 0.85 ^ 3)) * cos angle)
        /\ Cli.end_y g = 0.4 * (Cli.base_radius_mm * (0.5 - 0.3 * 0.85) * Cli.MM
                                * (1 + sin (3 * angle) * 0.35 * (1 - 0.85 ^ 3)) * sin angle)
        /\ Cli.channel_length g =
             sqrt ((Cli.end_x g - Cli.start_x g) ^ 2 + (Cli.end_y g - Cli.start_y g) ^ 2
                   + (Cli.z_end g - Cli.z_start g) ^ 2)
        /\ Cli.center g = Vec ((Cli.start_x g + Cli.end_x g) / 2)
                              ((Cli.start_y g + Cli.end_y g) / 2)
                              ((Cli.z_start g + Cli.z_end g) / 2)).
Proof.
  intros path_point.
  split; [|split; [|split; [|split]]].
  - intros w. destruct (cli_bladders_asked h w) as (asked & Hcalls & Hasked).
    exists asked. split; [exact Hcalls|]. intros radius location Hin.
    rewrite Forall_forall in Hasked.
    destruct (Hasked _ Hin radius location eq_refl) as (lobe & i & Hlobe & Hi & _ & Hloc).
    exists lobe, i. repeat split; assumption.
  - destruct (cli_bladders_created h) as (bladders & w & Hrun & Hcalls & _ & Hmesh).
    exists bladders, w. split; [exact Hrun|]. split; [exact Hcalls|exact Hmesh].
  - intros w. destruct (cli_channels_asked h w) as (asked & Hcalls & Hasked).
    exists asked. split; [exact Hcalls|].
    intros vertices radius1 radius2 depth location Hin.
    rewrite Forall_forall in Hasked.
    destruct (Hasked _ Hin vertices radius1 radius2 depth location eq_refl)
      as (lobe & Hlobe & _ & _ & Hdepth & Hloc).
    exists lobe. repeat split; assumption.
  - destruct (cli_channels_created h) as (channels & w & Hrun & Hcalls & _).
    exists channels, w. split; assumption.
  - intros lobe g angle.
    split; [reflexivity|].
    unfold g, Cli.channel_geometry_of;
      cbn [Cli.z_start Cli.z_end Cli.start_x Cli.start_y Cli.end_x Cli.end_y
           Cli.channel_length Cli.center].
    fold angle.
    replace (angle * 3) with (3 * angle) by ring.
    repeat split; try ring.
Qed.

(** C6.  create_bladders asks for each of its spheres with the radius
    of the local tentacle radius base_radius_mm * MM * (1 - z_ratio)
    times the size ratio 0.35 - 0.15 * z_ratio (0.35 at the base, 0.20
    at the tip), clamped into [0.5 mm, 1.2 * bladder_short_mm] =
    [0.0005, 0.0072] metres.  It asks for a sphere of no other radius,
    whatever the host and the scene, and when the host lets every call
    through each of the twenty-four bladders keeps its sphere. *)
Theorem bladder_radius_proportional_and_clamped h :
  let z_ratio i := Cli.z_pos i / (Cli.tentacle_len_mm * Cli.MM) in
  let proportional i :=
    (Cli.base_radius_mm * Cli.MM * (1 - z_ratio i)) * (0.35 - 0.15 * z_ratio i) in
  let radius i := Py.max (Py.min (proportional i) 0.0072) 0.0005 in
  (forall w, exists asked,
     calls (snd (Cli.create_bladders h w)) = calls w ++ asked
     /\ forall r location,
          In (mesh_primitive_uv_sphere_add r location) asked ->
          0.0005 <= r <= 0.0072 /\ exists i, (i < 8)%nat /\ r = radius i)
  /\ (exists bladders w,
        Cli.create_bladders (never_raises h) startup_world = (Ok bladders, w)
        /\ filter is_sphere_add (calls w) =
             flat_map (fun lobe => map (fun i => mesh_primitive_uv_sphere_add
                                                   (radius i) (Cli.bladder_center lobe i))
                                       (range 8)) (range 3)
        /\ map (fun bladder => mesh_at bladder w) bladders =
             flat_map (fun lobe =>
                         map (fun i => Some (Transformed (Cli.bladder_center lobe i) NoRotation
                                               (Vec 1 1 (Cli.bladder_long_mm
                                                         / Cli.bladder_short_mm))
                                               (UVSphere (radius i))))
                             (range 8)) (range 3))
  /\ (forall i, Cli.bladder_radius_unclamped i = proportional i)
  /\ (forall i, Cli.bladder_radius i = radius i)
  /\ (forall i, 0.0005 <= radius i <= 0.0072)
  /\ 0.5 * Cli.MM = 0.0005
  /\ 1.2 * (Cli.bladder_short_mm * Cli.MM) = 0.0072
  /\ 0.35 - 0.15 * 0 = 0.35
  /\ 0.35 - 0.15 * 1 = 0.20.
Proof.
  intros z_ratio proportional radius.
  assert (Hmax : Cli.bladder_short_mm * Cli.MM * 1.2 = 0.0072)
    by (unfold Cli.bladder_short_mm, Cli.MM; lra).
  assert (Hu : forall i, Cli.bladder_radius_unclamped i = proportional i).
  { intros i. unfold Cli.bladder_radius_unclamped, proportional, z_ratio. cbv zeta.
    replace 1.0 with 1 by lra. ring. }
  assert (Hr : forall i, Cli.bladder_radius i = radius i).
  { intros i. unfold Cli.bladder_radius, radius. cbv zeta. rewrite Hmax, Hu. reflexivity. }
  assert (Hbound : forall i, 0.0005 <= radius i <= 0.0072).
  { intros i. unfold radius. apply clamp_in_range. lra. }
  split; [|split; [|split; [exact Hu|split; [exact Hr|split; [exact Hbound|]]]]].
  - intros w. destruct (cli_bladders_asked h w) as (asked & Hcalls & Hasked).
    exists asked. split; [exact Hcalls|]. intros r location Hin.
    rewrite Forall_forall in Hasked.
    destruct (Hasked _ Hin r location eq_refl) as (lobe & i & _ & Hi & Hrad & _).
    rewrite Hrad, Hr. split; [apply Hbound|]. exists i. split; [exact Hi|reflexivity].
  - destruct (cli_bladders_created h) as (bladders & w & Hrun & Hcalls & _ & Hmesh).
    exists bladders, w. split; [exact Hrun|]. split.
    + rewrite Hcalls. apply flat_map_ext. intros lobe. apply map_ext. intros i.
      rewrite Hr. reflexivity.
    + rewrite Hmesh. apply flat_map_ext. intros lobe. apply map_ext. intros i.
      unfold cli_bladder_mesh. rewrite Hr. reflexivity.
  - unfold Cli.bladder_short_mm, Cli.MM. repeat split; lra.
Qed.

(* ================================================================== *)
(** * A successful run of tri_lobe_tentacle_generator.py *)

Lemma explicit_host_silent f nm pe dir fs : silent (Host (fun _ _ => None) f nm pe dir fs).
Proof. intros c w. reflexivity. Qed.

Ltac export_stl_step H :=
  erewrite (export_stl_ok _ _ _ _ _ _ _ (explicit_host_silent _ _ _ _ _)) in H
    by (cbv [lookup objects Nat.eqb obj_data]; reflexivity);
  run_script_in H;
  rewrite append_lines_opened, stl_lines_text in H;
  run_script_in H.

Lemma trilobe_main_observed h :
  exists w,
    TriLobe.main (never_raises h) startup_world = (Ok tt, w)
    /\ files w =
         [("out/enhanced_tentacle_render.png"%string, Image);
          ("out/tri_lobe_tentacle.stl"%string,
           Text (stl_text h (faces_of h trilobe_body_mesh)));
          ("out/sacrificial_cores.stl"%string,
           Text (stl_text h (faces_of h trilobe_cores_mesh)))]
    /\ map obj_name (hidden_objects w) = trilobe_void_names
    /\ map mesh_of (hidden_objects w) =
         map Some (removelast trilobe_void_meshes
                   ++ [Transformed (Vec 0 0 0) NoRotation identity_scale
                                   (trilobe_connector_mesh 2)]).
Proof.
  destruct h as [r f nm pe dir fs].
  remember (TriLobe.main (never_raises (Host r f nm pe dir fs)) startup_world) as run eqn:Hrun.
  unfold TriLobe.main, TriLobe.main_for in Hrun.
  run_script_in Hrun.
  export_stl_step Hrun.
  export_stl_step Hrun.
  subst run. eexists. split; [reflexivity|].
  run_script. cbv [write_file app]. repeat split; reflexivity.
Qed.

Lemma trilobe_main_subtracting_observed h :
  exists w,
    TriLobe.main_for (never_raises h) false startup_world = (Ok tt, w)
    /\ files w =
         [("out/enhanced_tentacle_render.png"%string, Image);
          ("out/tri_lobe_tentacle.stl"%string,
           Text (stl_text h (faces_of h trilobe_hollowed_body_mesh)));
          ("out/sacrificial_cores.stl"%string,
           Text (stl_text h (faces_of h trilobe_cores_mesh)))]
    /\ hidden_objects w = [].
Proof.
  destruct h as [r f nm pe dir fs].
  remember (TriLobe.main_for (never_raises (Host r f nm pe dir fs)) false startup_world)
    as run eqn:Hrun.
  unfold TriLobe.main_for in Hrun.
  run_script_in Hrun.
  export_stl_step Hrun.
  export_stl_step Hrun.
  subst run. eexists. split; [reflexivity|].
  run_script. cbv [write_file app]. repeat split; reflexivity.
Qed.

Lemma trilobe_body_not_subtracted : subtracted trilobe_body_mesh = [].
Proof. reflexivity. Qed.

Lemma trilobe_hollowed_body_subtracted :
  subtracted trilobe_hollowed_body_mesh = map manifold_cleanup trilobe_void_meshes.
Proof. run_script. reflexivity. Qed.

(* ================================================================== *)
(** * What the two scripts build and write *)

Lemma ideal_host_never_raises : never_raises ideal_host = ideal_host.
Proof. reflexivity. Qed.

(** C1, as stated, fails: on a host where every call succeeds, the body
    either script exports has had nothing subtracted from it. *)
Lemma no_void_is_subtracted_before_export :
  (exists w,
     Cli.main ideal_host startup_world = (Ok tt, w)
     /\ map (fun f => map (fun nm => (fst nm, subtracted (snd nm))) (exported_meshes (snd f)))
            (files w)
        = [[]; []; [("TentacleBody"%string, [])]; [("HydraulicSystem_Lobe_1"%string, [])]])
  /\ (exists w,
        TriLobe.main ideal_host startup_world = (Ok tt, w)
        /\ read_file "out/tri_lobe_tentacle.stl" (files w)
           = Some (Text (stl_text ideal_host (faces_of ideal_host trilobe_body_mesh))))
  /\ subtracted trilobe_body_mesh = [].
Proof.
  split; [|split].
  - destruct (cli_main_observed ideal_host) as (w & Hrun & Hsum & _).
    exists w. split; [exact Hrun|].
    apply (f_equal (map (fun s => map (fun t => (fst (fst t), snd (fst t))) (snd s)))) in Hsum.
    rewrite map_map in Hsum. cbn [map fst snd] in Hsum.
    rewrite <- Hsum. apply map_ext. intros f. unfold file_summary. cbn [snd].
    rewrite map_map. reflexivity.
  - destruct (trilobe_main_observed ideal_host) as (w & Hrun & Hfiles & _).
    exists w. split; [exact Hrun|]. rewrite Hfiles. reflexivity.
  - reflexivity.
Qed.

(** C1, as the code has it.  Neither script subtracts anything from
    the body it exports.  render_tentacle_cli.py unites the bladders of
    each lobe with the channel of that lobe and exports the deformed
    cone unchanged, next to the joined hydraulic systems.
    tri_lobe_tentacle_generator.py has [skip_boolean_ops = True]: it
    hides the thirty void objects and exports the cleaned-up deformed
    cylinder; with the parameter off, [main] would subtract every void
    from the body before the export. *)
Theorem exported_bodies_are_not_hollowed h :
  (exists w,
     Cli.main (never_raises h) startup_world = (Ok tt, w)
     /\ map (fun f => exported_meshes (snd f)) (firstn 3 (files w))
        = [[]; []; [("TentacleBody"%string, cli_body_mesh)]]
     /\ map file_summary (skipn 3 (files w))
        = [(Str.path_join (Cli.output_dir h) "tentacle_hydraulic_systems.stl", StlMesh,
            [("HydraulicSystem_Lobe_1"%string, [], 24%nat)])])
  /\ subtracted cli_body_mesh = []
  /\ TriLobe.skip_boolean_ops = true
  /\ (exists w,
        TriLobe.main (never_raises h) startup_world = (Ok tt, w)
        /\ read_file "out/tri_lobe_tentacle.stl" (files w)
           = Some (Text (stl_text h (faces_of h trilobe_body_mesh)))
        /\ map obj_name (hidden_objects w) = trilobe_void_names
        /\ List.length (hidden_objects w) = 30%nat)
  /\ subtracted trilobe_body_mesh = []
  /\ (exists w,
        TriLobe.main_for (never_raises h) false startup_world = (Ok tt, w)
        /\ read_file "out/tri_lobe_tentacle.stl" (files w)
           = Some (Text (stl_text h (faces_of h trilobe_hollowed_body_mesh)))
        /\ hidden_objects w = [])
  /\ subtracted trilobe_hollowed_body_mesh = map manifold_cleanup trilobe_void_meshes
  /\ List.length trilobe_void_meshes = 30%nat.
Proof.
  split; [|split; [|split; [|split; [|split; [|split; [|split]]]]]]; try reflexivity.
  - destruct (cli_main_observed h) as (w & Hrun & Hsum & Hbody & _).
    exists w. split; [exact Hrun|]. split; [exact Hbody|].
    rewrite <- skipn_map, Hsum. reflexivity.
  - destruct (trilobe_main_observed h) as (w & Hrun & Hfiles & Hnames & _).
    exists w. split; [exact Hrun|]. split; [rewrite Hfiles; reflexivity|].
    split; [exact Hnames|].
    rewrite <- (length_map obj_name), Hnames. reflexivity.
  - destruct (trilobe_main_subtracting_observed h) as (w & Hrun & Hfiles & Hhidden).
    exists w. split; [exact Hrun|]. split; [rewrite Hfiles; reflexivity|exact Hhidden].
Qed.

(** C2, as stated, fails: a successful run of render_tentacle_cli.py
    adds no cylinder and leaves no connector object. *)
Lemma cli_creates_no_connector :
  exists w,
    Cli.main ideal_host startup_world = (Ok tt, w)
    /\ filter is_cylinder_add (calls w) = []
    /\ map (fun ko => obj_name (snd ko)) (objects w) =
         ["TentacleBody"; "HydraulicSystem_Lobe_1"; "RenderCamera"; "CameraTarget";
          "MainLight"; "FillLight"; "TopLight"; "BackLight"]%string.
Proof.
  destruct (cli_main_observed ideal_host) as (w & Hrun & _ & _ & Hcyl & _ & Hnames).
  exists w. split; [exact Hrun|]. split; [exact Hcyl|exact Hnames].
Qed.

(** C2, as the code has it.  Only tri_lobe_tentacle_generator.py
    generates connector holes: three cylinders of radius 6.35 mm and
    length 20 mm, one per lobe, at 0.7 of the base radius from the axis
    and at angles 0, 120 and 240 degrees, standing on the base.
    render_tentacle_cli.py defines the two parameters and creates
    nothing from them. *)
Theorem connector_holes_only_in_generator h :
  (exists w,
     TriLobe.main (never_raises h) startup_world = (Ok tt, w)
     /\ skipn 27 (map obj_name (hidden_objects w))
        = ["Connector_1"; "Connector_2"; "Connector_3"]%string
     /\ skipn 27 (map mesh_of (hidden_objects w))
        = [Some (trilobe_connector_mesh 0); Some (trilobe_connector_mesh 1);
           Some (Transformed (Vec 0 0 0) NoRotation identity_scale
                             (trilobe_connector_mesh 2))])
  /\ (forall i, trilobe_connector_mesh i =
                Transformed (TriLobe.connector_location i) NoRotation identity_scale
                            (Cylinder None (6.35 * 0.001) (20 * 0.001)))
  /\ (forall i, TriLobe.connector_location i =
                Vec (0.7 * (25 * 0.001) * cos (INR i * 2 * PI / 3))
                    (0.7 * (25 * 0.001) * sin (INR i * 2 * PI / 3))
                    (10 * 0.001))
  /\ (exists w,
        Cli.main (never_raises h) startup_world = (Ok tt, w)
        /\ filter is_cylinder_add (calls w) = []
        /\ map (fun ko => obj_name (snd ko)) (objects w) =
             ["TentacleBody"; "HydraulicSystem_Lobe_1"; "RenderCamera"; "CameraTarget";
              "MainLight"; "FillLight"; "TopLight"; "BackLight"]%string)
  /\ Cli.connector_radius_mm = 6.35
  /\ Cli.connector_length_mm = 20.
Proof.
  split; [|split; [|split; [|split; [|split]]]].
  - destruct (trilobe_main_observed h) as (w & Hrun & _ & Hnames & Hmeshes).
    exists w. split; [exact Hrun|]. rewrite Hnames, Hmeshes. split; reflexivity.
  - intros i. unfold trilobe_connector_mesh, TriLobe.connector_radius_mm,
      TriLobe.connector_length_mm, TriLobe.MM.
    f_equal. f_equal; lra.
  - intros i. unfold TriLobe.connector_location, TriLobe.base_radius_mm,
      TriLobe.connector_length_mm, TriLobe.MM.
    f_equal; try lra; f_equal; lra.
  - destruct (cli_main_observed h) as (w & Hrun & _ & _ & Hcyl & _ & Hnames).
    exists w. split; [exact Hrun|]. split; [exact Hcyl|exact Hnames].
  - reflexivity.
  - unfold Cli.connector_length_mm. lra.
Qed.

(** C3, as stated, fails: a successful run of
    tri_lobe_tentacle_generator.py writes no scene file. *)
Lemma generator_saves_no_scene_file :
  exists w,
    TriLobe.main ideal_host startup_world = (Ok tt, w)
    /\ filter is_scene_file (outputs w) = [].
Proof.
  destruct (trilobe_main_observed ideal_host) as (w & Hrun & Hfiles & _).
  exists w. split; [exact Hrun|]. unfold outputs. rewrite Hfiles. reflexivity.
Qed.

(** C3, as the code has it.  A successful run of render_tentacle_cli.py
    writes a render image, a scene file and two STL files into its
    output directory; a successful run of tri_lobe_tentacle_generator.py
    writes a render image and two STL files into "out/" and no scene
    file (it saves one only in place of an STL file it could not
    write). *)
Theorem outputs_of_a_successful_run h :
  (exists w,
     Cli.main (never_raises h) startup_world = (Ok tt, w)
     /\ outputs w =
          [(Str.path_join (Cli.output_dir h) "tentacle_camera_view.png", RenderImage);
           (Str.path_join (Cli.output_dir h) "tentacle_complete.blend", SceneFile);
           (Str.path_join (Cli.output_dir h) "tentacle_body.stl", StlMesh);
           (Str.path_join (Cli.output_dir h) "tentacle_hydraulic_systems.stl", StlMesh)])
  /\ (exists w,
        TriLobe.main (never_raises h) startup_world = (Ok tt, w)
        /\ outputs w =
             [("out/enhanced_tentacle_render.png"%string, RenderImage);
              ("out/tri_lobe_tentacle.stl"%string, StlMesh);
              ("out/sacrificial_cores.stl"%string, StlMesh)]
        /\ filter is_scene_file (outputs w) = []).
Proof.
  split.
  - destruct (cli_main_observed h) as (w & Hrun & Hsum & _).
    exists w. split; [exact Hrun|].
    apply (f_equal (map fst)) in Hsum. rewrite map_map in Hsum.
    exact Hsum.
  - destruct (trilobe_main_observed h) as (w & Hrun & Hfiles & _).
    exists w. split; [exact Hrun|]. unfold outputs. rewrite Hfiles. split; reflexivity.
Qed.



(* ================================================================== *)
(** * Closed-form geometry of tri_lobe_tentacle_generator.py *)

Lemma sqrt_scaled x t : 0 < x -> sqrt (x ^ 2 + (x * t) ^ 2) = x * sqrt (1 + t²).
Proof.
  intros Hx.
  replace (x ^ 2 + (x * t) ^ 2) with (x * x * (1 + t²)) by (unfold Rsqr; ring).
  rewrite sqrt_mult_alt by nra.
  rewrite sqrt_square by lra. reflexivity.
Qed.

Lemma sqrt_1_plus_sqr_pos t : 0 < sqrt (1 + t²).
Proof. apply sqrt_lt_R0. pose proof (Rle_0_sqr t). lra. Qed.

(** [math.atan2] gives the polar angle: from the radius and the angle
    the coordinates come back. *)
Lemma polar_round_trip x y :
  sqrt (x ^ 2 + y ^ 2) * cos (Py.atan2 y x) = x
  /\ sqrt (x ^ 2 + y ^ 2) * sin (Py.atan2 y x) = y.
Proof.
  unfold Py.atan2.
  destruct (Rlt_dec 0 x) as [Hx|Hx].
  - pose proof (sqrt_1_plus_sqr_pos (y / x)) as Hs.
    replace y with (x * (y / x)) at 1 3 by (field; lra).
    rewrite sqrt_scaled by exact Hx.
    rewrite cos_atan, sin_atan. split; field; lra.
  - destruct (Rlt_dec x 0) as [Hn|Hn].
    + pose proof (sqrt_1_plus_sqr_pos (y / x)) as Hs.
      assert (Hr : sqrt (x ^ 2 + y ^ 2) = - x * sqrt (1 + (y / x)²)).
      { replace (x ^ 2 + y ^ 2) with ((- x) ^ 2 + (- x * (- (y / x))) ^ 2) by (field; lra).
        rewrite sqrt_scaled by lra. rewrite <- Rsqr_neg. reflexivity. }
      rewrite Hr.
      destruct (Rle_dec 0 y) as [Hy|Hy].
      * rewrite neg_cos, neg_sin, cos_atan, sin_atan. split; field; lra.
      * unfold Rminus. rewrite cos_plus, sin_plus, cos_neg, sin_neg, cos_PI, sin_PI.
        rewrite cos_atan, sin_atan. split; field; lra.
    + assert (x = 0) by lra. subst x.
      replace (0 ^ 2 + y ^ 2) with (y * y) by ring.
      destruct (Rlt_dec 0 y) as [Hy|Hy].
      * rewrite sqrt_square by lra. rewrite cos_PI2, sin_PI2. split; ring.
      * destruct (Rlt_dec y 0) as [Hy'|Hy'].
        -- replace (y * y) with (- y * - y) by ring.
           rewrite sqrt_square by lra.
           rewrite cos_neg, sin_neg, cos_PI2, sin_PI2. split; ring.
        -- assert (y = 0) by lra. subst y.
           replace (0 * 0) with 0 by ring. rewrite sqrt_0. split; ring.
Qed.

(** X1.  create_spaded_lobe_body moves a vertex along its ray from the
    axis: between base and tip (0 < z < L in the coordinates the loop
    reads) x and y are multiplied by the same factor
    k = (1 - z/L) * (1 + 0.8 * sin(3 * angle) * (1 - z/L)), which lies
    strictly between 0 and 1.8; every other vertex, and z always, is
    left as it is.  The loop reads the coordinates of the mesh before
    the transform is applied: at z = L/2 the factor is
    0.5 * (1 + 0.4 * sin(3 * angle)), not 0. *)
Theorem spaded_lobe_vertex_radial co :
  let L := TriLobe.tentacle_len_mm * TriLobe.MM in
  let z_ratio := vz co / L in
  let k := (1 - z_ratio)
           * (1 + 0.8 * sin (3 * Py.atan2 (vy co) (vx co)) * (1 - z_ratio)) in
  TriLobe.spaded_lobe_vertex co =
    (if Rlt_dec 0 (vz co) then
       if Rlt_dec (vz co) L then Vec (vx co * k) (vy co * k) (vz co) else co
     else co)
  /\ (0 < vz co < L -> 0 < k < 1.8)
  /\ vz (TriLobe.spaded_lobe_vertex co) = vz co
  /\ (vz co = L / 2 ->
      k = 0.5 * (1 + 0.4 * sin (3 * Py.atan2 (vy co) (vx co))))
  /\ L = 0.15.
Proof.
  intros L z_ratio k.
  assert (HL : L = 0.15) by (unfold L, TriLobe.tentacle_len_mm, TriLobe.MM; lra).
  assert (Hz : z_ratio = vz co / 0.15) by (unfold z_ratio; rewrite HL; reflexivity).
  assert (Hform : TriLobe.spaded_lobe_vertex co =
    (if Rlt_dec 0 (vz co) then
       if Rlt_dec (vz co) L then Vec (vx co * k) (vy co * k) (vz co) else co
     else co)).
  { unfold TriLobe.spaded_lobe_vertex. fold L. fold z_ratio. cbv zeta.
    destruct (Rlt_dec 0 z_ratio) as [H0|H0]; destruct (Rlt_dec 0 (vz co)) as [H0'|H0'];
      try (exfalso; rewrite Hz in H0; lra); [|reflexivity].
    destruct (Rlt_dec z_ratio 1) as [H1|H1]; destruct (Rlt_dec (vz co) L) as [H1'|H1'];
      try (exfalso; rewrite Hz in H1; rewrite HL in H1'; lra); [|reflexivity].
    destruct (polar_round_trip (vx co) (vy co)) as [Hc Hs].
    replace (Py.atan2 (vy co) (vx co) * 3) with (3 * Py.atan2 (vy co) (vx co)) by ring.
    set (a := Py.atan2 (vy co) (vx co)) in *.
    set (r := sqrt (vx co ^ 2 + vy co ^ 2)) in *.
    f_equal.
    - transitivity (r * cos a * k); [|rewrite Hc; reflexivity].
      unfold k. fold a. replace 1.0 with 1 by lra. ring.
    - transitivity (r * sin a * k); [|rewrite Hs; reflexivity].
      unfold k. fold a. replace 1.0 with 1 by lra. ring. }
  split; [exact Hform|]. split; [|split; [|split; [|exact HL]]].
  - intros [H0 H1]. rewrite HL in H1.
    pose proof (SIN_bound (3 * Py.atan2 (vy co) (vx co))) as [Hlo Hhi].
    set (s := sin _) in *.
    assert (Ht : 0 < 1 - z_ratio < 1) by (rewrite Hz; lra).
    unfold k. set (t := 1 - z_ratio) in *. nra.
  - rewrite Hform. destruct (Rlt_dec 0 (vz co)); [|reflexivity].
    destruct (Rlt_dec (vz co) L); reflexivity.
  - intros Hhalf. unfold k. rewrite Hz, Hhalf, HL.
    set (s := sin _). lra.
Qed.

(* ================================================================== *)
(** * More closed-form geometry of render_tentacle_cli.py *)

(** X2.  Over the height of the cone (-L/2 <= z <= L/2 in the
    coordinates the loop reads) the tri-lobe factor of
    create_simple_tentacle stays within [0.65, 1.35]: no vertex is
    pulled onto or through the axis.  The rim of the base gets the
    full effect 1 + 0.35 * sin(3 * angle); a vertex at the height of
    the tip is not moved. *)
Theorem trilobe_vertex_bounded co :
  let L := Cli.tentacle_len_mm * Cli.MM in
  - (L / 2) <= vz co <= L / 2 ->
  (exists factor,
     0.65 <= factor <= 1.35
     /\ Cli.trilobe_vertex co = Vec (vx co * factor) (vy co * factor) (vz co))
  /\ (vz co = L / 2 -> Cli.trilobe_vertex co = co)
  /\ (vz co = - (L / 2) -> 0 < sqrt (vx co ^ 2 + vy co ^ 2) ->
      Cli.trilobe_vertex co =
        Vec (vx co * (1 + 0.35 * sin (3 * Py.atan2 (vy co) (vx co))))
            (vy co * (1 + 0.35 * sin (3 * Py.atan2 (vy co) (vx co))))
            (vz co)).
Proof.
  intros L Hz.
  assert (HL : L = 0.15) by (unfold L, Cli.tentacle_len_mm, Cli.MM; lra).
  rewrite HL in Hz.
  assert (Hzr : (vz co + Cli.tentacle_len_mm / 2 * Cli.MM) / (Cli.tentacle_len_mm * Cli.MM)
                = (vz co + 0.075) / 0.15).
  { unfold Cli.tentacle_len_mm, Cli.MM. lra. }
  pose proof (SIN_bound (Py.atan2 (vy co) (vx co) * 3)) as [Hlo Hhi].
  split; [|split].
  - unfold Cli.trilobe_vertex. rewrite Hzr.
    set (zr := (vz co + 0.075) / 0.15).
    assert (Hr : 0 <= zr <= 1) by (unfold zr; lra).
    assert (Hc : 0 <= 1 - zr ^ 3 <= 1).
    { assert (0 <= zr * zr <= 1) by nra. simpl pow. nra. }
    set (s := sin _) in *. set (c := 1 - zr ^ 3) in *.
    destruct (Rlt_dec 0 _).
    + exists (1 + s * 0.35 * c). split; [nra|reflexivity].
    + exists 1. split; [lra|]. destruct co as [x y z]. cbn [vx vy vz].
      f_equal; ring.
  - intros Htip. unfold Cli.trilobe_vertex. rewrite Hzr, Htip, HL.
    replace ((0.15 / 2 + 0.075) / 0.15) with 1 by lra.
    destruct (Rlt_dec 0 _); [|reflexivity].
    destruct co as [x y z]. cbn [vx vy vz] in *. subst z. rewrite HL.
    f_equal; ring.
  - intros Hbase Hpos. unfold Cli.trilobe_vertex. rewrite Hzr, Hbase, HL.
    replace ((- (0.15 / 2) + 0.075) / 0.15) with 0 by lra.
    destruct (Rlt_dec 0 _); [|contradiction].
    replace (Py.atan2 (vy co) (vx co) * 3) with (3 * Py.atan2 (vy co) (vx co)) by ring.
    f_equal; ring.
Qed.

Lemma trilobe_vertex_bounded_witness :
  exists factor,
    0.65 <= factor <= 1.35
    /\ Cli.trilobe_vertex (Vec 0.01 0 0) = Vec (0.01 * factor) (0 * factor) 0.
Proof.
  apply (trilobe_vertex_bounded (Vec 0.01 0 0)).
  unfold Cli.tentacle_len_mm, Cli.MM. cbn [vz]. lra.
Defined.

(** The angle of each lobe, offset by 30 degrees, is a peak of the
    tri-lobe wave. *)
Lemma lobe_angle_is_peak lobe : sin ((INR lobe * 2 * PI / 3 + PI / 6) * 3) = 1.
Proof.
  replace ((INR lobe * 2 * PI / 3 + PI / 6) * 3) with (PI / 2 + 2 * INR lobe * PI) by field.
  rewrite sin_period. exact sin_PI2.
Qed.

Lemma channel_ends_radial lobe :
  let g := Cli.channel_geometry_of lobe in
  let angle := INR lobe * 2 * PI / 3 + PI / 6 in
  Cli.start_x g = 0.016875 * cos angle /\ Cli.start_y g = 0.016875 * sin angle
  /\ Cli.end_x g = 0.0027808878125 * cos angle
  /\ Cli.end_y g = 0.0027808878125 * sin angle.
Proof.
  intros g angle. unfold g, Cli.channel_geometry_of.
  cbn [Cli.start_x Cli.start_y Cli.end_x Cli.end_y].
  rewrite (lobe_angle_is_peak lobe). fold angle.
  unfold Cli.base_radius_mm, Cli.MM. simpl pow. repeat split; lra.
Qed.

(** X3.  Each channel of render_tentacle_cli.py runs in the vertical
    plane through the axis at the angle of its lobe, lobe * 120 + 30
    degrees, which is a peak of the tri-lobe wave (sin(3 * angle) = 1):
    it starts 16.875 mm from the axis at z = 0 and ends 2.78 mm from
    the axis at z = 127.5 mm, so it leans inward. *)
Theorem channel_follows_lobe_peak lobe :
  let g := Cli.channel_geometry_of lobe in
  let angle := INR lobe * 2 * PI / 3 + PI / 6 in
  sin (angle * 3) = 1
  /\ Cli.start_x g = 0.016875 * cos angle /\ Cli.start_y g = 0.016875 * sin angle
  /\ Cli.end_x g = 0.0027808878125 * cos angle
  /\ Cli.end_y g = 0.0027808878125 * sin angle
  /\ sqrt (Cli.start_x g ^ 2 + Cli.start_y g ^ 2) = 0.016875
  /\ sqrt (Cli.end_x g ^ 2 + Cli.end_y g ^ 2) = 0.0027808878125
  /\ Cli.z_start g = 0 /\ Cli.z_end g = 0.1275.
Proof.
  intros g angle.
  destruct (channel_ends_radial lobe) as (Hsx & Hsy & Hex & Hey).
  fold g angle in Hsx, Hsy, Hex, Hey.
  pose proof (sin2_cos2 angle) as Hunit. unfold Rsqr in Hunit.
  repeat match goal with |- _ /\ _ => split end; try assumption.
  - apply lobe_angle_is_peak.
  - rewrite Hsx, Hsy.
    replace ((0.016875 * cos angle) ^ 2 + (0.016875 * sin angle) ^ 2)
      with (0.016875 * 0.016875) by (simpl pow; nra).
    apply sqrt_square. lra.
  - rewrite Hex, Hey.
    replace ((0.0027808878125 * cos angle) ^ 2 + (0.0027808878125 * sin angle) ^ 2)
      with (0.0027808878125 * 0.0027808878125) by (simpl pow; nra).
    apply sqrt_square. lra.
  - reflexivity.
  - unfold g, Cli.channel_geometry_of, Cli.tentacle_len_mm, Cli.MM. cbn [Cli.z_end]. lra.
Qed.

Lemma channel_length_eq lobe :
  let g := Cli.channel_geometry_of lobe in
  Cli.channel_length g =
    Vector.length (Vec (Cli.end_x g - Cli.start_x g) (Cli.end_y g - Cli.start_y g)
                       (Cli.tentacle_len_mm * Cli.MM * 0.85 - 0)).
Proof.
  intros g. unfold g, Cli.channel_geometry_of, Vector.length.
  cbn [Cli.channel_length Cli.start_x Cli.start_y Cli.end_x Cli.end_y vx vy vz].
  f_equal. ring.
Qed.

(** X4.  The cone create_channels adds for a lobe spans the channel
    path: its depth is the distance between the two ends of the path
    (more than 127.5 mm), and from its centre half the depth along the
    direction of the path leads to the end point, half the depth
    against it to the start point.  Its radii do not depend on the
    lobe: 3 mm at the base (the cap 1.5 * channel_radius_mm, below the
    15 % of the tentacle radius) and 0.375 mm at the tip. *)
Theorem channel_cone_spans_path lobe :
  let g := Cli.channel_geometry_of lobe in
  let d := channel_direction (Cli.start_x g) (Cli.start_y g) (Cli.end_x g) (Cli.end_y g) in
  let half := Cli.channel_length g / 2 in
  Cli.z_end g < Cli.channel_length g
  /\ Vec (vx (Cli.center g) - half * vx d) (vy (Cli.center g) - half * vy d)
         (vz (Cli.center g) - half * vz d)
     = Vec (Cli.start_x g) (Cli.start_y g) (Cli.z_start g)
  /\ Vec (vx (Cli.center g) + half * vx d) (vy (Cli.center g) + half * vy d)
         (vz (Cli.center g) + half * vz d)
     = Vec (Cli.end_x g) (Cli.end_y g) (Cli.z_end g)
  /\ Cli.base_channel_radius g = 0.003
  /\ Cli.base_channel_radius g < 0.15 * (Cli.base_radius_mm * Cli.MM)
  /\ Cli.tip_channel_radius g = 0.000375.
Proof.
  intros g d half.
  pose proof (channel_length_eq lobe) as Hlen. fold g in Hlen.
  pose proof (direction_length_positive (Cli.end_x g - Cli.start_x g)
                                        (Cli.end_y g - Cli.start_y g)) as Hpos.
  assert (Hze : Cli.z_end g = Cli.tentacle_len_mm * Cli.MM * 0.85) by reflexivity.
  assert (Hzs : Cli.z_start g = 0) by reflexivity.
  assert (Hc : Cli.center g = Vec ((Cli.start_x g + Cli.end_x g) / 2)
                                  ((Cli.start_y g + Cli.end_y g) / 2)
                                  ((0 + Cli.z_end g) / 2)) by reflexivity.
  assert (Hd : d = Vector.scale (/ Cli.channel_length g)
                     (Vec (Cli.end_x g - Cli.start_x g) (Cli.end_y g - Cli.start_y g)
                          (Cli.z_end g - 0))).
  { unfold d, channel_direction. rewrite Hlen, Hze. reflexivity. }
  rewrite <- Hlen in Hpos.
  split; [|split; [|split; [|split; [|split]]]].
  - assert (Hsq : Cli.channel_length g * Cli.channel_length g =
                  (Cli.end_x g - Cli.start_x g) * (Cli.end_x g - Cli.start_x g)
                  + (Cli.end_y g - Cli.start_y g) * (Cli.end_y g - Cli.start_y g)
                  + (Cli.tentacle_len_mm * Cli.MM * 0.85 - 0)
                    * (Cli.tentacle_len_mm * Cli.MM * 0.85 - 0)).
    { rewrite Hlen. unfold Vector.length. cbn [vx vy vz]. apply sqrt_sqrt.
      set (dx := Cli.end_x g - Cli.start_x g). set (dy := Cli.end_y g - Cli.start_y g).
      set (dz := Cli.tentacle_len_mm * Cli.MM * 0.85 - 0).
      pose proof (Rle_0_sqr dx). pose proof (Rle_0_sqr dy). pose proof (Rle_0_sqr dz).
      unfold Rsqr in *. lra. }
    assert (Hz : 0 < Cli.z_end g) by (rewrite Hze; unfold Cli.tentacle_len_mm, Cli.MM; lra).
    rewrite <- Hze in Hsq.
    pose proof (endpoints_differ lobe) as Hne. fold g in Hne.
    destruct (Req_dec (Cli.end_x g) (Cli.start_x g)) as [Hx|Hx];
      destruct (Req_dec (Cli.end_y g) (Cli.start_y g)) as [Hy|Hy];
      [exfalso; apply Hne; split; assumption| | |]; nra.
  - rewrite Hc, Hd, Hzs. unfold half, Vector.scale. cbn [vx vy vz]. f_equal; field; lra.
  - rewrite Hc, Hd. unfold half, Vector.scale. cbn [vx vy vz]. f_equal; field; lra.
  - unfold g, Cli.channel_geometry_of, Py.min, Cli.base_radius_mm, Cli.channel_radius_mm, Cli.MM.
    cbn [Cli.base_channel_radius]. destruct (Rlt_dec _ _); lra.
  - unfold g, Cli.channel_geometry_of, Py.min, Cli.base_radius_mm, Cli.channel_radius_mm, Cli.MM.
    cbn [Cli.base_channel_radius]. destruct (Rlt_dec _ _); lra.
  - unfold g, Cli.channel_geometry_of, Py.max, Cli.base_radius_mm, Cli.channel_radius_mm, Cli.MM.
    cbn [Cli.tip_channel_radius]. destruct (Rlt_dec _ _); lra.
Qed.

Lemma length_scale k a : 0 <= k -> Vector.length (Vector.scale k a) = k * Vector.length a.
Proof.
  intros Hk. unfold Vector.length, Vector.scale. cbn [vx vy vz].
  replace (k * vx a * (k * vx a) + k * vy a * (k * vy a) + k * vz a * (k * vz a))
    with (k * k * (vx a * vx a + vy a * vy a + vz a * vz a)) by ring.
  rewrite sqrt_mult_alt by nra. rewrite sqrt_square by exact Hk. reflexivity.
Qed.

Lemma length_sqr a :
  Vector.length a * Vector.length a = vx a * vx a + vy a * vy a + vz a * vz a.
Proof.
  unfold Vector.length. apply sqrt_sqrt.
  pose proof (Rle_0_sqr (vx a)). pose proof (Rle_0_sqr (vy a)). pose proof (Rle_0_sqr (vz a)).
  unfold Rsqr in *. lra.
Qed.

Lemma length_nonneg a : 0 <= Vector.length a.
Proof. unfold Vector.length. apply sqrt_pos. Qed.

Lemma normalized_unit a : 0 < Vector.length a ->
  Vector.length (Vector.scale (/ Vector.length a) a) = 1.
Proof.
  intros H. rewrite length_scale.
  - field. lra.
  - left. apply Rinv_0_lt_compat. exact H.
Qed.

(** X5.  For a channel whose ends do not lie above one another,
    create_channels sets an axis-angle rotation that turns the axis of
    the cone, +z, onto the direction of the channel: the rotation axis
    is a unit vector perpendicular to +z and to the direction, and the
    angle, strictly between 0 and 90 degrees, has the dot product of
    the two as its cosine and the length of their cross product as its
    sine. *)
Theorem channel_rotation_aligns sx sy ex ey :
  ~ (ex = sx /\ ey = sy) ->
  let d := channel_direction sx sy ex ey in
  exists angle axis,
    Cli.channel_rotation sx sy ex ey = Ok (Some (angle, axis))
    /\ Vector.length d = 1
    /\ Vector.length axis = 1
    /\ Vector.dot axis (Vec 0 0 1) = 0
    /\ Vector.dot axis d = 0
    /\ cos angle = Vector.dot (Vec 0 0 1) d
    /\ sin angle = Vector.length (Vector.cross (Vec 0 0 1) d)
    /\ 0 < angle < PI / 2.
Proof.
  intros Hne d.
  assert (Hs : 0 < Vector.length (channel_axis sx sy ex ey)).
  { destruct (Rlt_dec 0 (Vector.length (channel_axis sx sy ex ey))) as [H|H]; [exact H|].
    exfalso. apply Hne. apply channel_axis_zero_iff. exact H. }
  rewrite channel_rotation_eq.
  destruct (Rlt_dec 0 _) as [_|Hn]; [|contradiction].
  do 2 eexists. split; [reflexivity|].
  pose proof (direction_length_positive (ex - sx) (ey - sy)) as Hlen.
  pose proof (length_sqr (Vec (ex - sx) (ey - sy) (Cli.tentacle_len_mm * Cli.MM * 0.85 - 0)))
    as Hsq.
  pose proof (length_sqr (channel_axis sx sy ex ey)) as Haxis.
  assert (Hd1 : Vector.length d = 1) by (apply normalized_unit; exact Hlen).
  fold (channel_axis sx sy ex ey) in *.
  fold d.
  unfold channel_axis in Haxis, Hs |- *. fold d in Haxis, Hs |- *.
  assert (Hdz : 0 < Cli.tentacle_len_mm * Cli.MM * 0.85 - 0)
    by (unfold Cli.tentacle_len_mm, Cli.MM; lra).
  set (dx := ex - sx) in *. set (dy := ey - sy) in *.
  set (dz := Cli.tentacle_len_mm * Cli.MM * 0.85 - 0) in *.
  set (len := Vector.length (Vec dx dy dz)) in *.
  cbn [vx vy vz] in Hsq.
  assert (Hk : 0 < / len) by (apply Rinv_0_lt_compat; exact Hlen).
  assert (Hkl : / len * len = 1) by (field; lra).
  assert (Hdv : d = Vec (/ len * dx) (/ len * dy) (/ len * dz)) by reflexivity.
  set (s := Vector.length (Vector.cross (Vec 0 0 1) d)) in *.
  assert (Hcross : Vector.cross (Vec 0 0 1) d = Vec (- (/ len * dy)) (/ len * dx) 0).
  { rewrite Hdv. unfold Vector.cross. cbn [vx vy vz]. f_equal; ring. }
  rewrite Hcross in Haxis. cbn [vx vy vz] in Haxis.
  assert (Hdot : Vector.dot (Vec 0 0 1) d = / len * dz).
  { rewrite Hdv. unfold Vector.dot. cbn [vx vy vz]. ring. }
  assert (Hxy : 0 < dx * dx + dy * dy).
  { destruct (Req_dec dx 0) as [Hx|Hx]; destruct (Req_dec dy 0) as [Hy|Hy];
      [exfalso; apply Hne; unfold dx, dy in *; split; lra| | |]; nra. }
  assert (Hlt : / len * dz < 1).
  { assert (dz < len) by nra. rewrite <- Hkl. apply Rmult_lt_compat_l; assumption. }
  assert (Hgt : 0 < / len * dz) by (apply Rmult_lt_0_compat; assumption).
  rewrite Hdot.
  assert (Hclamp : Py.min 1.0 (Py.max (-1.0) (/ len * dz)) = / len * dz).
  { unfold Py.min, Py.max. destruct (Rlt_dec (-1.0) _); destruct (Rlt_dec _ 1.0); lra. }
  rewrite Hclamp.
  assert (Hss : s * s = 1 - (/ len * dz) * (/ len * dz)).
  { rewrite Haxis.
    replace 1 with ((/ len * len) * (/ len * len)) at 1 by (rewrite Hkl; ring).
    replace (/ len * len * (/ len * len)) with (/ len * / len * (len * len)) by ring.
    rewrite Hsq. ring. }
  assert (Hsin : sin (acos (/ len * dz)) = s).
  { rewrite sin_acos by lra. unfold Rsqr. rewrite <- Hss. apply sqrt_square. lra. }
  split; [exact Hd1|]. split; [|split; [|split; [|split; [|split]]]].
  - rewrite length_scale by (left; apply Rinv_0_lt_compat; exact Hs).
    fold s. field. lra.
  - rewrite Hcross. unfold Vector.dot, Vector.scale. cbn [vx vy vz]. ring.
  - rewrite Hcross, Hdv. unfold Vector.dot, Vector.scale. cbn [vx vy vz]. ring.
  - apply cos_acos. lra.
  - exact Hsin.
  - pose proof (acos_bound (/ len * dz)) as [Hlo Hhi].
    pose proof (cos_acos (/ len * dz) ltac:(lra)) as Hcos.
    split.
    + destruct Hlo as [Hlo|Hlo]; [exact Hlo|].
      exfalso. rewrite <- Hlo in Hsin. rewrite sin_0 in Hsin. lra.
    + destruct (Rlt_dec (acos (/ len * dz)) (PI / 2)) as [H|H]; [exact H|].
      exfalso. pose proof (cos_le_0 (acos (/ len * dz))) as Hle.
      pose proof PI_RGT_0.
      assert (cos (acos (/ len * dz)) <= 0) by (apply Hle; lra).
      lra.
Qed.

Lemma channel_rotation_aligns_witness :
  exists angle axis,
    Cli.channel_rotation 0 0 1 0 = Ok (Some (angle, axis))
    /\ Vector.length axis = 1
    /\ 0 < angle < PI / 2.
Proof.
  destruct (channel_rotation_aligns 0 0 1 0) as (angle & axis & Hrot & _ & Hunit & _ & _ & _ & _ & Hangle).
  - intros [H _]. lra.
  - exists angle, axis. split; [exact Hrot|]. split; [exact Hunit|exact Hangle].
Defined.

(** Case analysis on an index below a bound. *)
Ltac cases_below n i :=
  match n with
  | O => exfalso; lia
  | S ?k => destruct i as [|i]; [|cases_below k i]
  end.

Ltac first_eight i := cases_below 8%nat i.

(** X6.  Over the eight bladders of a lobe the radius create_bladders
    gives strictly decreases towards the tip.  The cap 1.2 *
    bladder_short_mm = 7.2 mm applies to the first bladder only (its
    proportional radius would be 7.5375 mm), the floor of 0.5 mm to
    none: the smallest radius is 1.15 mm. *)
Theorem bladder_radius_tapers i :
  (i < 8)%nat ->
  Cli.bladder_radius i =
    (if Nat.eqb i 0 then 0.0072 else Cli.bladder_radius_unclamped i)
  /\ ((0 < i)%nat -> Cli.bladder_radius i < Cli.bladder_radius (i - 1))
  /\ 0.00115 <= Cli.bladder_radius i <= 0.0072
  /\ Cli.bladder_radius_unclamped 0 = 0.0075375.
Proof.
  intros Hi.
  assert (Hall : forall j, (j < 8)%nat ->
            Cli.bladder_radius j =
              (if Nat.eqb j 0 then 0.0072
               else 0.025 * (1 - INR (j + 1) / 10) * (0.35 - INR (j + 1) / 10 * 0.15))
            /\ Cli.bladder_radius_unclamped j =
               0.025 * (1 - INR (j + 1) / 10) * (0.35 - INR (j + 1) / 10 * 0.15)).
  { intros j Hj.
    assert (Hu : Cli.bladder_radius_unclamped j =
                 0.025 * (1 - INR (j + 1) / 10) * (0.35 - INR (j + 1) / 10 * 0.15)).
    { unfold Cli.bladder_radius_unclamped. rewrite z_pos_eq.
      unfold Cli.tentacle_len_mm, Cli.base_radius_mm, Cli.MM. cbv zeta.
      set (n := INR (j + 1)).
      replace (n * 15 * 0.001 / (150.0 * 0.001)) with (n / 10) by lra.
      replace (25.0 * 0.001) with 0.025 by lra. replace 1.0 with 1 by lra. reflexivity. }
    split; [|exact Hu].
    unfold Cli.bladder_radius. cbv zeta. rewrite Hu.
    unfold Cli.bladder_short_mm, Cli.MM, Py.max, Py.min.
    first_eight j; cbn [Nat.eqb Nat.add INR];
      destruct (Rlt_dec _ _); destruct (Rlt_dec _ _); lra. }
  split; [|split; [|split]].
  - destruct (Hall i Hi) as [Hr Hu]. rewrite Hr, Hu. reflexivity.
  - intros Hpos.
    destruct (Hall i Hi) as [Hr _]. destruct (Hall (i - 1)%nat ltac:(lia)) as [Hr' _].
    rewrite Hr, Hr'.
    first_eight i; try lia; cbn [Nat.eqb Nat.add Nat.sub INR]; lra.
  - destruct (Hall i Hi) as [Hr _]. rewrite Hr.
    first_eight i; cbn [Nat.eqb Nat.add INR]; lra.
  - destruct (Hall 0%nat ltac:(lia)) as [_ Hu]. rewrite Hu. cbn [Nat.add INR]. lra.
Qed.

Lemma bladder_radius_tapers_witness :
  Cli.bladder_radius 3 = Cli.bladder_radius_unclamped 3
  /\ Cli.bladder_radius 3 < Cli.bladder_radius 2.
Proof.
  destruct (bladder_radius_tapers 3 ltac:(lia)) as (Heq & Hlt & _).
  split; [exact Heq|]. apply Hlt. lia.
Defined.

(** X7.  Every bladder create_bladders creates lies within its
    channel: its height is strictly between the two ends of the
    channel path (which is why the centre is an interpolation and
    never an extrapolation), and its centre lies in the vertical plane
    of the lobe at a distance from the axis between the 2.78 mm of the
    channel end and the 16.875 mm of the channel start. *)
Theorem bladder_center_within_channel lobe i :
  (i < 8)%nat ->
  let g := Cli.channel_geometry_of lobe in
  let angle := INR lobe * 2 * PI / 3 + PI / 6 in
  let path_ratio := Cli.z_pos i / Cli.z_end g in
  let rho := 0.016875 + (0.0027808878125 - 0.016875) * path_ratio in
  0 < path_ratio < 1
  /\ Cli.z_start g < Cli.z_pos i < Cli.z_end g
  /\ Cli.bladder_center lobe i = Vec (rho * cos angle) (rho * sin angle) (Cli.z_pos i)
  /\ 0.0027808878125 < rho < 0.016875.
Proof.
  intros Hi g angle path_ratio rho.
  assert (Hze : Cli.z_end g = 0.1275).
  { unfold g, Cli.channel_geometry_of, Cli.tentacle_len_mm, Cli.MM. cbn [Cli.z_end]. lra. }
  assert (Hzp : 0.015 <= Cli.z_pos i <= 0.120).
  { rewrite z_pos_eq. first_eight i; cbn [Nat.add INR]; lra. }
  assert (Hr : 0 < path_ratio < 1).
  { unfold path_ratio. rewrite Hze. split.
    - apply Rdiv_lt_0_compat; lra.
    - apply Rmult_lt_reg_r with 0.1275; [lra|]. field_simplify; lra. }
  split; [exact Hr|]. split; [|split].
  - rewrite Hze. change (Cli.z_start g) with 0. lra.
  - destruct (channel_ends_radial lobe) as (Hsx & Hsy & Hex & Hey).
    fold g angle in Hsx, Hsy, Hex, Hey.
    change (Cli.bladder_center lobe i)
      with (Vec (Cli.start_x g + (Cli.end_x g - Cli.start_x g) * (Cli.z_pos i / Cli.z_end g))
                (Cli.start_y g + (Cli.end_y g - Cli.start_y g) * (Cli.z_pos i / Cli.z_end g))
                (Cli.z_pos i)).
    fold path_ratio. rewrite Hsx, Hsy, Hex, Hey. unfold rho. f_equal; ring.
  - unfold rho. nra.
Qed.

Lemma bladder_center_within_channel_witness :
  Cli.z_start (Cli.channel_geometry_of 0) < Cli.z_pos 7 < Cli.z_end (Cli.channel_geometry_of 0).
Proof.
  destruct (bladder_center_within_channel 0 7 ltac:(lia)) as (_ & H & _). exact H.
Defined.

(* ================================================================== *)
(** * The voids of tri_lobe_tentacle_generator.py *)

(** X8.  In create_enhanced_bladder_stack the scale of bladder i of a
    stack is (6 t, 6 t, 12 t) with the taper t = 1 - (i + 1) / 8; the
    cap 0.9 * base_radius_mm * t never applies.  The eighth bladder
    (i = 7) sits at the height of the tip, z = 150 mm, with t = 0: its
    scale is zero in every direction. *)
Theorem bladder_stack_tapers_to_nothing lobe_index i :
  (i < 8)%nat ->
  let t := 1 - INR (i + 1) / 8 in
  TriLobe.bladder_scale i = Vec (6 * t) (6 * t) (12 * t)
  /\ 0 <= t < 1
  /\ vz (TriLobe.bladder_location lobe_index i) = INR (i + 1) * 0.01875
  /\ (i = 7%nat ->
      TriLobe.bladder_scale i = Vec 0 0 0
      /\ vz (TriLobe.bladder_location lobe_index i) = TriLobe.tentacle_len_mm * TriLobe.MM).
Proof.
  intros Hi t.
  assert (Hn : 1 <= INR (i + 1) <= 8).
  { pose proof (le_INR 1 (i + 1) ltac:(lia)) as Hlo.
    pose proof (le_INR (i + 1) 8 ltac:(lia)) as Hhi.
    cbn [INR] in Hlo, Hhi. lra. }
  assert (Ht : 0 <= t < 1) by (unfold t; lra).
  assert (Hscale : TriLobe.bladder_scale i = Vec (6 * t) (6 * t) (12 * t)).
  { unfold TriLobe.bladder_scale, TriLobe.bladder_spacing_mm, TriLobe.tentacle_len_mm,
      TriLobe.tip_radius_mm, TriLobe.base_radius_mm, TriLobe.bladder_short_mm,
      TriLobe.bladder_long_mm, TriLobe.MM. cbv zeta.
    replace (1.0 - INR (i + 1) * 18.75 * 0.001 / (150.0 * 0.001) * (1.0 - 0.0 / 25.0))
      with t by (unfold t; lra).
    unfold Py.min.
    destruct (Rlt_dec (25.0 * 0.9 * t) (6.0 * t)); destruct (Rlt_dec (25.0 * 0.9 * t) (12.0 * t));
      try (exfalso; lra).
    f_equal; lra. }
  assert (Hz : vz (TriLobe.bladder_location lobe_index i) = INR (i + 1) * 0.01875).
  { unfold TriLobe.bladder_location, TriLobe.bladder_spacing_mm, TriLobe.MM. cbn [vz]. lra. }
  split; [exact Hscale|]. split; [exact Ht|]. split; [exact Hz|].
  intros H7. rewrite Hscale, Hz. unfold t. subst i. cbn [Nat.add INR].
  unfold TriLobe.tentacle_len_mm, TriLobe.MM. split; [f_equal; lra|lra].
Qed.

Lemma bladder_stack_tapers_to_nothing_witness :
  TriLobe.bladder_scale 7 = Vec 0 0 0
  /\ vz (TriLobe.bladder_location 0 7) = TriLobe.tentacle_len_mm * TriLobe.MM.
Proof.
  destruct (bladder_stack_tapers_to_nothing 0 7 ltac:(lia)) as (_ & _ & _ & H).
  apply H. reflexivity.
Defined.

(** X9.  In tri_lobe_tentacle_generator.py the voids of a lobe line
    up: every bladder of the stack is centred on the axis of the
    channel of its lobe, which runs from z = 15 mm to z = 135 mm (so
    the first seven bladders are centred within it, the eighth
    above it), and the axis of the connector of the lobe passes 2.5 mm
    from the axis of the channel, less than the connector radius,
    over the heights 0 to 20 mm, which overlap the channel. *)
Theorem trilobe_voids_line_up lobe_index i :
  let channel_depth := TriLobe.tentacle_len_mm * 0.8 * TriLobe.MM in
  let channel_bottom := vz (TriLobe.channel_location lobe_index) - channel_depth / 2 in
  let channel_top := vz (TriLobe.channel_location lobe_index) + channel_depth / 2 in
  let connector_top :=
    vz (TriLobe.connector_location lobe_index) + TriLobe.connector_length_mm * TriLobe.MM / 2 in
  vx (TriLobe.bladder_location lobe_index i) = vx (TriLobe.channel_location lobe_index)
  /\ vy (TriLobe.bladder_location lobe_index i) = vy (TriLobe.channel_location lobe_index)
  /\ channel_bottom = 0.015 /\ channel_top = 0.135
  /\ ((i < 7)%nat -> channel_bottom < vz (TriLobe.bladder_location lobe_index i) < channel_top)
  /\ ((7 <= i)%nat -> channel_top < vz (TriLobe.bladder_location lobe_index i))
  /\ sqrt ((vx (TriLobe.connector_location lobe_index)
            - vx (TriLobe.channel_location lobe_index)) ^ 2
           + (vy (TriLobe.connector_location lobe_index)
              - vy (TriLobe.channel_location lobe_index)) ^ 2) = 0.0025
  /\ 0.0025 < TriLobe.connector_radius_mm * TriLobe.MM
  /\ connector_top = 0.020
  /\ channel_bottom < connector_top.
Proof.
  intros channel_depth channel_bottom channel_top connector_top.
  assert (Hb : channel_bottom = 0.015).
  { unfold channel_bottom, channel_depth, TriLobe.channel_location,
      TriLobe.tentacle_len_mm, TriLobe.MM. cbn [vz]. lra. }
  assert (Ht : channel_top = 0.135).
  { unfold channel_top, channel_depth, TriLobe.channel_location,
      TriLobe.tentacle_len_mm, TriLobe.MM. cbn [vz]. lra. }
  assert (Hc : connector_top = 0.020).
  { unfold connector_top, TriLobe.connector_location, TriLobe.connector_length_mm,
      TriLobe.MM. cbn [vz]. lra. }
  assert (Hz : vz (TriLobe.bladder_location lobe_index i) = INR (i + 1) * 0.01875).
  { unfold TriLobe.bladder_location, TriLobe.bladder_spacing_mm, TriLobe.MM. cbn [vz]. lra. }
  repeat match goal with |- _ /\ _ => split end; try reflexivity; try assumption.
  - intros Hi. rewrite Hb, Ht, Hz.
    assert (1 <= INR (i + 1) <= 7).
    { pose proof (le_INR 1 (i + 1) ltac:(lia)) as Hlo.
      pose proof (le_INR (i + 1) 7 ltac:(lia)) as Hhi.
      cbn [INR] in Hlo, Hhi. lra. }
    lra.
  - intros Hi. rewrite Ht, Hz.
    pose proof (le_INR 8 (i + 1) ltac:(lia)) as Hlo. cbn [INR] in Hlo. lra.
  - unfold TriLobe.connector_location, TriLobe.channel_location, TriLobe.base_radius_mm,
      TriLobe.MM. cbn [vx vy].
    set (angle := INR lobe_index * 2 * PI / 3).
    pose proof (sin2_cos2 angle) as Hunit. unfold Rsqr in Hunit.
    replace ((25.0 * 0.7 * 0.001 * cos angle - 25.0 * 0.6 * 0.001 * cos angle) ^ 2
             + (25.0 * 0.7 * 0.001 * sin angle - 25.0 * 0.6 * 0.001 * sin angle) ^ 2)
      with (0.0025 * 0.0025) by (simpl pow; nra).
    apply sqrt_square. lra.
  - unfold TriLobe.connector_radius_mm, TriLobe.MM. lra.
  - rewrite Hb, Hc. lra.
Qed.

(* ================================================================== *)
(** * Clearing the scene and creating materials *)












Lemma existsb_eqb_in name ms : existsb (String.eqb name) ms = true <-> In name ms.
Proof.
  rewrite existsb_exists. split.
  - intros [x [Hin Heq]]. apply String.eqb_eq in Heq. subst x. exact Hin.
  - intros Hin. exists name. split; [exact Hin|apply String.eqb_refl].
Qed.

(** X12.  create_material (in both scripts, and create_enhanced_material)
    creates a material at most once per name: a name already in
    [bpy.data.materials] is returned with the state untouched,
    otherwise the name is added at the end; in both cases the name is
    there afterwards, a second call changes nothing, and material
    names that were distinct stay distinct. *)
Theorem create_material_once name w :
  let w' := snd (Cli.create_material name w) in
  fst (Cli.create_material name w) = Ok name
  /\ materials w' = (if existsb (String.eqb name) (materials w)
                     then materials w else materials w ++ [name])
  /\ (In name (materials w) -> w' = w)
  /\ In name (materials w')
  /\ Cli.create_material name w' = (Ok name, w')
  /\ (NoDup (materials w) -> NoDup (materials w'))
  /\ objects w' = objects w /\ files w' = files w /\ calls w' = calls w
  /\ TriLobe.create_material name w = Cli.create_material name w
  /\ TriLobe.create_enhanced_material name w = Cli.create_material name w.
Proof.
  intros w'.
  assert (Hrun : Cli.create_material name w =
                 (Ok name, if existsb (String.eqb name) (materials w) then w
                           else with_materials (materials w ++ [name]) w)).
  { unfold Cli.create_material, ensure_material, bind, gets, ret, modify.
    destruct (existsb (String.eqb name) (materials w)); reflexivity. }
  assert (Hw' : w' = if existsb (String.eqb name) (materials w) then w
                     else with_materials (materials w ++ [name]) w).
  { unfold w'. rewrite Hrun. reflexivity. }
  assert (Hin : In name (materials w')).
  { rewrite Hw'. destruct (existsb (String.eqb name) (materials w)) eqn:E.
    - apply existsb_eqb_in. exact E.
    - cbn [materials with_materials]. apply in_or_app. right. left. reflexivity. }
  split; [rewrite Hrun; reflexivity|]. split; [|split; [|split; [exact Hin|split; [|split]]]].
  - rewrite Hw'. destruct (existsb _ _); reflexivity.
  - intros H. apply existsb_eqb_in in H. rewrite Hw', H. reflexivity.
  - unfold Cli.create_material, ensure_material, bind, gets, ret, modify.
    apply existsb_eqb_in in Hin. rewrite Hin. reflexivity.
  - intros Hnd. rewrite Hw'. destruct (existsb (String.eqb name) (materials w)) eqn:E;
      [exact Hnd|].
    cbn [materials with_materials]. apply NoDup_app; [exact Hnd|repeat constructor; intros []|].
    intros x Hx [Hx'|[]]. subst x. apply existsb_eqb_in in Hx. congruence.
  - rewrite Hw'. destruct (existsb _ _); repeat split; reflexivity.
Qed.

(* ================================================================== *)
(** * Saving and rendering on a host that fails *)

(** X13.  save_blend_file of render_tentacle_cli.py is best effort
    for every subclass of [Exception]: when the host saves, the scene
    file holds every object of the scene; when the host raises such an
    exception, the function returns normally, having written nothing
    and printed the failure.  An exception outside [Exception] is not
    caught. *)
Theorem save_blend_file_best_effort h filename w :
  let filepath := Str.path_join (Cli.output_dir h) filename in
  (raises h (wm_save_as_mainfile filepath) w = None ->
   exists w',
     Cli.save_blend_file h filename w = (Ok tt, w')
     /\ files w' = files w ++ [(filepath, BlendFile (map snd (objects w)))]
     /\ stdout w' = stdout w ++ [Saved_blender_file filename])
  /\ (forall e, raises h (wm_save_as_mainfile filepath) w = Some e ->
      is_Exception e = true ->
      exists w',
        Cli.save_blend_file h filename w = (Ok tt, w')
        /\ files w' = files w /\ objects w' = objects w
        /\ stdout w' = stdout w ++ [Could_not_save_blender_file e])
  /\ (forall e, raises h (wm_save_as_mainfile filepath) w = Some e ->
      is_Exception e = false ->
      fst (Cli.save_blend_file h filename w) = Raise e).
Proof.
  intros filepath. unfold Cli.save_blend_file. fold filepath.
  unfold try_except, bind, save_as_mainfile, call.
  split; [|split].
  - intros Hr. rewrite Hr. eexists. split; [reflexivity|]. split; reflexivity.
  - intros e Hr He. rewrite Hr, He. eexists. split; [reflexivity|].
    repeat split; reflexivity.
  - intros e Hr He. rewrite Hr, He. reflexivity.
Qed.

(** X14.  render_image of tri_lobe_tentacle_generator.py turns a
    failed render into the result False: when the render operator
    raises a subclass of [Exception] the function returns False,
    writes no file and prints the failure; when it goes through, the
    image is written to "out/" + filename (for a relative filename)
    and the result is True. *)
Theorem trilobe_render_image_reports_failure h filename w :
  let output_path := Str.path_join TriLobe.export_path filename in
  let w0 := with_render_filepath output_path w in
  (raises h render_render w0 = None ->
   exists w',
     TriLobe.render_image h filename w = (Ok true, w')
     /\ files w' = files w ++ [(output_path, Image)]
     /\ stdout w' = stdout w ++ [Rendered_image output_path])
  /\ (forall e, raises h render_render w0 = Some e -> is_Exception e = true ->
      exists w',
        TriLobe.render_image h filename w = (Ok false, w')
        /\ files w' = files w /\ objects w' = objects w
        /\ stdout w' = stdout w ++ [Render_failed e])
  /\ (String.prefix "/" filename = false -> output_path = ("out/" ++ filename)%string).
Proof.
  intros output_path w0. unfold TriLobe.render_image. fold output_path.
  unfold try_except, bind, render, call, modify. fold w0.
  split; [|split].
  - intros Hr. rewrite Hr. eexists. split; [reflexivity|]. split; reflexivity.
  - intros e Hr He. rewrite Hr, He. eexists. split; [reflexivity|].
    repeat split; reflexivity.
  - intros Hrel. unfold output_path, Str.path_join, TriLobe.export_path.
    rewrite Hrel. reflexivity.
Qed.

(** X15.  render_image of render_tentacle_cli.py renders for the view
    type "camera" only: for any other view type it calls nothing and
    writes nothing, and still reports the file as rendered.  For
    "camera" it has no [try]: what the render operator raises reaches
    the caller, and nothing is reported. *)
Theorem cli_render_image_by_view_type h filename view_type w :
  let filepath := Str.path_join (Cli.output_dir h) filename in
  let w0 := with_render_filepath filepath w in
  (view_type <> "camera"%string ->
   Cli.render_image h filename view_type w
   = (Ok tt, with_stdout (stdout w ++ [Rendered filename]) w))
  /\ (raises h render_render w0 = None ->
      exists w',
        Cli.render_image h filename "camera" w = (Ok tt, w')
        /\ files w' = files w ++ [(filepath, Image)]
        /\ stdout w' = stdout w ++ [Rendered filename])
  /\ (forall e, raises h render_render w0 = Some e ->
      exists w',
        Cli.render_image h filename "camera" w = (Raise e, w')
        /\ files w' = files w /\ stdout w' = stdout w).
Proof.
  intros filepath w0. unfold Cli.render_image. fold filepath.
  split; [|split].
  - intros Hv. apply String.eqb_neq in Hv. rewrite Hv. reflexivity.
  - intros Hr. cbn [String.eqb Ascii.eqb Bool.eqb]. unfold bind, modify, render, call.
    fold w0. rewrite Hr. eexists. split; [reflexivity|]. split; reflexivity.
  - intros e Hr. cbn [String.eqb Ascii.eqb Bool.eqb]. unfold bind, modify, render, call.
    fold w0. rewrite Hr. eexists. split; [reflexivity|]. split; reflexivity.
Qed.

Lemma cli_render_image_by_view_type_witness :
  Cli.render_image ideal_host "top.png" "top" startup_world
  = (Ok tt, with_stdout (stdout startup_world ++ [Rendered "top.png"]) startup_world).
Proof.
  apply (cli_render_image_by_view_type ideal_host "top.png" "top" startup_world).
  discriminate.
Defined.

(** X16.  The render engine [main] of tri_lobe_tentacle_generator.py
    ends up with is the first of BLENDER_EEVEE_NEXT, BLENDER_EEVEE and
    CYCLES that the host knows: it tries them in this order and stops
    at the first that is accepted.  The [TypeError] of an unknown name
    is caught for the first two only: on a host that knows none of
    the three the [TypeError] for CYCLES reaches the caller.  An
    exception other than [TypeError] is not caught at all. *)
Theorem render_engine_falls_back accepts h w :
  TriLobe.set_render_engine_with_fallbacks (failing_on (engines accepts) h) w
  = ((if accepts "BLENDER_EEVEE_NEXT"%string || accepts "BLENDER_EEVEE"%string
         || accepts "CYCLES"%string
      then Ok tt else Raise TypeError),
     logged (map set_render_engine (engine_attempts accepts)) w)
  /\ (forall h' e, raises h' (set_render_engine "BLENDER_EEVEE_NEXT") w = Some e ->
      is_TypeError e = false ->
      TriLobe.set_render_engine_with_fallbacks h' w
      = (Raise e, logged [set_render_engine "BLENDER_EEVEE_NEXT"] w)).
Proof.
  split.
  - unfold TriLobe.set_render_engine_with_fallbacks, engine_attempts, try_except, bind,
      set_engine, call, no_effect, ret, failing_on, engines, logged.
    cbn [raises].
    destruct (accepts "BLENDER_EEVEE_NEXT"%string); cbn [negb orb is_TypeError map];
      [destruct w as [objs nid act mts rfp fls out cls]; reflexivity|].
    destruct (accepts "BLENDER_EEVEE"%string); cbn [negb orb is_TypeError map];
      [destruct w as [objs nid act mts rfp fls out cls]; cbv [log_call objects next_id active materials render_filepath files
                         stdout calls]; rewrite <- app_assoc; reflexivity|].
    destruct (accepts "CYCLES"%string); cbn [negb orb is_TypeError map];
      destruct w as [objs nid act mts rfp fls out cls]; cbv [log_call objects next_id active materials render_filepath files
                       stdout calls]; rewrite <- !app_assoc; reflexivity.
  - intros h' e Hr He.
    unfold TriLobe.set_render_engine_with_fallbacks, try_except, bind, set_engine, call.
    rewrite Hr, He. reflexivity.
Qed.

(* ================================================================== *)
(** * The batches of subtract_voids *)

Lemma batches_fuel_spec {A} n : (0 < n)%nat -> forall fuel (l : list A),
  (List.length l <= fuel)%nat ->
  List.concat (TriLobe.batches_fuel fuel n l) = l
  /\ Forall (fun b => (0 < List.length b <= n)%nat) (TriLobe.batches_fuel fuel n l)
  /\ (List.length l <= n * List.length (TriLobe.batches_fuel fuel n l) < List.length l + n)%nat.
Proof.
  intros Hn. induction fuel as [|fuel IH]; intros l Hl.
  - destruct l; [|cbn in Hl; lia]. cbn [TriLobe.batches_fuel List.concat List.length].
    rewrite Nat.mul_0_r. repeat split; [constructor|lia|lia].
  - destruct l as [|x rest] eqn:El;
      [cbn [TriLobe.batches_fuel List.concat List.length]; rewrite Nat.mul_0_r;
       repeat split; [constructor|lia|lia]|].
    rewrite <- El in *. assert (Hlen : (0 < List.length l)%nat) by (rewrite El; cbn; lia).
    replace (TriLobe.batches_fuel (S fuel) n l)
      with (firstn n l :: TriLobe.batches_fuel fuel n (skipn n l))
      by (rewrite El; reflexivity).
    assert (Hskip : (List.length (skipn n l) <= fuel)%nat) by (rewrite length_skipn; lia).
    destruct (IH (skipn n l) Hskip) as (Hc & Hf & Hcount).
    rewrite length_skipn in Hcount.
    cbn [List.concat List.length]. rewrite Hc, firstn_skipn.
    split; [reflexivity|]. split.
    + constructor; [|exact Hf]. rewrite length_firstn. lia.
    + rewrite Nat.mul_succ_r.
      destruct (le_lt_dec (List.length l) n) as [Hshort|Hlong]; [|lia].
      rewrite (skipn_all2 l Hshort). destruct fuel; cbn [TriLobe.batches_fuel List.length]; lia.
Qed.

(** X17.  The batches subtract_voids works through are the list of
    voids cut into consecutive runs of [batch_size]: put together
    again they give the list, in its order, so every void is
    subtracted exactly once; no batch is empty or longer than
    [batch_size]; and there are len / batch_size of them, rounded
    up. *)
Theorem batches_partition {A} (batch_size : nat) (voids : list A) :
  (0 < batch_size)%nat ->
  List.concat (TriLobe.batches batch_size voids) = voids
  /\ Forall (fun batch => (0 < List.length batch <= batch_size)%nat)
            (TriLobe.batches batch_size voids)
  /\ List.length (TriLobe.batches batch_size voids)
     = ((List.length voids + batch_size - 1) / batch_size)%nat.
Proof.
  intros Hn.
  destruct (batches_fuel_spec batch_size Hn (List.length voids) voids (le_n _))
    as (Hc & Hf & Hlo & Hhi).
  fold (TriLobe.batches batch_size voids) in Hc, Hf, Hlo, Hhi.
  split; [exact Hc|]. split; [exact Hf|].
  apply Nat.div_unique with
    (r := (List.length voids + batch_size - 1
           - batch_size * List.length (TriLobe.batches batch_size voids))%nat); lia.
Qed.

Lemma batches_partition_witness :
  List.concat (TriLobe.batches 5 (range 12)) = range 12
  /\ List.length (TriLobe.batches 5 (range 12)) = 3%nat.
Proof.
  destruct (batches_partition 5 (range 12) ltac:(lia)) as (Hc & _ & Hn).
  split; [exact Hc|exact Hn].
Defined.

(* ================================================================== *)
(** * Manifold clean-up and boolean subtraction *)

Lemma update_found id f objs o :
  lookup id objs = Some o -> update id f objs = update id (fun _ => f o) objs.
Proof.
  induction objs as [|[k o0] rest IH]; cbn [lookup update]; [discriminate|].
  destruct (Nat.eqb k id).
  - intros H. inversion H. reflexivity.
  - intros H. rewrite IH by exact H. reflexivity.
Qed.

Lemma update_over id f a objs :
  update id f (update id (fun _ => a) objs) = update id (fun _ => f a) objs.
Proof.
  induction objs as [|[k o0] rest IH]; cbn [update]; [reflexivity|].
  destruct (Nat.eqb k id) eqn:E; cbn [update]; rewrite E; [reflexivity|].
  rewrite IH. reflexivity.
Qed.

Lemma lookup_set id a objs :
  lookup id objs <> None -> lookup id (update id (fun _ => a) objs) = Some a.
Proof.
  intros H. rewrite lookup_update, Nat.eqb_refl.
  destruct (lookup id objs); [reflexivity|contradiction].
Qed.

Lemma lookup_other id k f objs :
  k <> id -> lookup id (update k f objs) = lookup id objs.
Proof.
  intros H. rewrite lookup_update. apply Nat.eqb_neq in H. rewrite H. reflexivity.
Qed.

Section Editing.
Variable h : host.
Hypothesis edits_pass : forall c w, is_modifier_apply c = false -> raises h c w = None.

Lemma edit_step op id a objs nid mts rfp fls out cls :
  lookup id objs <> None ->
  mesh_edit_op h op (World (update id (fun _ => a) objs) nid (Some id) mts rfp fls out cls)
  = (Ok tt, World (update id (fun _ => with_mesh (Edited op) a) objs) nid (Some id)
                  mts rfp fls out (cls ++ [mesh_edit op])).
Proof.
  intros Hl. unfold mesh_edit_op.
  rewrite call_ok by (apply edits_pass; reflexivity).
  unfold bind, active_object, log_call. cbn [active].
  erewrite set_object_ok by (cbn [objects]; apply lookup_set; exact Hl).
  cbv [with_objects objects next_id active materials render_filepath files stdout calls].
  rewrite update_over. reflexivity.
Qed.

Lemma quiet_step c objs nid act mts rfp fls out cls :
  is_modifier_apply c = false ->
  call h c no_effect (World objs nid act mts rfp fls out cls)
  = (Ok tt, World objs nid act mts rfp fls out (cls ++ [c])).
Proof. intros Hc. rewrite call_no_effect_ok by (apply edits_pass; exact Hc). reflexivity. Qed.

(** make_manifold makes the object active, applies its five mesh
    edits in order to it and to nothing else. *)
Lemma make_manifold_ok obj o m mats objs nid act mts rfp fls out cls :
  lookup obj objs = Some o -> obj_data o = MESH m mats ->
  TriLobe.make_manifold h obj (World objs nid act mts rfp fls out cls)
  = (Ok tt, World (update obj (fun _ => with_data (MESH (manifold_cleanup m) mats) o) objs)
                  nid (Some obj) mts rfp fls out (cls ++ manifold_calls)).
Proof.
  intros Hl Hd.
  assert (Hp : lookup obj objs <> None) by (rewrite Hl; discriminate).
  assert (Hid : objs = update obj (fun _ => o) objs).
  { rewrite <- (update_found obj (fun x => x) objs o Hl).
    clear. induction objs as [|[k o0] rest IH]; cbn [update]; [reflexivity|].
    destruct (Nat.eqb k obj); [reflexivity|]. rewrite <- IH. reflexivity. }
  unfold TriLobe.make_manifold, mode_set, mesh_select_op.
  rewrite (bind_ok _ (set_active_ok obj _)).
  cbv [with_active objects next_id active materials render_filepath files stdout calls].
  rewrite Hid at 1.
  repeat first
    [ erewrite bind_ok by (apply quiet_step; reflexivity)
    | erewrite bind_ok by (apply edit_step; exact Hp) ].
  rewrite quiet_step by reflexivity.
  unfold with_mesh, manifold_cleanup, manifold_calls.
  cbn [obj_data with_data]. rewrite Hd. cbn [obj_data with_data].
  repeat rewrite <- app_assoc. cbn [app].
  reflexivity.
Qed.
End Editing.

Lemma remove_modifier_absent name ms :
  find_modifier name ms = None -> remove_modifier name ms = ms.
Proof.
  unfold remove_modifier. induction ms as [|md rest IH]; cbn [find_modifier filter];
    [reflexivity|].
  destruct (String.eqb (mod_name md) name); [discriminate|].
  intros H. cbn [negb]. rewrite IH by exact H. reflexivity.
Qed.

Lemma find_modifier_added name ms md :
  find_modifier name ms = None -> mod_name md = name ->
  find_modifier name (ms ++ [md]) = Some md
  /\ remove_modifier name (ms ++ [md]) = ms.
Proof.
  intros Habs Hname. split.
  - induction ms as [|m0 rest IH]; cbn [find_modifier app] in *.
    + rewrite Hname, String.eqb_refl. reflexivity.
    + destruct (String.eqb (mod_name m0) name); [discriminate|]. apply IH. exact Habs.
  - unfold remove_modifier. rewrite filter_app. fold (remove_modifier name ms).
    rewrite (remove_modifier_absent name ms Habs). cbn [filter].
    rewrite Hname, String.eqb_refl. cbn [negb]. apply app_nil_r.
Qed.

Lemma get_name_ok {id o w} :
  lookup id (objects w) = Some o -> get_name id w = (Ok (obj_name o), w).
Proof.
  intros H. unfold get_name. rewrite (bind_ok _ (get_object_ok H)). reflexivity.
Qed.

(** X18.  One step of subtract_voids.  The void is cleaned up by
    make_manifold first.  When the host applies the boolean modifier,
    the mesh of the body becomes the difference (FAST solver) of what
    it was and the cleaned-up void, and the modifier is gone from the
    stack.  When the host raises on applying it, whatever the
    exception, the step still returns normally: the modifier is taken
    off again, the body is exactly what it was, and a warning is
    printed.  In both cases the void stays in the scene (subtract_voids
    removes the voids at its end). *)
Theorem subtract_void_outcomes h main_body void body bm bmats vo vm vmats w :
  main_body <> void ->
  lookup main_body (objects w) = Some body -> obj_data body = MESH bm bmats ->
  lookup void (objects w) = Some vo -> obj_data vo = MESH vm vmats ->
  find_modifier ("Subtract_" ++ obj_name vo) (obj_modifiers body) = None ->
  (forall c w', is_modifier_apply c = false -> raises h c w' = None) ->
  let applying := object_modifier_apply ("Subtract_" ++ obj_name vo) in
  let cleaned := with_data (MESH (manifold_cleanup vm) vmats) vo in
  ((forall w', raises h applying w' = None) ->
   exists w',
     TriLobe.subtract_void h main_body void w = (Ok tt, w')
     /\ lookup main_body (objects w')
        = Some (with_data (MESH (Boolean DIFFERENCE FAST bm (manifold_cleanup vm)) bmats) body)
     /\ lookup void (objects w') = Some cleaned
     /\ stdout w' = stdout w)
  /\ (forall e, (forall w', raises h applying w' = Some e) ->
      exists w',
        TriLobe.subtract_void h main_body void w = (Ok tt, w')
        /\ lookup main_body (objects w') = Some body
        /\ lookup void (objects w') = Some cleaned
        /\ stdout w' = stdout w ++ [Boolean_operation_failed (obj_name vo)]).
Proof.
  intros Hne Hlb Hdb Hlv Hdv Habs Hpass applying cleaned.
  destruct w as [objs nid act mts rfp fls out cls]. cbn [objects stdout] in *.
  set (name := ("Subtract_" ++ obj_name vo)%string) in *.
  set (md := Modifier name DIFFERENCE void FAST).
  set (objs1 := update void (fun _ => cleaned) objs).
  set (pending := with_modifiers (obj_modifiers body ++ [md]) body).
  set (objs2 := update main_body (fun _ => pending) objs1).
  assert (Hv1 : lookup void objs1 = Some cleaned).
  { unfold objs1. apply lookup_set. rewrite Hlv. discriminate. }
  assert (Hb1 : lookup main_body objs1 = Some body).
  { unfold objs1. rewrite lookup_other by (intros H; apply Hne; symmetry; exact H). exact Hlb. }
  assert (Hb2 : lookup main_body objs2 = Some pending).
  { unfold objs2. apply lookup_set. rewrite Hb1. discriminate. }
  assert (Hv2 : lookup void objs2 = Some cleaned).
  { unfold objs2. rewrite lookup_other by exact Hne. exact Hv1. }
  destruct (find_modifier_added name (obj_modifiers body) md Habs eq_refl) as [Hfind Hrem].
  assert (Hprefix :
    TriLobe.subtract_void h main_body void (World objs nid act mts rfp fls out cls)
    = try_except (modifier_apply h name) any_exception
        (fun _ => print (Boolean_operation_failed (obj_name vo)) ;;
                  modifiers_remove main_body name)
        (World objs2 nid (Some main_body) mts rfp fls out (cls ++ manifold_calls))).
  { unfold TriLobe.subtract_void.
    rewrite (bind_ok _ (make_manifold_ok h Hpass void vo vm vmats objs nid act mts rfp fls out cls
                          Hlv Hdv)).
    fold cleaned. fold objs1.
    rewrite (bind_ok _ (get_name_ok (w := World objs1 _ _ _ _ _ _ _) Hv1)).
    cbn [obj_name cleaned with_data mod_name]. fold name. fold md.
    unfold modifiers_new.
    erewrite bind_ok by (apply (set_object_ok _ (o := body)); exact Hb1).
    cbv [with_objects objects next_id active materials render_filepath files stdout calls].
    rewrite (update_found main_body _ objs1 body Hb1). fold pending. fold objs2.
    rewrite (bind_ok _ (set_active_ok main_body _)).
    cbv [with_active objects next_id active materials render_filepath files stdout calls].
    reflexivity. }
  split.
  - intros Hok. rewrite Hprefix.
    eexists. split.
    + apply try_except_ok. unfold modifier_apply.
      rewrite call_ok by apply Hok.
      unfold log_call. cbn [objects next_id active materials render_filepath files stdout calls].
      unfold bind at 1. unfold active_object at 1. cbn [active].
      rewrite (bind_ok _ (get_object_ok (w := World objs2 _ _ _ _ _ _ _) Hb2)).
      cbn [obj_modifiers pending with_modifiers]. rewrite Hfind.
      cbn [mod_object md].
      rewrite (bind_ok _ (get_object_ok (w := World objs2 _ _ _ _ _ _ _) Hv2)).
      unfold mesh_of. cbn [obj_data cleaned with_data].
      apply (set_object_ok _ (o := pending)). exact Hb2.
    + cbv [with_objects objects next_id active materials render_filepath files stdout calls].
      split; [|split; [|reflexivity]].
      * unfold objs2. rewrite update_over. rewrite lookup_set by (rewrite Hb1; discriminate).
        f_equal. unfold with_mesh, pending.
        cbn [obj_data with_modifiers obj_modifiers mod_operation mod_solver md].
        rewrite Hdb. fold name. rewrite Hrem.
        destruct body; reflexivity.
      * rewrite lookup_other by exact Hne. exact Hv2.
  - intros e Hfail. rewrite Hprefix.
    eexists. split.
    + unfold modifier_apply.
      rewrite (try_except_caught any_exception _ (call_raises h _ _ _ e (Hfail _)) eq_refl).
      rewrite (bind_ok _ (print_ok _ _)).
      unfold modifiers_remove.
      apply (set_object_ok _ (o := pending)).
      cbv [log_call with_stdout objects next_id active materials render_filepath files
           stdout calls]. exact Hb2.
    + cbv [log_call with_stdout with_objects objects next_id active materials render_filepath
           files stdout calls].
      split; [|split; [|reflexivity]].
      * unfold objs2. rewrite update_over. rewrite lookup_set by (rewrite Hb1; discriminate).
        f_equal. unfold pending. cbn [obj_modifiers with_modifiers]. rewrite Hrem.
        destruct body; reflexivity.
      * rewrite lookup_other by exact Hne. exact Hv2.
Qed.

Lemma subtract_void_outcomes_witness :
  (exists w',
     TriLobe.subtract_void ideal_host 0%nat 1%nat body_and_void = (Ok tt, w')
     /\ lookup 0%nat (objects w')
        = Some (with_data (MESH (Boolean DIFFERENCE FAST (Cylinder None 1 1)
                                         (manifold_cleanup (UVSphere 1))) [])
                          (new_object "Body" (MESH (Cylinder None 1 1) []) (Vec 0 0 0))))
  /\ (exists w',
        TriLobe.subtract_void host_with_failing_boolean 0%nat 1%nat body_and_void = (Ok tt, w')
        /\ lookup 0%nat (objects w')
           = Some (new_object "Body" (MESH (Cylinder None 1 1) []) (Vec 0 0 0))
        /\ stdout w' = [Boolean_operation_failed "Void"]).
Proof.
  split.
  - destruct (subtract_void_outcomes ideal_host 0%nat 1%nat
                (new_object "Body" (MESH (Cylinder None 1 1) []) (Vec 0 0 0))
                (Cylinder None 1 1) []
                (new_object "Void" (MESH (UVSphere 1) []) (Vec 0 0 0)) (UVSphere 1) []
                body_and_void) as [Hok _]; try reflexivity.
    + discriminate.
    + destruct Hok as (w' & Hrun & Hbody & _); [reflexivity|].
      exists w'. split; [exact Hrun|exact Hbody].
  - destruct (subtract_void_outcomes host_with_failing_boolean 0%nat 1%nat
                (new_object "Body" (MESH (Cylinder None 1 1) []) (Vec 0 0 0))
                (Cylinder None 1 1) []
                (new_object "Void" (MESH (UVSphere 1) []) (Vec 0 0 0)) (UVSphere 1) []
                body_and_void) as [_ Hfail]; try reflexivity.
    + discriminate.
    + intros c w' Hc. destruct c; try reflexivity; discriminate Hc.
    + destruct (Hfail RuntimeError) as (w' & Hrun & Hbody & _ & Hout); [reflexivity|].
      exists w'. split; [exact Hrun|]. split; [exact Hbody|exact Hout].
Defined.

(* ================================================================== *)
(** * What the exporters write *)

(** X19.  export_stl of render_tentacle_cli.py exports the object it
    is given and nothing else, whatever was selected before, at a
    scale of 1000, and works down its three methods in order.  With
    the first operator the file is an STL file with that one object;
    when the first operator is missing ([AttributeError]) the second
    writes the same; when both are missing the whole scene is saved
    instead, under the path with every ".stl" replaced by ".blend";
    when that fails too, for whatever reason, nothing is written and
    the failure is printed. *)
Theorem cli_export_stl_ladder h obj filename o w :
  quiet h -> lookup obj (objects w) = Some o ->
  let filepath := Str.path_join (Cli.output_dir h) filename in
  let blend_filepath := Str.replace ".stl" ".blend" filepath in
  let only := [with_selected true (with_selected false o)] in
  let first := export_mesh_stl filepath 1000.0 in
  let second := wm_stl_export filepath 1000.0 in
  let third := wm_save_as_mainfile blend_filepath in
  map snd (selected_objects (cli_before_try obj w)) = only
  /\ ((forall w', raises h first w' = None) ->
      exists w',
        Cli.export_stl h obj filename w = (Ok tt, w')
        /\ files w' = files w ++ [(filepath, HostStl only 1000.0)]
        /\ stdout w' = stdout w ++ [Exported filename])
  /\ ((forall w', raises h first w' = Some AttributeError) ->
      (forall w', raises h second w' = None) ->
      exists w',
        Cli.export_stl h obj filename w = (Ok tt, w')
        /\ files w' = files w ++ [(filepath, HostStl only 1000.0)]
        /\ stdout w' = stdout w ++ [Exported_method_2 filename])
  /\ ((forall w', raises h first w' = Some AttributeError) ->
      (forall w', raises h second w' = Some AttributeError) ->
      (forall w', raises h third w' = None) ->
      exists w',
        Cli.export_stl h obj filename w = (Ok tt, w')
        /\ files w' = files w ++ [(blend_filepath,
                                   BlendFile (map snd (objects (cli_before_try obj w))))]
        /\ stdout w' = stdout w ++ [Stl_not_available_saved_as blend_filepath])
  /\ (forall e,
      (forall w', raises h first w' = Some AttributeError) ->
      (forall w', raises h second w' = Some AttributeError) ->
      (forall w', raises h third w' = Some e) ->
      exists w',
        Cli.export_stl h obj filename w = (Ok tt, w')
        /\ files w' = files w
        /\ stdout w' = stdout w ++ [Could_not_export filename]).
Proof.
  intros Hq Hl filepath blend_filepath only first second third.
  assert (Hsel : map snd (selected_objects (cli_before_try obj w)) = only).
  { unfold selected_objects, cli_before_try. cbn [objects].
    rewrite (only_selected obj o (objects w) Hl). reflexivity. }
  rewrite (cli_export_stl_enters_try h obj filename o w Hq Hl). fold filepath.
  split; [exact Hsel|].
  unfold Cli.export_method_1, Cli.export_method_2, Cli.export_method_3,
    stl_export_legacy, stl_export, save_as_mainfile.
  fold blend_filepath.
  fold first second third.
  assert (Hsel' : forall c c',
            map snd (selected_objects (log_call c' (log_call c (cli_before_try obj w)))) = only
            /\ map snd (selected_objects (log_call c (cli_before_try obj w))) = only).
  { intros c c'. split; exact Hsel. }
  split; [|split; [|split]].
  - intros H1. eexists. split.
    + apply try_except_ok.
      rewrite (bind_ok _ (call_modify_ok h _ _ _ (H1 _))). apply print_ok.
    + cbn [files stdout with_stdout with_files]. unfold write_file.
      cbn [files stdout log_call]. rewrite (proj2 (Hsel' _ first)). split; reflexivity.
  - intros H1 H2. eexists. split.
    + rewrite (try_except_caught is_AttributeError _ (bind_raise _ (call_raises h _ _ _ _ (H1 _)))
                 eq_refl).
      apply try_except_ok.
      rewrite (bind_ok _ (call_modify_ok h _ _ _ (H2 _))). apply print_ok.
    + cbn [files stdout with_stdout with_files]. unfold write_file.
      cbn [files stdout log_call]. rewrite (proj1 (Hsel' first second)). split; reflexivity.
  - intros H1 H2 H3. eexists. split.
    + rewrite (try_except_caught is_AttributeError _ (bind_raise _ (call_raises h _ _ _ _ (H1 _)))
                 eq_refl).
      rewrite (try_except_caught is_AttributeError _ (bind_raise _ (call_raises h _ _ _ _ (H2 _)))
                 eq_refl).
      apply try_except_ok.
      rewrite (bind_ok _ (call_modify_ok h _ _ _ (H3 _))). apply print_ok.
    + cbn [files stdout with_stdout with_files]. unfold write_file.
      cbn [files stdout objects log_call]. split; reflexivity.
  - intros e H1 H2 H3. eexists. split.
    + rewrite (try_except_caught is_AttributeError _ (bind_raise _ (call_raises h _ _ _ _ (H1 _)))
                 eq_refl).
      rewrite (try_except_caught is_AttributeError _ (bind_raise _ (call_raises h _ _ _ _ (H2 _)))
                 eq_refl).
      rewrite (try_except_caught any_exception _ (bind_raise _ (call_raises h _ _ _ _ (H3 _)))
                 eq_refl).
      apply print_ok.
    + cbn [files stdout with_stdout log_call]. split; reflexivity.
Qed.

Lemma cli_export_stl_ladder_witness :
  exists w',
    Cli.export_stl host_without_stl_export 0%nat "triangle.stl" triangle_world = (Ok tt, w')
    /\ files w' = []
    /\ stdout w' = [Could_not_export "triangle.stl"].
Proof.
  destruct (cli_export_stl_ladder host_without_stl_export 0%nat "triangle.stl"
              (new_object "Triangle" (MESH (Cube 1) []) (Vec 0 0 0)) triangle_world
              host_without_stl_export_quiet eq_refl) as (_ & _ & _ & _ & Hlast).
  apply (Hlast OSError); reflexivity.
Defined.

(** X20.  What export_stl of tri_lobe_tentacle_generator.py leaves
    behind when writing the STL file fails with a subclass of
    [Exception].  When the file cannot be opened, the scene is saved
    instead, under the path with ".stl" replaced by ".blend".  When the
    file was opened and a write fails, the same happens and the STL
    file stays behind, empty.  When saving the scene fails as well,
    nothing is written.  In all three cases export_stl returns
    normally and prints what failed. *)
Theorem trilobe_export_stl_fallback h obj filename o m mats w :
  quiet h -> lookup obj (objects w) = Some o -> obj_data o = MESH m mats ->
  (forall w', raises h (bmesh_from_mesh m) w' = None) ->
  let filepath := Str.path_join TriLobe.export_path filename in
  let blend_path := Str.replace ".stl" ".blend" filepath in
  let scene := map snd (objects (before_try h obj o m w)) in
  (forall e,
     (forall w', raises h (file_open filepath) w' = Some e) -> is_Exception e = true ->
     (forall w', raises h (wm_save_as_mainfile blend_path) w' = None) ->
     exists w',
       TriLobe.export_stl h obj filename w = (Ok tt, w')
       /\ files w' = files w ++ [(blend_path, BlendFile scene)]
       /\ stdout w' = stdout w ++ [validity_report h o m; Export_failed filename e;
                                   Saved_as_blender_file_instead blend_path])
  /\ (forall e,
      (forall w', raises h (file_open filepath) w' = None) ->
      (forall s w', raises h (file_write filepath s) w' = Some e) -> is_Exception e = true ->
      (forall w', raises h (wm_save_as_mainfile blend_path) w' = None) ->
      exists w',
        TriLobe.export_stl h obj filename w = (Ok tt, w')
        /\ files w' = files w ++ [(filepath, Text ""); (blend_path, BlendFile scene)]
        /\ stdout w' = stdout w ++ [validity_report h o m; Export_failed filename e;
                                    Saved_as_blender_file_instead blend_path])
  /\ (forall e e2,
      (forall w', raises h (file_open filepath) w' = Some e) -> is_Exception e = true ->
      (forall w', raises h (wm_save_as_mainfile blend_path) w' = Some e2) ->
      is_Exception e2 = true ->
      exists w',
        TriLobe.export_stl h obj filename w = (Ok tt, w')
        /\ files w' = files w
        /\ stdout w' = stdout w ++ [validity_report h o m; Export_failed filename e;
                                    All_export_methods_failed e2]).
Proof.
  intros Hq Hl Hd Hbm filepath blend_path scene.
  destruct (export_stl_enters_try h obj filename o m mats w Hq Hl Hd)
    as (Heq & (o2 & Hl2 & Hd2)).
  fold filepath in Heq. rewrite Heq.
  set (w0 := before_try h obj o m w) in *.
  set (is_valid := negb (Nat.ltb 0 (non_manifold_vertices h m))).
  assert (Hread : bm_from_mesh h obj w0 = (Ok m, log_call (bmesh_from_mesh m) w0))
    by (apply (bm_from_mesh_ok h (Hbm _) Hl2 Hd2)).
  assert (Hfiles0 : files w0 = files w) by reflexivity.
  assert (Hout0 : stdout w0 = stdout w ++ [validity_report h o m]) by reflexivity.
  assert (Hscene : forall c, map snd (objects (log_call c w0)) = scene) by reflexivity.
  unfold TriLobe.export_fallback, save_as_mainfile. fold blend_path.
  split; [|split].
  - intros e Hopen He Hsave.
    assert (Hattempt : TriLobe.export_attempt h obj filepath is_valid w0
                       = (Raise e, log_call (file_open filepath)
                                            (log_call (bmesh_from_mesh m) w0))).
    { unfold TriLobe.export_attempt. rewrite (bind_ok _ Hread).
      apply bind_raise. apply call_raises. apply Hopen. }
    rewrite (try_except_caught is_Exception _ Hattempt He).
    rewrite (bind_ok _ (print_ok _ _)).
    eexists. split.
    + apply try_except_ok.
      rewrite (bind_ok _ (call_modify_ok h _ _ _ (Hsave _))). apply print_ok.
    + cbn [files stdout objects with_stdout with_files log_call]. unfold write_file.
      rewrite Hfiles0, Hout0, <- !app_assoc. split; reflexivity.
  - intros e Hopen Hwrite He Hsave.
    assert (Hattempt : exists w1,
              TriLobe.export_attempt h obj filepath is_valid w0 = (Raise e, w1)
              /\ files w1 = files w ++ [(filepath, Text "")]
              /\ stdout w1 = stdout w0 /\ objects w1 = objects w0).
    { unfold TriLobe.export_attempt. rewrite (bind_ok _ Hread).
      rewrite (bind_ok _ (open_w_ok h _ _ (Hopen _))).
      eexists. split.
      - apply bind_raise. apply call_raises. apply Hwrite.
      - cbn [files stdout objects with_files log_call]. unfold write_file.
        rewrite Hfiles0. repeat split; reflexivity. }
    destruct Hattempt as (w1 & Hattempt & Hf1 & Ho1 & Hobj1).
    rewrite (try_except_caught is_Exception _ Hattempt He).
    rewrite (bind_ok _ (print_ok _ _)).
    eexists. split.
    + apply try_except_ok.
      rewrite (bind_ok _ (call_modify_ok h _ _ _ (Hsave _))). apply print_ok.
    + cbn [files stdout objects with_stdout with_files log_call]. unfold write_file.
      rewrite Hf1, Ho1, Hobj1, Hout0, <- !app_assoc. split; reflexivity.
  - intros e e2 Hopen He Hsave He2.
    assert (Hattempt : TriLobe.export_attempt h obj filepath is_valid w0
                       = (Raise e, log_call (file_open filepath)
                                            (log_call (bmesh_from_mesh m) w0))).
    { unfold TriLobe.export_attempt. rewrite (bind_ok _ Hread).
      apply bind_raise. apply call_raises. apply Hopen. }
    rewrite (try_except_caught is_Exception _ Hattempt He).
    rewrite (bind_ok _ (print_ok _ _)).
    eexists. split.
    + rewrite (try_except_caught is_Exception _
                 (bind_raise _ (call_raises h _ _ _ _ (Hsave _))) He2).
      apply print_ok.
    + cbn [files stdout with_stdout log_call].
      rewrite Hfiles0, Hout0, <- !app_assoc. split; reflexivity.
Qed.

Lemma read_only_host_quiet : quiet read_only_host.
Proof. intros c w H. destruct c; try reflexivity; discriminate H. Qed.

Lemma host_with_full_disk_quiet : quiet host_with_full_disk.
Proof. intros c w H. destruct c; try reflexivity; discriminate H. Qed.

Lemma trilobe_export_stl_fallback_witness :
  (exists w',
     TriLobe.export_stl read_only_host 0%nat "triangle.stl" triangle_world = (Ok tt, w')
     /\ map fst (files w') = ["out/triangle.blend"%string])
  /\ (exists w',
        TriLobe.export_stl host_with_full_disk 0%nat "triangle.stl" triangle_world = (Ok tt, w')
        /\ map fst (files w') = ["out/triangle.stl"; "out/triangle.blend"]%string).
Proof.
  split.
  - destruct (trilobe_export_stl_fallback read_only_host 0%nat "triangle.stl"
                (new_object "Triangle" (MESH (Cube 1) []) (Vec 0 0 0)) (Cube 1) []
                triangle_world read_only_host_quiet eq_refl eq_refl (fun _ => eq_refl))
      as (Ha & _ & _).
    destruct (Ha OSError) as (w' & Hrun & Hfiles & _); try reflexivity.
    exists w'. split; [exact Hrun|]. rewrite Hfiles. reflexivity.
  - destruct (trilobe_export_stl_fallback host_with_full_disk 0%nat "triangle.stl"
                (new_object "Triangle" (MESH (Cube 1) []) (Vec 0 0 0)) (Cube 1) []
                triangle_world host_with_full_disk_quiet eq_refl eq_refl (fun _ => eq_refl))
      as (_ & Hb & _).
    destruct (Hb OSError) as (w' & Hrun & Hfiles & _); try reflexivity.
    exists w'. split; [exact Hrun|]. rewrite Hfiles. reflexivity.
Defined.

(** X21.  Validation does not hold back the export in
    tri_lobe_tentacle_generator.py: for a mesh with non-manifold
    vertices export_stl prints the warning with their number, writes
    the same STL text as for a valid mesh, and marks the export line
    as not valid. *)
Theorem export_stl_ignores_validation h obj filename o m mats w :
  silent h -> lookup obj (objects w) = Some o -> obj_data o = MESH m mats ->
  (0 < non_manifold_vertices h m)%nat ->
  let filepath := Str.path_join TriLobe.export_path filename in
  exists w',
    TriLobe.export_stl h obj filename w = (Ok tt, w')
    /\ fst (TriLobe.validate_geometry h obj w) = Ok false
    /\ files w' = files w ++ [(filepath, Text (stl_text h (faces_of h m)))]
    /\ stdout w' = stdout w ++ [Non_manifold_warning (non_manifold_vertices h m) (obj_name o);
                                Exported_file false filepath].
Proof.
  intros Hs Hl Hd Hn filepath.
  exists (exported h obj filename o m w).
  apply Nat.ltb_lt in Hn.
  split; [exact (export_stl_ok h obj filename o m mats w Hs Hl Hd)|]. split; [|split].
  - rewrite (validate_geometry_ok h obj o m mats w (silent_quiet h Hs) Hl Hd), Hn. reflexivity.
  - unfold exported; cbn [files]. rewrite append_lines_opened, stl_lines_text. reflexivity.
  - unfold exported, validity_report; cbn [stdout]. rewrite Hn. reflexivity.
Qed.

Lemma export_stl_ignores_validation_witness :
  exists w',
    TriLobe.export_stl host_with_open_meshes 0%nat "triangle.stl" triangle_world = (Ok tt, w')
    /\ files w' = [("out/triangle.stl"%string, Text (stl_text host_with_open_meshes [triangle]))]
    /\ stdout w' = [Non_manifold_warning 3 "Triangle"; Exported_file false "out/triangle.stl"].
Proof.
  destruct (export_stl_ignores_validation host_with_open_meshes 0%nat "triangle.stl"
              (new_object "Triangle" (MESH (Cube 1) []) (Vec 0 0 0)) (Cube 1) []
              triangle_world (fun _ _ => eq_refl) eq_refl eq_refl ltac:(cbn; lia))
    as (w' & Hrun & _ & Hf & Ho).
  exists w'. split; [exact Hrun|]. split; [exact Hf|exact Ho].
Defined.

(* ================================================================== *)
(** * Grouping objects by their names *)

Lemma string_of_uint_digits d : all_digits (NilEmpty.string_of_uint d) = true.
Proof. induction d; cbn [NilEmpty.string_of_uint all_digits]; try rewrite IHd; reflexivity. Qed.

Lemma of_nat_digits n : all_digits (Str.of_nat n) = true.
Proof.
  unfold Str.of_nat, NilZero.string_of_uint.
  destruct (Nat.to_uint n) eqn:E; try (rewrite <- E; apply string_of_uint_digits).
  reflexivity.
Qed.

Lemma prefix_cons a p c s :
  String.prefix (String a p) (String c s) = Ascii.eqb a c && String.prefix p s.
Proof.
  cbn [String.prefix]. destruct (Ascii.ascii_dec a c) as [E|E].
  - subst. rewrite Ascii.eqb_refl. reflexivity.
  - apply Ascii.eqb_neq in E. rewrite E. reflexivity.
Qed.

Lemma prefix_empty s : String.prefix "" s = true.
Proof. destruct s; reflexivity. Qed.

Lemma contains_cons p c s :
  Str.contains p (String c s) = String.prefix p (String c s) || Str.contains p s.
Proof. cbn [Str.contains]. destruct (String.prefix p (String c s)); reflexivity. Qed.

Lemma contains_nil a p : Str.contains (String a p) "" = false.
Proof. reflexivity. Qed.

Lemma eqb_digit a c : is_digit a = false -> is_digit c = true -> Ascii.eqb a c = false.
Proof.
  intros Ha Hc. apply Ascii.eqb_neq. intros E. subst. congruence.
Qed.

(** A pattern that starts with a character other than a digit does not
    start inside a number. *)
Lemma prefix_digits a p s :
  is_digit a = false -> all_digits s = true -> String.prefix (String a p) s = false.
Proof.
  intros Ha Hs. destruct s as [|c s]; [reflexivity|].
  cbn [all_digits] in Hs. apply andb_prop in Hs. destruct Hs as [Hc _].
  rewrite prefix_cons, (eqb_digit a c Ha Hc). reflexivity.
Qed.

Lemma contains_digits_app a p s t :
  is_digit a = false -> all_digits s = true ->
  Str.contains (String a p) (s ++ t) = Str.contains (String a p) t.
Proof.
  intros Ha. induction s as [|c s IH]; intros Hs; [reflexivity|].
  cbn [all_digits] in Hs. apply andb_prop in Hs. destruct Hs as [Hc Hs].
  cbn [String.append]. rewrite contains_cons, prefix_cons, (eqb_digit a c Ha Hc).
  cbn [andb orb]. apply IH. exact Hs.
Qed.

Lemma contains_digits a p s :
  is_digit a = false -> all_digits s = true -> Str.contains (String a p) s = false.
Proof.
  intros Ha Hs. rewrite <- (string_append_empty s).
  rewrite contains_digits_app by assumption. reflexivity.
Qed.

(** Evaluation of a search in a string whose unknown parts are numbers. *)
Ltac search_names :=
  repeat first
    [ rewrite contains_cons
    | rewrite prefix_cons
    | rewrite prefix_empty
    | rewrite contains_digits_app by (first [reflexivity | apply of_nat_digits])
    | rewrite contains_digits by (first [reflexivity | apply of_nat_digits])
    | rewrite prefix_digits by (first [reflexivity | apply of_nat_digits])
    | progress cbn [Ascii.eqb Bool.eqb andb orb String.append String.prefix Str.contains] ].

(** X22.  The names the scripts build and the tests by which they sort
    objects agree, for every index.  In render_tentacle_cli.py a
    bladder named by create_bladders for lobe 0, 1 or 2 is put in the
    group of exactly that lobe by join_bladders_and_channels, and the
    channel of a lobe is found by the tag of that lobe and no other.
    In tri_lobe_tentacle_generator.py the copy of a bladder counts as
    a bladder and neither as a channel nor as a connector when [main]
    sorts the copies. *)
Theorem names_sort_objects lobe i :
  (lobe < 3)%nat ->
  Cli.lobe_of_bladder_name (cli_bladder_name lobe i) = Some lobe
  /\ (forall other, (other < 3)%nat ->
      Str.contains ("_Lobe_" ++ Str.of_nat (other + 1)) (cli_channel_name lobe)
      = Nat.eqb other lobe)
  /\ (forall lobe_index,
      Str.contains "Bladder" (trilobe_bladder_core_name lobe_index i) = true
      /\ Str.contains "Channel" (trilobe_bladder_core_name lobe_index i) = false
      /\ Str.contains "Connector" (trilobe_bladder_core_name lobe_index i) = false).
Proof.
  intros Hlobe. split; [|split].
  - unfold Cli.lobe_of_bladder_name, cli_bladder_name.
    pose proof (of_nat_digits (i + 1)) as Hs. set (s := Str.of_nat (i + 1)) in *.
    destruct lobe as [|[|[|lobe]]]; try lia; cbn [range seq find Nat.add];
      change (Str.of_nat 1) with "1"%string; change (Str.of_nat 2) with "2"%string;
      change (Str.of_nat 3) with "3"%string; cbn [String.append].
    + search_names. reflexivity.
    + search_names. reflexivity.
    + search_names. reflexivity.
  - intros other Hother. unfold cli_channel_name.
    destruct lobe as [|[|[|lobe]]]; try lia; destruct other as [|[|[|other]]]; try lia;
      reflexivity.
  - intros lobe_index. unfold trilobe_bladder_core_name.
    pose proof (of_nat_digits (i + 1)) as Hs. set (s := Str.of_nat (i + 1)) in *.
    pose proof (of_nat_digits (lobe_index + 1)) as Hs1.
    set (s1 := Str.of_nat (lobe_index + 1)) in *.
    cbn [String.append].
    repeat split; search_names; reflexivity.
Qed.

Lemma names_sort_objects_witness :
  Cli.lobe_of_bladder_name (cli_bladder_name 1 7) = Some 1%nat.
Proof. apply (names_sort_objects 1 7). lia. Defined.

(* ================================================================== *)
(** * More of the runs of render_tentacle_cli.py *)

Ltac cli_run_setup Hrun :=
  unfold Cli.main, Cli.create_bladders, Cli.create_channels, Cli.setup_output_dir in Hrun;
  rewrite bladder_indices_eq in Hrun;
  cbn [for_collect range seq] in Hrun;
  unfold Cli.create_channel in Hrun.

(** X23.  What a successful run of render_tentacle_cli.py saves and
    exports.  The scene file is saved before the hydraulic systems are
    joined: it holds the body, the three hydraulic systems as separate
    objects, the camera with its target and the four lights, and no
    bladder, each bladder having been removed once united.  The STL
    file of the hydraulic systems holds one object, the systems of
    lobes 2 and 3 joined into that of lobe 1, each system being the
    rotated cone of its channel with its eight bladders united into
    it from the base upwards. *)
Theorem cli_run_saves_systems_apart h :
  exists w,
    Cli.main (never_raises h) startup_world = (Ok tt, w)
    /\ map (fun f => scene_names (snd f)) (files w) =
         [[]; ["TentacleBody"; "HydraulicSystem_Lobe_1"; "HydraulicSystem_Lobe_2";
               "HydraulicSystem_Lobe_3"; "RenderCamera"; "CameraTarget";
               "MainLight"; "FillLight"; "TopLight"; "BackLight"]%string; []; []]
    /\ map (fun f => exported_meshes (snd f)) (skipn 3 (files w)) =
         [[("HydraulicSystem_Lobe_1"%string,
            Joined (Joined (cli_hydraulic_mesh 0) (cli_hydraulic_mesh 1))
                   (cli_hydraulic_mesh 2))]]
    /\ materials w =
         ["Material"; "TentacleBody"; "BladderMaterial_0"; "BladderMaterial_1";
          "BladderMaterial_2"; "ChannelMaterial_L1"; "ChannelMaterial_L2";
          "ChannelMaterial_L3"]%string.
Proof.
  destruct h as [r f nm pe dir fs].
  remember (Cli.main (never_raises (Host r f nm pe dir fs)) startup_world) as run eqn:Hrun.
  cli_run_setup Hrun.
  unfold cli_hydraulic_mesh, cli_channel_mesh.
  destruct (channel_rotation_applied 0) as (a0 & x0 & E0).
  destruct (channel_rotation_applied 1) as (a1 & x1 & E1).
  destruct (channel_rotation_applied 2) as (a2 & x2 & E2).
  rewrite E0, E1, E2 in Hrun |- *.
  run_script_in Hrun.
  destruct (pe _); subst run; (eexists; split; [reflexivity|]);
    run_script; repeat split; reflexivity.
Qed.

(** X24.  On a host with neither STL operator, a run of
    render_tentacle_cli.py still returns normally and writes no STL
    file at all: after the render and the scene file, each of the two
    exports saves the whole scene once more, under the path of the
    STL file with ".stl" replaced by ".blend". *)
Theorem cli_run_without_stl_operators h :
  exists w,
    Cli.main (failing_on stl_operators_missing h) startup_world = (Ok tt, w)
    /\ outputs w =
         [(Str.path_join (Cli.output_dir h) "tentacle_camera_view.png", RenderImage);
          (Str.path_join (Cli.output_dir h) "tentacle_complete.blend", SceneFile);
          (Str.replace ".stl" ".blend"
             (Str.path_join (Cli.output_dir h) "tentacle_body.stl"), SceneFile);
          (Str.replace ".stl" ".blend"
             (Str.path_join (Cli.output_dir h) "tentacle_hydraulic_systems.stl"), SceneFile)]
    /\ map (fun f => List.length (scene_names (snd f))) (files w) = [0; 10; 10; 8]%nat
    /\ filter (fun m => match m with
                        | Stl_not_available_saved_as _ | Exported _ | Exported_method_2 _
                        | Could_not_export _ => true
                        | _ => false
                        end) (stdout w) =
         [Stl_not_available_saved_as
            (Str.replace ".stl" ".blend" (Str.path_join (Cli.output_dir h) "tentacle_body.stl"));
          Stl_not_available_saved_as
            (Str.replace ".stl" ".blend"
               (Str.path_join (Cli.output_dir h) "tentacle_hydraulic_systems.stl"))].
Proof.
  destruct h as [r f nm pe dir fs].
  remember (Cli.main (failing_on stl_operators_missing (Host r f nm pe dir fs)) startup_world)
    as run eqn:Hrun.
  cli_run_setup Hrun.
  destruct (channel_rotation_applied 0) as (a0 & x0 & E0).
  destruct (channel_rotation_applied 1) as (a1 & x1 & E1).
  destruct (channel_rotation_applied 2) as (a2 & x2 & E2).
  rewrite E0, E1, E2 in Hrun.
  unfold Cli.export_stl, Cli.export_method_3 in Hrun.
  set (p1 := Str.replace ".stl" ".blend"
               (Str.path_join (Cli.output_dir (failing_on stl_operators_missing
                                                          (Host r f nm pe dir fs)))
                              "tentacle_body.stl")) in Hrun.
  set (p2 := Str.replace ".stl" ".blend"
               (Str.path_join (Cli.output_dir (failing_on stl_operators_missing
                                                          (Host r f nm pe dir fs)))
                              "tentacle_hydraulic_systems.stl")) in Hrun.
  assert (Hp1 : p1 = Str.replace ".stl" ".blend"
                       (Str.path_join (Cli.output_dir (Host r f nm pe dir fs))
                                      "tentacle_body.stl")) by reflexivity.
  assert (Hp2 : p2 = Str.replace ".stl" ".blend"
                       (Str.path_join (Cli.output_dir (Host r f nm pe dir fs))
                                      "tentacle_hydraulic_systems.stl")) by reflexivity.
  rewrite <- Hp1, <- Hp2. clearbody p1 p2.
  run_script_in Hrun.
  destruct (pe _); subst run; (eexists; split; [reflexivity|]);
    run_script; repeat split; reflexivity.
Qed.

(** X25.  render_tentacle_cli.py has no [try] around its render: when
    the render operator raises, whatever the exception, [main] raises
    it too, before the scene file or any STL file is written, with
    the scene already built. *)
Theorem cli_run_stops_at_failed_render h e :
  exists w,
    Cli.main (failing_on (render_failing e) h) startup_world = (Raise e, w)
    /\ files w = []
    /\ map (fun ko => obj_name (snd ko)) (objects w) =
         ["TentacleBody"; "HydraulicSystem_Lobe_1"; "HydraulicSystem_Lobe_2";
          "HydraulicSystem_Lobe_3"; "RenderCamera"; "CameraTarget";
          "MainLight"; "FillLight"; "TopLight"; "BackLight"]%string.
Proof.
  destruct h as [r f nm pe dir fs].
  remember (Cli.main (failing_on (render_failing e) (Host r f nm pe dir fs)) startup_world)
    as run eqn:Hrun.
  cli_run_setup Hrun.
  destruct (channel_rotation_applied 0) as (a0 & x0 & E0).
  destruct (channel_rotation_applied 1) as (a1 & x1 & E1).
  destruct (channel_rotation_applied 2) as (a2 & x2 & E2).
  rewrite E0, E1, E2 in Hrun.
  run_script_in Hrun.
  destruct (pe _); subst run; (eexists; split; [reflexivity|]);
    run_script; repeat split; reflexivity.
Qed.

(** X26.  render_tentacle_cli.py sets the render engine
    BLENDER_EEVEE_NEXT without a fallback: on a host that does not
    know this engine, whatever others it knows, setup_render raises
    [TypeError] and [main] with it, once the scene is built and before
    anything is rendered, saved or exported. *)
Theorem cli_run_needs_eevee_next accepts h :
  accepts "BLENDER_EEVEE_NEXT"%string = false ->
  exists w,
    Cli.main (failing_on (engines accepts) h) startup_world = (Raise TypeError, w)
    /\ files w = []
    /\ filter is_set_engine (calls w) = [set_render_engine "BLENDER_EEVEE_NEXT"]
    /\ List.length (objects w) = 10%nat.
Proof.
  intros Hacc.
  destruct h as [r f nm pe dir fs].
  remember (Cli.main (failing_on (engines accepts) (Host r f nm pe dir fs)) startup_world)
    as run eqn:Hrun.
  cli_run_setup Hrun.
  destruct (channel_rotation_applied 0) as (a0 & x0 & E0).
  destruct (channel_rotation_applied 1) as (a1 & x1 & E1).
  destruct (channel_rotation_applied 2) as (a2 & x2 & E2).
  rewrite E0, E1, E2 in Hrun.
  run_script_in Hrun. rewrite Hacc in Hrun.
  destruct (pe _); subst run; (eexists; split; [reflexivity|]);
    run_script; repeat split; reflexivity.
Qed.

Lemma cli_run_needs_eevee_next_witness :
  exists w,
    Cli.main (failing_on (engines (String.eqb "BLENDER_EEVEE")) ideal_host) startup_world
    = (Raise TypeError, w)
    /\ files w = [].
Proof.
  destruct (cli_run_needs_eevee_next (String.eqb "BLENDER_EEVEE") ideal_host eq_refl)
    as (w & Hrun & Hfiles & _).
  exists w. split; [exact Hrun|exact Hfiles].
Defined.

Lemma prefix_refl_app a b : String.prefix a (a ++ b) = true.
Proof.
  induction a as [|c a IH]; [apply prefix_empty|].
  cbn [String.append]. rewrite prefix_cons, Ascii.eqb_refl, IH. reflexivity.
Qed.

(** A relative name joined to a directory stays under the directory. *)
Lemma path_join_under a b :
  a <> ""%string -> String.prefix "/" b = false ->
  String.prefix a (Str.path_join a b) = true.
Proof.
  intros Ha Hb. unfold Str.path_join. rewrite Hb.
  destruct (String.eqb a "") eqn:E; [apply String.eqb_eq in E; contradiction|].
  destruct (Str.ends_with_slash a); apply prefix_refl_app.
Qed.

Lemma output_dir_not_empty h : Cli.output_dir h <> ""%string.
Proof.
  unfold Cli.output_dir, Str.path_join. cbn [String.prefix].
  destruct (String.eqb (script_dir h) "") eqn:E; [discriminate|].
  destruct (script_dir h) as [|c s]; [discriminate E|].
  destruct (Str.ends_with_slash (String c s)); discriminate.
Qed.

(** X27.  A successful run of render_tentacle_cli.py writes nowhere
    but under its output directory, the directory "out" beside the
    script: every file it writes has the path of that directory as a
    prefix.  It creates the directory first when, and only when, it
    does not exist. *)
Theorem cli_run_writes_under_output_dir h :
  exists w,
    Cli.main (never_raises h) startup_world = (Ok tt, w)
    /\ List.length (files w) = 4%nat
    /\ Forall (fun f => String.prefix (Cli.output_dir h) (fst f) = true) (files w)
    /\ filter is_makedirs (calls w) =
         (if path_exists h (Cli.output_dir h) then [] else [os_makedirs (Cli.output_dir h)])
    /\ Cli.output_dir h = Str.path_join (script_dir h) "out".
Proof.
  assert (Hunder : forall name, String.prefix "/" name = false ->
                   String.prefix (Cli.output_dir h) (Str.path_join (Cli.output_dir h) name) = true).
  { intros name Hrel. apply path_join_under; [apply output_dir_not_empty|exact Hrel]. }
  assert (Hfiles : exists w,
            Cli.main (never_raises h) startup_world = (Ok tt, w)
            /\ map fst (files w) =
                 map (Str.path_join (Cli.output_dir h))
                     ["tentacle_camera_view.png"; "tentacle_complete.blend";
                      "tentacle_body.stl"; "tentacle_hydraulic_systems.stl"]%string
            /\ filter is_makedirs (calls w) =
                 (if path_exists h (Cli.output_dir h) then []
                  else [os_makedirs (Cli.output_dir h)])).
  { clear Hunder. destruct h as [r f nm pe dir fs].
    remember (Cli.main (never_raises (Host r f nm pe dir fs)) startup_world) as run eqn:Hrun.
    cli_run_setup Hrun.
    destruct (channel_rotation_applied 0) as (a0 & x0 & E0).
    destruct (channel_rotation_applied 1) as (a1 & x1 & E1).
    destruct (channel_rotation_applied 2) as (a2 & x2 & E2).
    rewrite E0, E1, E2 in Hrun.
    run_script_in Hrun.
    destruct (pe _) eqn:Epe; subst run; (eexists; split; [reflexivity|]);
      run_script; try rewrite Epe; repeat split; reflexivity. }
  destruct Hfiles as (w & Hrun & Hpaths & Hmk).
  exists w. split; [exact Hrun|]. split; [|split; [|split; [exact Hmk|reflexivity]]].
  - rewrite <- (length_map fst), Hpaths. reflexivity.
  - apply Forall_forall. intros [p c] Hin.
    assert (Hp : In p (map fst (files w))) by (apply (in_map fst _ _ Hin)).
    rewrite Hpaths in Hp. cbn [map In fst] in Hp |- *.
    destruct Hp as [Hp|[Hp|[Hp|[Hp|[]]]]]; subst p; apply Hunder; reflexivity.
Qed.

(* ================================================================== *)
(** * More of the runs of tri_lobe_tentacle_generator.py *)

Section WritingHost.
Variable h : host.
Hypothesis writing_passes : forall c w, is_stl_writing_call c = true -> raises h c w = None.

Lemma write_passes path s w : write h path s w = (Ok tt, written path [s] w).
Proof. unfold write. rewrite call_ok by (apply writing_passes; reflexivity). reflexivity. Qed.

Lemma write_verts_passes path vs : forall w,
  TriLobe.write_verts h path vs w = (Ok tt, written path (map (TriLobe.vertex_line h) vs) w).
Proof.
  unfold TriLobe.write_verts.
  induction vs as [|v rest IH]; intros w; [reflexivity|].
  cbn [for_each map]. rewrite (bind_ok _ (write_passes _ _ _)), IH. reflexivity.
Qed.

Lemma write_face_passes path f w :
  TriLobe.write_face h path f w = (Ok tt, written path (face_lines h f) w).
Proof.
  unfold TriLobe.write_face, face_lines.
  rewrite (bind_ok _ (write_passes _ _ _)), (bind_ok _ (write_passes _ _ _)),
          (bind_ok _ (write_verts_passes _ _ _)), (bind_ok _ (write_passes _ _ _)),
          (write_passes _ _ _).
  rewrite !written_app. reflexivity.
Qed.

Lemma write_faces_passes path fs : forall w,
  TriLobe.write_faces h path fs w = (Ok tt, written path (flat_map (face_lines h) fs) w).
Proof.
  unfold TriLobe.write_faces.
  induction fs as [|f rest IH]; intros w; [reflexivity|].
  cbn [for_each flat_map]. rewrite (bind_ok _ (write_face_passes _ _ _)), IH, written_app.
  reflexivity.
Qed.

Lemma validate_geometry_passes obj o m mats w :
  lookup obj (objects w) = Some o -> obj_data o = MESH m mats ->
  TriLobe.validate_geometry h obj w =
    (Ok (negb (Nat.ltb 0 (non_manifold_vertices h m))),
     World (objects w) (next_id w) (Some obj) (materials w) (render_filepath w) (files w)
           (stdout w ++ [validity_report h o m]) (calls w ++ validation_calls)).
Proof.
  intros Hl Hd. unfold TriLobe.validate_geometry, validity_report.
  unfold mode_set, mesh_select_op.
  rewrite (bind_ok _ (set_active_ok obj w)).
  erewrite bind_ok by (apply call_no_effect_ok; apply writing_passes; reflexivity).
  erewrite bind_ok by (apply call_no_effect_ok; apply writing_passes; reflexivity).
  erewrite bind_ok by (apply call_no_effect_ok; apply writing_passes; reflexivity).
  erewrite bind_ok by (apply get_object_ok; exact Hl).
  rewrite Hd.
  erewrite bind_ok by (apply call_no_effect_ok; apply writing_passes; reflexivity).
  destruct (Nat.ltb 0 (non_manifold_vertices h m)); world_norm; reflexivity.
Qed.

(** The STL file gets written as soon as the calls of the exporter
    itself go through, whatever else fails on the host. *)
Lemma export_stl_passes obj filename o m mats w :
  lookup obj (objects w) = Some o -> obj_data o = MESH m mats ->
  TriLobe.export_stl h obj filename w = (Ok tt, exported h obj filename o m w).
Proof.
  intros Hl Hd.
  assert (Hheld : holds obj (MESH m mats) (deselected (objects w))).
  { apply holds_deselected. exists o. split; assumption. }
  destruct Hheld as [o1 [Hl1 Hd1]].
  unfold TriLobe.export_stl.
  rewrite (bind_ok _ (validate_geometry_passes _ _ _ _ _ Hl Hd)).
  rewrite (bind_ok _ (deselect_scene_objects_ok _)).
  unfold TriLobe.select_set.
  erewrite bind_ok by (apply (set_object_ok _ (o := o1)); exact Hl1).
  rewrite (bind_ok _ (set_active_ok obj _)).
  apply try_except_ok. unfold TriLobe.export_attempt.
  erewrite bind_ok.
  2:{ apply (bm_from_mesh_ok h (o := with_selected true o1) (mats := mats)).
      - apply writing_passes. reflexivity.
      - cbn [objects with_objects with_active].
        rewrite lookup_update, Nat.eqb_refl, Hl1. reflexivity.
      - exact Hd1. }
  erewrite bind_ok by (apply open_w_ok; apply writing_passes; reflexivity).
  rewrite (bind_ok _ (write_passes _ _ _)), (bind_ok _ (write_faces_passes _ _ _)),
          (bind_ok _ (write_passes _ _ _)).
  rewrite <- !written_app, written_fields.
  unfold exported, stl_lines. world_norm. reflexivity.
Qed.
End WritingHost.

Lemma background_mode_lets_write f nm pe dir fs :
  forall c w, is_stl_writing_call c = true ->
  raises (Host (fun c _ => background_mode c) f nm pe dir fs) c w = None.
Proof. intros c w Hc. destruct c; try reflexivity; discriminate Hc. Qed.

Ltac export_stl_step_on Hhost H :=
  erewrite (export_stl_passes _ Hhost) in H
    by (cbv [lookup objects Nat.eqb obj_data]; reflexivity);
  run_script_in H;
  rewrite append_lines_opened, stl_lines_text in H;
  run_script_in H.

(** X28.  Run in background mode on a release that does not know the
    render engine BLENDER_EEVEE_NEXT, with a purge and a render that
    fail, [main] of tri_lobe_tentacle_generator.py still returns
    normally and writes both STL files, with the text it writes on a
    host where everything works: the unknown engine makes it fall
    back to BLENDER_EEVEE, the missing EEVEE settings and the missing
    screen are skipped, the failed purge is replaced by the manual
    clean-up, and the failed render only costs the image. *)
Theorem trilobe_run_in_background h :
  exists w,
    TriLobe.main (failing_on background_mode h) startup_world = (Ok tt, w)
    /\ files w =
         [("out/tri_lobe_tentacle.stl"%string,
           Text (stl_text h (faces_of h trilobe_body_mesh)));
          ("out/sacrificial_cores.stl"%string,
           Text (stl_text h (faces_of h trilobe_cores_mesh)))]
    /\ filter is_set_engine (firstn 8 (calls w)) =
         [set_render_engine "BLENDER_EEVEE_NEXT"; set_render_engine "BLENDER_EEVEE"]
    /\ firstn 1 (stdout w) = [Render_failed RuntimeError].
Proof.
  destruct h as [r f nm pe dir fs].
  remember (TriLobe.main (failing_on background_mode (Host r f nm pe dir fs)) startup_world)
    as run eqn:Hrun.
  unfold TriLobe.main, TriLobe.main_for in Hrun.
  unfold failing_on in Hrun. cbn [faces_of non_manifold_vertices path_exists script_dir float_str]
    in Hrun.
  run_script_in Hrun.
  export_stl_step_on (background_mode_lets_write f nm pe dir fs) Hrun.
  export_stl_step_on (background_mode_lets_write f nm pe dir fs) Hrun.
  subst run. eexists. split; [reflexivity|].
  run_script. cbv [write_file app]. repeat split; reflexivity.
Qed.

(** X29.  The copies [main] of tri_lobe_tentacle_generator.py makes of
    the voids stay in the scene: create_sacrificial_cores unites them
    into the first copy, which it renames, and removes none.  After a
    successful run the scene holds 64 objects; the thirty voids are
    hidden, and what is visible is the camera, the light, the build
    volume, the body, the united cores and the 29 other copies. *)
Theorem trilobe_run_leaves_core_copies h :
  exists w,
    TriLobe.main (never_raises h) startup_world = (Ok tt, w)
    /\ List.length (objects w) = 64%nat
    /\ map obj_name (visible_objects w) =
         (["TentacleCamera"; "KeyLight"; "BuildVolumeReference"; "TriLobeTentacleBody";
           "SacrificialCores"]%string
          ++ map (fun name => (name ++ "_Core")%string) (tl trilobe_void_names))%list
    /\ map mesh_of (skipn 5 (visible_objects w)) = map Some (tl trilobe_void_meshes)
    /\ map mesh_of (firstn 1 (skipn 4 (visible_objects w))) = [Some trilobe_cores_mesh].
Proof.
  destruct h as [r f nm pe dir fs].
  remember (TriLobe.main (never_raises (Host r f nm pe dir fs)) startup_world) as run eqn:Hrun.
  unfold TriLobe.main, TriLobe.main_for in Hrun.
  run_script_in Hrun.
  export_stl_step Hrun.
  export_stl_step Hrun.
  subst run. eexists. split; [reflexivity|].
  run_script. cbv [write_file app]. repeat split; reflexivity.
Qed.
